(** * pgtype: the type registry, plan resolution and plan memoization of
    [pgtype/pgtype.go], embedded as executable definitions.

    Conventions of the embedding.
    - [uint32] identifiers are [N], [int16] format codes are [Z].
    - Go maps are stdpp [gmap]s; a map that the code sets to [nil] and
      rebuilds lazily ([reflectTypeToType]) is an [option] of a [gmap].
    - [interface{}] values are [any := option Value]: [None] is the nil
      interface, [Some v] carries the dynamic type and the data word.
    - memory reached through pointers is an explicit [Heap]; addresses
      are indices into it, allocation appends a cell.
    - a Go panic is the result [Panic]; a recursion that the model cuts
      because its fuel is spent is [OutOfFuel].
    - a [*Type] is modelled by the descriptor it points to (descriptors
      are not mutated after registration). *)

From stdpp Require Import base option list gmap strings countable fin_maps.
From Stdlib Require Import ZArith Lia.

Open Scope Z_scope.

(** ** PostgreSQL oids and format codes used by the resolver *)

Definition ByteaOID : N := 17%N.
Definition QCharOID : N := 18%N.
Definition NameOID : N := 19%N.
Definition Int4OID : N := 23%N.
Definition TextOID : N := 25%N.
Definition QCharArrayOID : N := 1003%N.
Definition NameArrayOID : N := 1003%N.
Definition VarcharOID : N := 1043%N.

Definition TextFormatCode : Z := 0.
Definition BinaryFormatCode : Z := 1.

(** ** reflect.Kind and reflect.Type *)

Inductive Kind :=
  | KInvalid | KBool
  | KInt | KInt8 | KInt16 | KInt32 | KInt64
  | KUint | KUint8 | KUint16 | KUint32 | KUint64 | KUintptr
  | KFloat32 | KFloat64 | KComplex64 | KComplex128
  | KArray | KChan | KFunc | KInterface | KMap | KPtr | KSlice
  | KString | KStruct | KUnsafePointer.

Global Instance Kind_eq_dec : EqDecision Kind.
Proof. solve_decision. Defined.

(** The predeclared scalar types. *)
Inductive Basic :=
  | BBool
  | BInt | BInt8 | BInt16 | BInt32 | BInt64
  | BUint | BUint8 | BUint16 | BUint32 | BUint64 | BUintptr
  | BFloat32 | BFloat64 | BComplex64 | BComplex128
  | BString | BUnsafePointer.

Global Instance Basic_eq_dec : EqDecision Basic.
Proof. solve_decision. Defined.

Definition Basic_kind (b : Basic) : Kind :=
  match b with
  | BBool => KBool
  | BInt => KInt | BInt8 => KInt8 | BInt16 => KInt16 | BInt32 => KInt32
  | BInt64 => KInt64
  | BUint => KUint | BUint8 => KUint8 | BUint16 => KUint16
  | BUint32 => KUint32 | BUint64 => KUint64 | BUintptr => KUintptr
  | BFloat32 => KFloat32 | BFloat64 => KFloat64
  | BComplex64 => KComplex64 | BComplex128 => KComplex128
  | BString => KString | BUnsafePointer => KUnsafePointer
  end.

Definition Basic_to_nat (b : Basic) : nat :=
  match b with
  | BBool => 0
  | BInt => 1 | BInt8 => 2 | BInt16 => 3 | BInt32 => 4 | BInt64 => 5
  | BUint => 6 | BUint8 => 7 | BUint16 => 8 | BUint32 => 9 | BUint64 => 10
  | BUintptr => 11
  | BFloat32 => 12 | BFloat64 => 13 | BComplex64 => 14 | BComplex128 => 15
  | BString => 16 | BUnsafePointer => 17
  end%nat.

Definition Basic_of_nat (n : nat) : Basic :=
  match n with
  | 0 => BBool
  | 1 => BInt | 2 => BInt8 | 3 => BInt16 | 4 => BInt32 | 5 => BInt64
  | 6 => BUint | 7 => BUint8 | 8 => BUint16 | 9 => BUint32 | 10 => BUint64
  | 11 => BUintptr
  | 12 => BFloat32 | 13 => BFloat64 | 14 => BComplex64 | 15 => BComplex128
  | 16 => BString | _ => BUnsafePointer
  end%nat.

Global Instance Basic_countable : Countable Basic.
Proof.
  refine (inj_countable' Basic_to_nat Basic_of_nat _).
  intros b. destruct b; reflexivity.
Defined.

(** A run-time type descriptor ([reflect.Type]).  [TNamed] is a defined
    type together with the names of the methods declared on value
    receivers and on pointer receivers; struct and func types are kept
    opaque (nothing embedded here inspects their fields or signature). *)
Inductive RType :=
  | TBasic (b : Basic)
  | TPtr (elem : RType)
  | TSlice (elem : RType)
  | TArray (len : N) (elem : RType)
  | TMap (key elem : RType)
  | TChan (elem : RType)
  | TEmptyInterface
  | TStruct (id : string)
  | TFunc (id : string)
  | TNamed (name : string) (methods ptrMethods : list string)
           (underlying : RType).

Global Instance RType_eq_dec : EqDecision RType.
Proof. solve_decision. Defined.

Definition RLeaf : Type := Basic + N + string + list string.

Fixpoint RType_to_tree (t : RType) : gen_tree RLeaf :=
  match t with
  | TBasic b => GenNode 0 [GenLeaf (inl (inl (inl b)))]
  | TPtr e => GenNode 1 [RType_to_tree e]
  | TSlice e => GenNode 2 [RType_to_tree e]
  | TArray n e => GenNode 3 [GenLeaf (inl (inl (inr n))); RType_to_tree e]
  | TMap k e => GenNode 4 [RType_to_tree k; RType_to_tree e]
  | TChan e => GenNode 5 [RType_to_tree e]
  | TEmptyInterface => GenNode 6 []
  | TStruct id => GenNode 7 [GenLeaf (inl (inr id))]
  | TFunc id => GenNode 8 [GenLeaf (inl (inr id))]
  | TNamed n ms pms u =>
      GenNode 9 [GenLeaf (inl (inr n)); GenLeaf (inr ms); GenLeaf (inr pms);
                 RType_to_tree u]
  end.

Fixpoint RType_of_tree (g : gen_tree RLeaf) : RType :=
  match g with
  | GenNode 0 [GenLeaf (inl (inl (inl b)))] => TBasic b
  | GenNode 1 [e] => TPtr (RType_of_tree e)
  | GenNode 2 [e] => TSlice (RType_of_tree e)
  | GenNode 3 [GenLeaf (inl (inl (inr n))); e] => TArray n (RType_of_tree e)
  | GenNode 4 [k; e] => TMap (RType_of_tree k) (RType_of_tree e)
  | GenNode 5 [e] => TChan (RType_of_tree e)
  | GenNode 7 [GenLeaf (inl (inr id))] => TStruct id
  | GenNode 8 [GenLeaf (inl (inr id))] => TFunc id
  | GenNode 9 [GenLeaf (inl (inr n)); GenLeaf (inr ms); GenLeaf (inr pms); u] =>
      TNamed n ms pms (RType_of_tree u)
  | _ => TEmptyInterface
  end.

Global Instance RType_countable : Countable RType.
Proof.
  refine (inj_countable' RType_to_tree RType_of_tree _).
  intros t. induction t; simpl; congruence.
Defined.

(** [Type.Kind()]: a defined type has the kind of its underlying type. *)
Fixpoint kindOf (t : RType) : Kind :=
  match t with
  | TBasic b => Basic_kind b
  | TPtr _ => KPtr
  | TSlice _ => KSlice
  | TArray _ _ => KArray
  | TMap _ _ => KMap
  | TChan _ => KChan
  | TEmptyInterface => KInterface
  | TStruct _ => KStruct
  | TFunc _ => KFunc
  | TNamed _ _ _ u => kindOf u
  end.

(** [Type.Elem()], which panics ([None]) unless the kind is Array, Chan,
    Map, Pointer or Slice. *)
Fixpoint elemOf (t : RType) : option RType :=
  match t with
  | TPtr e | TSlice e | TArray _ e | TMap _ e | TChan e => Some e
  | TNamed _ _ _ u => elemOf u
  | _ => None
  end.

(** The method set of a type: a defined type has its value-receiver
    methods, a pointer to a defined type has those of both receivers. *)
Definition methodSet (t : RType) : list string :=
  match t with
  | TNamed _ ms _ _ => ms
  | TPtr (TNamed _ ms pms _) => ms ++ pms
  | _ => []
  end.

(** ** Values, interface values and memory *)

Inductive Data :=
  | DNil                 (* nil pointer, slice, map, chan or func *)
  | DPtr (a : nat)       (* pointer to the heap cell [a] *)
  | DSlice (a : nat)     (* slice over the whole backing array in cell [a] *)
  | DString (s : string)
  | DInt (z : Z)
  | DBool (b : bool)
  | DZero                (* zero value of a float, struct or array type *)
  | DOther (n : N).      (* any other payload, uninterpreted *)

Record Value := mkValue { vtype : RType; vdata : Data }.

(** An [interface{}]: [None] is the nil interface. *)
Definition any : Type := option Value.

(** [reflect.TypeOf]: the nil interface has the nil [reflect.Type]. *)
Definition TypeOf (v : any) : option RType := vtype <$> v.

(** The contents of a [[]byte] where its backing array is not tracked
    (encode buffers, codec inputs): [None] is the nil slice. *)
Definition Bytes : Type := option (list Byte.byte).

(** A [[]byte] argument such as the [src] of a scan: [None] is the nil
    slice, [Some a] a slice over the backing array in cell [a]. *)
Definition ByteSlice : Type := option nat.

(** A heap cell is a variable of a concrete type, a variable of interface
    type (holding a dynamic value) or the backing array of a byte slice. *)
Inductive Cell :=
  | CVal (v : Value)
  | CAny (v : any)
  | CBytes (bs : list Byte.byte).

Abbreviation Heap := (list Cell) (only parsing).

(** Allocation takes the first unused address. *)
Definition alloc (h : Heap) (c : Cell) : nat * Heap := (length h, h ++ [c]).

Definition zeroData (t : RType) : Data :=
  match kindOf t with
  | KPtr | KSlice | KMap | KChan | KFunc | KInterface | KUnsafePointer => DNil
  | KString => DString ""
  | KBool => DBool false
  | KInt | KInt8 | KInt16 | KInt32 | KInt64
  | KUint | KUint8 | KUint16 | KUint32 | KUint64 | KUintptr => DInt 0
  | _ => DZero
  end.

(** [reflect.Zero(t)]. *)
Definition Zero (t : RType) : Value := mkValue t (zeroData t).

(** The cell of a fresh variable of type [t], as [reflect.New(t)] makes. *)
Definition zeroCell (t : RType) : Cell :=
  match kindOf t with
  | KInterface => CAny None
  | _ => CVal (Zero t)
  end.

(** ** Results: values, errors, panics *)

Inductive PanicReason :=
  | IndexOutOfRange (i : Z) (len : Z)
  | NilDereference
  | InterfaceConversion
  | ReflectPanic
  | OtherPanic (msg : string).

Inductive Res (A : Type) :=
  | Ret (a : A)
  | Panic (r : PanicReason)
  | OutOfFuel.
Arguments Ret {A} a.
Arguments Panic {A} r.
Arguments OutOfFuel {A}.

Inductive Error :=
  | ErrCannotScanNull (t : option RType)
  | ErrCannotScan (oid : N) (formatCode : Z) (t : option RType)
  | ErrUnableToEncode (value : any) (oid : N)
  | ErrOther (msg : string).

(** The signature of [ScanPlan.Scan] and of [EncodePlan.Encode]; the
    [error] result is [None] for [nil]. *)
Definition ScanFn : Type :=
  ByteSlice -> any -> Heap -> Res (Heap * option Error).
Definition EncodeFn : Type :=
  any -> Bytes -> Heap -> Res (Bytes * option Error).

(** ** Codecs and plans

    [Codec] is the capability interface of a per-type handler; its
    implementations live outside this file, so a codec is the record of
    its methods.  The [*Map] argument of the planning methods is not
    passed: codecs are taken not to touch the registry.  Planning reads
    the memory the sample value points into.

    [ScanPlan] and [EncodePlan] are the interface values the resolver
    hands out: one constructor per plan struct of this file, one for the
    plan types a codec defines, and [WrappedScanPlanNextSetter] /
    [WrappedEncodePlanNextSetter] for the adapter plans, whose [next]
    field is [None] until [SetNext] binds it. *)

Inductive Codec :=
  | mkCodec (FormatSupported : Z -> bool)
            (PreferredFormat : Z)
            (PlanEncode : Heap -> N -> Z -> any -> option EncodePlan)
            (PlanScan : Heap -> N -> Z -> any -> option ScanPlan)
            (DecodeDatabaseSQLValue : N -> Z -> Bytes -> any * option Error)
            (DecodeValue : N -> Z -> Bytes -> any * option Error)
with ScanPlan :=
  | scanPlanAnyToUndecodedBytes
  | scanPlanString
  | scanPlanAnyTextToBytes
  | scanPlanTextAnyToTextScanner
  | scanPlanFail (oid : N) (formatCode : Z)
  | scanPlanCodecSQLScanner (c : Codec) (oid : N) (formatCode : Z)
  | scanPlanSQLScanner (formatCode : Z)
  | pointerEmptyInterfaceScanPlan (codec : Codec) (oid : N) (formatCode : Z)
  | codecScanPlan (run : ScanFn)
  | wrappedScanPlan (w : WrappedScanPlanNextSetter)
with WrappedScanPlanNextSetter :=
  | pointerPointerScanPlan (dstType : RType) (next : option ScanPlan)
  | adapterScanPlan (adapt : Heap -> any -> Res any) (next : option ScanPlan)
with EncodePlan :=
  | encodePlanStringToAnyTextFormat
  | encodePlanTextValuerToAnyTextFormat
  | codecEncodePlan (run : EncodeFn)
  | wrappedEncodePlan (w : WrappedEncodePlanNextSetter)
with WrappedEncodePlanNextSetter :=
  | derefPointerEncodePlan (next : option EncodePlan)
  | adapterEncodePlan (adapt : Heap -> any -> Res any)
                      (next : option EncodePlan).

Definition Codec_FormatSupported (c : Codec) : Z -> bool :=
  let '(mkCodec f _ _ _ _ _) := c in f.
Definition Codec_PreferredFormat (c : Codec) : Z :=
  let '(mkCodec _ f _ _ _ _) := c in f.
Definition Codec_PlanEncode (c : Codec)
  : Heap -> N -> Z -> any -> option EncodePlan :=
  let '(mkCodec _ _ f _ _ _) := c in f.
Definition Codec_PlanScan (c : Codec)
  : Heap -> N -> Z -> any -> option ScanPlan :=
  let '(mkCodec _ _ _ f _ _) := c in f.
Definition Codec_DecodeDatabaseSQLValue (c : Codec)
  : N -> Z -> Bytes -> any * option Error :=
  let '(mkCodec _ _ _ _ f _) := c in f.
Definition Codec_DecodeValue (c : Codec)
  : N -> Z -> Bytes -> any * option Error :=
  let '(mkCodec _ _ _ _ _ f) := c in f.

(** [Type]: a registry entry. *)
Record Type_ := mkType {
  Type_Codec : Codec;
  Type_Name : string;
  Type_OID : N }.

(** ** The registry *)

(** An adapter rule probes a value (reading the memory it points into)
    and either declines ([None]) or returns its plan stub with the
    adapted value to resolve next; it can panic. *)
Definition TryWrapEncodePlanFunc : Type :=
  Heap -> any -> Res (option (WrappedEncodePlanNextSetter * any)).
Definition TryWrapScanPlanFunc : Type :=
  Heap -> any -> Res (option (WrappedScanPlanNextSetter * any)).

(** The two-slot array [[2]ScanPlan]; [None] is the nil interface. *)
Definition TypeMemo : Type := option ScanPlan * option ScanPlan.

(** [Map].  The maps made by [NewMap] are never nil; only
    [reflectTypeToType] is set to nil by the code. *)
Record Map := mkMap {
  oidToType : gmap N Type_;
  nameToType : gmap string Type_;
  reflectTypeToName : gmap (option RType) string;
  oidToFormatCode : gmap N Z;
  reflectTypeToType : option (gmap (option RType) Type_);
  memoizedScanPlans : gmap N (gmap (option RType) TypeMemo);
  TryWrapEncodePlanFuncs : list TryWrapEncodePlanFunc;
  TryWrapScanPlanFuncs : list TryWrapScanPlanFunc }.

(** The map [NewMap] allocates, before its [RegisterType] calls, with
    the given adapter chains. *)
Definition emptyMap (we : list TryWrapEncodePlanFunc)
    (ws : list TryWrapScanPlanFunc) : Map :=
  {| oidToType := ∅; nameToType := ∅; reflectTypeToName := ∅;
     oidToFormatCode := ∅; reflectTypeToType := None;
     memoizedScanPlans := ∅;
     TryWrapEncodePlanFuncs := we; TryWrapScanPlanFuncs := ws |}.

Definition set_reflectTypeToType (m : Map)
    (r : option (gmap (option RType) Type_)) : Map :=
  {| oidToType := oidToType m; nameToType := nameToType m;
     reflectTypeToName := reflectTypeToName m;
     oidToFormatCode := oidToFormatCode m;
     reflectTypeToType := r;
     memoizedScanPlans := memoizedScanPlans m;
     TryWrapEncodePlanFuncs := TryWrapEncodePlanFuncs m;
     TryWrapScanPlanFuncs := TryWrapScanPlanFuncs m |}.

Definition set_memoizedScanPlans (m : Map)
    (memo : gmap N (gmap (option RType) TypeMemo)) : Map :=
  {| oidToType := oidToType m; nameToType := nameToType m;
     reflectTypeToName := reflectTypeToName m;
     oidToFormatCode := oidToFormatCode m;
     reflectTypeToType := reflectTypeToType m;
     memoizedScanPlans := memo;
     TryWrapEncodePlanFuncs := TryWrapEncodePlanFuncs m;
     TryWrapScanPlanFuncs := TryWrapScanPlanFuncs m |}.

(** [for k := range memo { delete(memo, k) }]. *)
Definition deleteAllKeys (memo : gmap N (gmap (option RType) TypeMemo))
  : gmap N (gmap (option RType) TypeMemo) :=
  foldr (fun k acc => delete k acc) memo (fst <$> map_to_list memo).

Definition RegisterType (m : Map) (t : Type_) : Map :=
  {| oidToType := <[Type_OID t := t]> (oidToType m);
     nameToType := <[Type_Name t := t]> (nameToType m);
     reflectTypeToName := reflectTypeToName m;
     oidToFormatCode :=
       <[Type_OID t := Codec_PreferredFormat (Type_Codec t)]>
         (oidToFormatCode m);
     reflectTypeToType := None;
     memoizedScanPlans := deleteAllKeys (memoizedScanPlans m);
     TryWrapEncodePlanFuncs := TryWrapEncodePlanFuncs m;
     TryWrapScanPlanFuncs := TryWrapScanPlanFuncs m |}.

Definition RegisterDefaultPgType (m : Map) (value : any) (name : string)
  : Map :=
  {| oidToType := oidToType m;
     nameToType := nameToType m;
     reflectTypeToName := <[TypeOf value := name]> (reflectTypeToName m);
     oidToFormatCode := oidToFormatCode m;
     reflectTypeToType := None;
     memoizedScanPlans := deleteAllKeys (memoizedScanPlans m);
     TryWrapEncodePlanFuncs := TryWrapEncodePlanFuncs m;
     TryWrapScanPlanFuncs := TryWrapScanPlanFuncs m |}.

Definition TypeForOID (m : Map) (oid : N) : option Type_ :=
  oidToType m !! oid.

Definition TypeForName (m : Map) (name : string) : option Type_ :=
  nameToType m !! name.

(** The derived shape index: every default shape whose type name is
    registered. *)
Definition buildReflectTypeToType (m : Map) : Map :=
  set_reflectTypeToType m
    (Some (map_fold
             (fun reflectType name acc =>
                match nameToType m !! name with
                | Some dt => <[reflectType := dt]> acc
                | None => acc
                end)
             ∅ (reflectTypeToName m))).

(** [TypeForValue] rebuilds the shape index when it is nil, so it
    returns the registry too. *)
Definition TypeForValue (m : Map) (v : any) : option Type_ * Map :=
  let m' := match reflectTypeToType m with
            | None => buildReflectTypeToType m
            | Some _ => m
            end in
  (match reflectTypeToType m' with
   | Some idx => idx !! TypeOf v
   | None => None
   end, m').

Definition FormatCodeForOID (m : Map) (oid : N) : Z :=
  match oidToFormatCode m !! oid with
  | Some fc => fc
  | None => TextFormatCode
  end.

(** ** The monad of the resolver: registry state, call log, panics

    The log records, in order, the calls a method makes to the registry
    lookups, to codec methods, to the resolver itself and to plans. *)

Inductive Call :=
  | CallTypeForOID (oid : N)
  | CallTypeForValue (t : option RType)
  | CallCodecPlanEncode (oid : N) (format : Z) (t : option RType)
  | CallCodecPlanScan (oid : N) (formatCode : Z) (t : option RType)
  | CallPlanEncode (oid : N) (format : Z) (t : option RType)
  | CallplanScan (oid : N) (formatCode : Z) (t : option RType)
  | CallValuerValue (t : option RType)
  | CallPlanEncodeRun (t : option RType)
  | CallPlanScanRun (t : option RType).

Definition M (A : Type) : Type := Map -> Res (A * Map * list Call).

Global Instance M_ret : MRet M := fun A a m => Ret (a, m, []).

Global Instance M_bind : MBind M := fun A B f c m =>
  match c m with
  | Ret (a, m1, l1) =>
      match f a m1 with
      | Ret (b, m2, l2) => Ret (b, m2, l1 ++ l2)
      | Panic r => Panic r
      | OutOfFuel => OutOfFuel
      end
  | Panic r => Panic r
  | OutOfFuel => OutOfFuel
  end.

Definition getMap : M Map := fun m => Ret (m, m, []).
Definition putMap (m : Map) : M unit := fun _ => Ret (tt, m, []).
Definition logCall (c : Call) : M unit := fun m => Ret (tt, m, [c]).
Definition panic {A} (r : PanicReason) : M A := fun _ => Panic r.
Definition outOfFuel {A} : M A := fun _ => OutOfFuel.
Definition liftRes {A} (r : Res A) : M A := fun m =>
  match r with
  | Ret a => Ret (a, m, [])
  | Panic p => Panic p
  | OutOfFuel => OutOfFuel
  end.

(** The registry lookups as the resolver calls them. *)
Definition callTypeForOID (oid : N) : M (option Type_) := fun m =>
  Ret (TypeForOID m oid, m, [CallTypeForOID oid]).

Definition callTypeForValue (v : any) : M (option Type_) := fun m =>
  let '(dt, m') := TypeForValue m v in
  Ret (dt, m', [CallTypeForValue (TypeOf v)]).

(** ** Type switches and capability checks *)

Definition TString : RType := TBasic BString.
Definition TByteSlice : RType := TSlice (TBasic BUint8).

(** [value.(T)] for a concrete type [T]. *)
Definition hasType (t : RType) (v : any) : bool :=
  bool_decide (TypeOf v = Some t).

(** [value.(I)] for an interface [I] with the single method [method]:
    the nil interface implements nothing. *)
Definition implements (method : string) (v : any) : bool :=
  match v with
  | Some x => bool_decide (method ∈ methodSet (vtype x))
  | None => false
  end.

(** The interfaces the resolver asks for, by their method. *)
Definition TextValuer : string := "TextValue".
Definition driver_Valuer : string := "Value".
Definition sql_Scanner : string := "Scan".
Definition SkipUnderlyingTypePlanner : string := "SkipUnderlyingTypePlan".

(** Modelled from the spec: the declaration of the interface
    [TextScanner] is outside this file; it is the destination capability
    "parse from text", taken to have the single method [ScanText]. *)
Definition TextScanner : string := "ScanText".

(** Modelled from the spec: the declaration of the type [UndecodedBytes]
    is outside this file; it is the destination that "wants raw
    undecoded bytes", taken to be a defined type over a byte slice. *)
Definition UndecodedBytes : RType := TNamed "UndecodedBytes" [] [] TByteSlice.

(** ** Encode-plan resolution *)

Definition SetNext_encode (plan : WrappedEncodePlanNextSetter)
    (next : EncodePlan) : WrappedEncodePlanNextSetter :=
  match plan with
  | derefPointerEncodePlan _ => derefPointerEncodePlan (Some next)
  | adapterEncodePlan adapt _ => adapterEncodePlan adapt (Some next)
  end.

(** [TryWrapDerefPointerEncodePlan]. *)
Definition TryWrapDerefPointerEncodePlan : TryWrapEncodePlanFunc :=
  fun _ value =>
    match TypeOf value with
    | None => Panic NilDereference
    | Some valueType =>
        if bool_decide (kindOf valueType = KPtr) then
          match elemOf valueType with
          | Some e =>
              Ret (Some (derefPointerEncodePlan None,
                         match kindOf e with
                         | KInterface => None
                         | _ => Some (Zero e)
                         end))
          | None => Panic ReflectPanic
          end
        else Ret None
    end.

(** The descriptor resolution of [PlanEncode]: the chosen descriptor
    and the identifier used from there on. *)
Definition PlanEncode_resolve (oid : N) (value : any)
  : M (option Type_ * N) :=
  if bool_decide (oid = 0%N) then
    dataType ← callTypeForValue value;
    match dataType with
    | Some dt => mret (Some dt, Type_OID dt)
    | None => mret (None, oid)
    end
  else
    dataType ← callTypeForOID oid;
    mret (dataType, oid).

Definition callCodecPlanEncode (dt : Type_) (h : Heap) (oid : N)
    (format : Z) (value : any) : M (option EncodePlan) :=
  _ ← logCall (CallCodecPlanEncode oid format (TypeOf value));
  mret (Codec_PlanEncode (Type_Codec dt) h oid format value).

(** The walk over [TryWrapEncodePlanFuncs]; [resolve] is the recursive
    call of [PlanEncode] at the same identifier and format. *)
Fixpoint tryWrapEncodePlans (resolve : any -> M (option EncodePlan))
    (h : Heap) (value : any) (fs : list TryWrapEncodePlanFunc)
  : M (option EncodePlan) :=
  match fs with
  | [] => mret None
  | f :: fs' =>
      r ← liftRes (f h value);
      match r with
      | Some (wrapperPlan, nextValue) =>
          nextPlan ← resolve nextValue;
          match nextPlan with
          | Some np =>
              mret (Some (wrappedEncodePlan (SetNext_encode wrapperPlan np)))
          | None => tryWrapEncodePlans resolve h value fs'
          end
      | None => tryWrapEncodePlans resolve h value fs'
      end
  end.

Fixpoint PlanEncode (fuel : nat) (h : Heap) (oid : N) (format : Z)
    (value : any) {struct fuel} : M (option EncodePlan) :=
  match fuel with
  | O => outOfFuel
  | S fuel' =>
      _ ← logCall (CallPlanEncode oid format (TypeOf value));
      if bool_decide (format = TextFormatCode) && hasType TString value
      then mret (Some encodePlanStringToAnyTextFormat)
      else if bool_decide (format = TextFormatCode)
              && implements TextValuer value
      then mret (Some encodePlanTextValuerToAnyTextFormat)
      else
        r ← PlanEncode_resolve oid value;
        let dt := r.1 in
        let oid := r.2 in
        plan ← match dt with
               | Some d => callCodecPlanEncode d h oid format value
               | None => mret None
               end;
        match plan with
        | Some p => mret (Some p)
        | None =>
            m ← getMap;
            tryWrapEncodePlans (PlanEncode fuel' h oid format) h value
              (TryWrapEncodePlanFuncs m)
        end
  end.

(** ** Scan-plan resolution *)

Definition SetNext (plan : WrappedScanPlanNextSetter) (next : ScanPlan)
  : WrappedScanPlanNextSetter :=
  match plan with
  | pointerPointerScanPlan dstType _ => pointerPointerScanPlan dstType (Some next)
  | adapterScanPlan adapt _ => adapterScanPlan adapt (Some next)
  end.

(** [TryPointerPointerScanPlan]: [Elem()] of a nil pointer is the zero
    [reflect.Value], whose kind is Invalid. *)
Definition TryPointerPointerScanPlan : TryWrapScanPlanFunc :=
  fun _ target =>
    match target with
    | Some dstValue =>
        if bool_decide (kindOf (vtype dstValue) = KPtr) then
          match vdata dstValue, elemOf (vtype dstValue) with
          | DPtr _, Some elemType =>
              if bool_decide (kindOf elemType = KPtr) then
                Ret (Some (pointerPointerScanPlan (vtype dstValue) None,
                           Some (Zero elemType)))
              else Ret None
          | _, _ => Ret None
          end
        else Ret None
    | None => Ret None
    end.

(** [nextPlan.( *scanPlanFail)]. *)
Definition is_scanPlanFail (plan : ScanPlan) : bool :=
  match plan with
  | scanPlanFail _ _ => true
  | _ => false
  end.

(** The fast paths of [planScan], tried before any descriptor lookup. *)
Definition planScan_fastPath (oid : N) (formatCode : Z) (target : any)
  : option ScanPlan :=
  if hasType (TPtr UndecodedBytes) target then
    Some scanPlanAnyToUndecodedBytes
  else if bool_decide (formatCode = BinaryFormatCode) then
    if hasType (TPtr TString) target then
      if bool_decide (oid = TextOID) || bool_decide (oid = VarcharOID)
      then Some scanPlanString
      else None
    else None
  else if bool_decide (formatCode = TextFormatCode) then
    if hasType (TPtr TString) target then Some scanPlanString
    else if hasType (TPtr TByteSlice) target then
      if bool_decide (oid ≠ ByteaOID) then Some scanPlanAnyTextToBytes
      else None
    else if implements TextScanner target then
      Some scanPlanTextAnyToTextScanner
    else None
  else None.

(** The descriptor resolution of [planScan]. *)
Definition planScan_resolve (oid : N) (target : any)
  : M (option Type_ * N) :=
  dataType ← callTypeForOID oid;
  match dataType with
  | Some dt => mret (Some dt, oid)
  | None =>
      dataType ← callTypeForValue target;
      match dataType with
      | Some dt => mret (Some dt, Type_OID dt)
      | None => mret (None, oid)
      end
  end.

Definition callCodecPlanScan (dt : Type_) (h : Heap) (oid : N)
    (formatCode : Z) (target : any) : M (option ScanPlan) :=
  _ ← logCall (CallCodecPlanScan oid formatCode (TypeOf target));
  mret (Codec_PlanScan (Type_Codec dt) h oid formatCode target).

(** The walk over [TryWrapScanPlanFuncs]; [resolve] is the recursive
    call of [planScan] at the same identifier and format. *)
Fixpoint tryWrapScanPlans (resolve : any -> M ScanPlan)
    (h : Heap) (target : any) (fs : list TryWrapScanPlanFunc)
  : M (option ScanPlan) :=
  match fs with
  | [] => mret None
  | f :: fs' =>
      r ← liftRes (f h target);
      match r with
      | Some (wrapperPlan, nextDst) =>
          nextPlan ← resolve nextDst;
          if is_scanPlanFail nextPlan
          then tryWrapScanPlans resolve h target fs'
          else mret (Some (wrappedScanPlan (SetNext wrapperPlan nextPlan)))
      | None => tryWrapScanPlans resolve h target fs'
      end
  end.

(** The terminal plans of [planScan], when no codec and no adapter
    produced one. *)
Definition planScan_fallback (dt : option Type_) (oid : N) (formatCode : Z)
    (target : any) : ScanPlan :=
  match dt with
  | Some d =>
      if hasType (TPtr TEmptyInterface) target then
        pointerEmptyInterfaceScanPlan (Type_Codec d) oid formatCode
      else if implements sql_Scanner target then
        scanPlanCodecSQLScanner (Type_Codec d) oid formatCode
      else scanPlanFail oid formatCode
  | None =>
      if implements sql_Scanner target then scanPlanSQLScanner formatCode
      else scanPlanFail oid formatCode
  end.

Fixpoint planScan (fuel : nat) (h : Heap) (oid : N) (formatCode : Z)
    (target : any) {struct fuel} : M ScanPlan :=
  match fuel with
  | O => outOfFuel
  | S fuel' =>
      _ ← logCall (CallplanScan oid formatCode (TypeOf target));
      match planScan_fastPath oid formatCode target with
      | Some plan => mret plan
      | None =>
          r ← planScan_resolve oid target;
          let dt := r.1 in
          let oid := r.2 in
          plan ← match dt with
                 | Some d => callCodecPlanScan d h oid formatCode target
                 | None => mret None
                 end;
          match plan with
          | Some p => mret p
          | None =>
              m ← getMap;
              wrapped ← tryWrapScanPlans (planScan fuel' h oid formatCode)
                          h target (TryWrapScanPlanFuncs m);
              match wrapped with
              | Some p => mret p
              | None => mret (planScan_fallback dt oid formatCode target)
              end
          end
      end
  end.

(** [typeMemo[formatCode]] on the two-slot array. *)
Definition TypeMemo_index (typeMemo : TypeMemo) (formatCode : Z)
  : Res (option ScanPlan) :=
  if bool_decide (formatCode = 0) then Ret typeMemo.1
  else if bool_decide (formatCode = 1) then Ret typeMemo.2
  else Panic (IndexOutOfRange formatCode 2).

(** [typeMemo[formatCode] = plan], reached only after the read above
    succeeded. *)
Definition TypeMemo_set (typeMemo : TypeMemo) (formatCode : Z)
    (plan : ScanPlan) : TypeMemo :=
  if bool_decide (formatCode = 0) then (Some plan, typeMemo.2)
  else (typeMemo.1, Some plan).

(** [PlanScan].  [oidMemo] is the inner map stored under [oid] (made
    and stored first when absent); the final assignment to
    [oidMemo[targetReflectType]] writes into that stored map. *)
Definition PlanScan (fuel : nat) (h : Heap) (oid : N) (formatCode : Z)
    (target : any) : M ScanPlan :=
  m ← getMap;
  let oidMemo := default ∅ (memoizedScanPlans m !! oid) in
  _ ← match memoizedScanPlans m !! oid with
      | None =>
          putMap (set_memoizedScanPlans m
                    (<[oid := oidMemo]> (memoizedScanPlans m)))
      | Some _ => mret tt
      end;
  let targetReflectType := TypeOf target in
  let typeMemo := default (None, None) (oidMemo !! targetReflectType) in
  plan ← liftRes (TypeMemo_index typeMemo formatCode);
  match plan with
  | Some p => mret p
  | None =>
      plan ← planScan fuel h oid formatCode target;
      m' ← getMap;
      _ ← putMap (set_memoizedScanPlans m'
                    (<[oid := <[targetReflectType :=
                                  TypeMemo_set typeMemo formatCode plan]>
                                oidMemo]>
                       (memoizedScanPlans m')));
      mret plan
  end.

(** ** Memory access *)

Definition badPointer : PanicReason := OtherPanic "invalid memory address".

Definition load (h : Heap) (a : nat) : Res Cell :=
  match h !! a with
  | Some c => Ret c
  | None => Panic badPointer
  end.

Definition store (h : Heap) (a : nat) (c : Cell) : Res Heap :=
  if bool_decide (a < length h)%nat then Ret (<[a := c]> h)
  else Panic badPointer.

Definition readBytes (h : Heap) (a : nat) : Res (list Byte.byte) :=
  match h !! a with
  | Some (CBytes bs) => Ret bs
  | _ => Panic badPointer
  end.

(** The contents of a [[]byte] argument, as passed to a codec. *)
Definition bytesOf (h : Heap) (src : ByteSlice) : Res Bytes :=
  match src with
  | None => Ret None
  | Some a =>
      match readBytes h a with
      | Ret bs => Ret (Some bs)
      | Panic r => Panic r
      | OutOfFuel => OutOfFuel
      end
  end.

(** [append(buf, s...)]: appending nothing to a nil slice leaves nil. *)
Definition appendBytes (buf : Bytes) (s : list Byte.byte) : Bytes :=
  match buf, s with
  | None, [] => None
  | None, _ => Some s
  | Some b, _ => Some (b ++ s)
  end.

(** ** Executing plans

    The methods that values bring with them, and the [Scan] methods of
    the two plan types declared outside this file, are parameters. *)

Record Methods := {
  TextValuer_TextValue : Value -> Heap -> Res (string * bool * option Error);
  Valuer_Value : Value -> Heap -> Res (any * option Error);
  Scanner_Scan : Value -> any -> Heap -> Res (Heap * option Error);
  scanPlanAnyToUndecodedBytes_Scan : ScanFn;
  scanPlanTextAnyToTextScanner_Scan : ScanFn }.

(** [scanPlanString.Scan]. *)
Definition scanPlanString_Scan (src : ByteSlice) (dst : any) (h : Heap)
  : Res (Heap * option Error) :=
  match src with
  | None => Ret (h, Some (ErrCannotScanNull (TypeOf dst)))
  | Some a =>
      if hasType (TPtr TString) dst then
        match vdata <$> dst with
        | Some (DPtr p) =>
            match readBytes h a with
            | Ret bs =>
                match store h p
                        (CVal (mkValue TString
                                 (DString (String.string_of_list_byte bs)))) with
                | Ret h' => Ret (h', None)
                | Panic r => Panic r
                | OutOfFuel => OutOfFuel
                end
            | Panic r => Panic r
            | OutOfFuel => OutOfFuel
            end
        | _ => Panic NilDereference
        end
      else Panic InterfaceConversion
  end.

(** [scanPlanAnyTextToBytes.Scan]: [make] allocates a zeroed backing
    array, [copy] fills it, the destination is set to the new slice. *)
Definition scanPlanAnyTextToBytes_Scan (src : ByteSlice) (dst : any)
    (h : Heap) : Res (Heap * option Error) :=
  if hasType (TPtr TByteSlice) dst then
    match vdata <$> dst with
    | Some (DPtr dstBuf) =>
        match src with
        | None =>
            match store h dstBuf (CVal (mkValue TByteSlice DNil)) with
            | Ret h' => Ret (h', None)
            | Panic r => Panic r
            | OutOfFuel => OutOfFuel
            end
        | Some a =>
            match readBytes h a with
            | Ret bs =>
                let '(buf, h1) :=
                  alloc h (CBytes (replicate (length bs) Byte.x00)) in
                let h2 := <[buf := CBytes bs]> h1 in
                match store h2 dstBuf
                        (CVal (mkValue TByteSlice (DSlice buf))) with
                | Ret h' => Ret (h', None)
                | Panic r => Panic r
                | OutOfFuel => OutOfFuel
                end
            | Panic r => Panic r
            | OutOfFuel => OutOfFuel
            end
        end
    | _ => Panic NilDereference
    end
  else Panic InterfaceConversion.

(** [pointerPointerScanPlan.Scan], given the [Scan] of its [next] plan
    ([None] while [next] is nil).  [el] is the variable [dst] points to;
    its type is the element type of the type of [dst]. *)
Definition pointerPointerScanPlan_Scan
    (next : option ScanFn) (src : ByteSlice) (dst : any) (h : Heap) : Res (Heap * option Error) :=
  match dst with
  | None => Panic ReflectPanic
  | Some d =>
      match kindOf (vtype d), vdata d, elemOf (vtype d) with
      | KPtr, DPtr el, Some elType =>
          match src with
          | None =>
              match store h el (zeroCell elType) with
              | Ret h' => Ret (h', None)
              | Panic r => Panic r
              | OutOfFuel => OutOfFuel
              end
          | Some _ =>
              match kindOf elType, elemOf elType with
              | KPtr, Some pointee =>
                  let '(p, h1) := alloc h (zeroCell pointee) in
                  let fresh := mkValue elType (DPtr p) in
                  match store h1 el (CVal fresh) with
                  | Ret h2 =>
                      match next with
                      | Some scan => scan src (Some fresh) h2
                      | None => Panic NilDereference
                      end
                  | Panic r => Panic r
                  | OutOfFuel => OutOfFuel
                  end
              | _, _ => Panic ReflectPanic
              end
          end
      | _, _, _ => Panic ReflectPanic
      end
  end.

Section Execution.
Context (env : Methods).

(** [plan.Scan(src, dst)]. *)
Fixpoint ScanPlan_Scan (plan : ScanPlan) (src : ByteSlice) (dst : any)
    (h : Heap) {struct plan} : Res (Heap * option Error) :=
  match plan with
  | scanPlanAnyToUndecodedBytes =>
      scanPlanAnyToUndecodedBytes_Scan env src dst h
  | scanPlanString => scanPlanString_Scan src dst h
  | scanPlanAnyTextToBytes => scanPlanAnyTextToBytes_Scan src dst h
  | scanPlanTextAnyToTextScanner =>
      scanPlanTextAnyToTextScanner_Scan env src dst h
  | scanPlanFail oid formatCode =>
      Ret (h, Some (ErrCannotScan oid formatCode (TypeOf dst)))
  | scanPlanCodecSQLScanner c oid formatCode =>
      match bytesOf h src with
      | Ret bs =>
          match Codec_DecodeDatabaseSQLValue c oid formatCode bs with
          | (_, Some err) => Ret (h, Some err)
          | (value, None) =>
              match dst with
              | Some scanner =>
                  if implements sql_Scanner dst
                  then Scanner_Scan env scanner value h
                  else Panic InterfaceConversion
              | None => Panic InterfaceConversion
              end
          end
      | Panic r => Panic r
      | OutOfFuel => OutOfFuel
      end
  | scanPlanSQLScanner formatCode =>
      match dst with
      | Some scanner =>
          if implements sql_Scanner dst then
            match src with
            | None => Scanner_Scan env scanner None h
            | Some a =>
                if bool_decide (formatCode = BinaryFormatCode) then
                  Scanner_Scan env scanner
                    (Some (mkValue TByteSlice (DSlice a))) h
                else
                  match readBytes h a with
                  | Ret bs =>
                      Scanner_Scan env scanner
                        (Some (mkValue TString
                                 (DString (String.string_of_list_byte bs)))) h
                  | Panic r => Panic r
                  | OutOfFuel => OutOfFuel
                  end
            end
          else Panic InterfaceConversion
      | None => Panic InterfaceConversion
      end
  | pointerEmptyInterfaceScanPlan codec oid formatCode =>
      match bytesOf h src with
      | Ret bs =>
          match Codec_DecodeValue codec oid formatCode bs with
          | (_, Some err) => Ret (h, Some err)
          | (value, None) =>
              if hasType (TPtr TEmptyInterface) dst then
                match vdata <$> dst with
                | Some (DPtr ptrAny) =>
                    match store h ptrAny (CAny value) with
                    | Ret h' => Ret (h', None)
                    | Panic r => Panic r
                    | OutOfFuel => OutOfFuel
                    end
                | _ => Panic NilDereference
                end
              else Panic InterfaceConversion
          end
      | Panic r => Panic r
      | OutOfFuel => OutOfFuel
      end
  | codecScanPlan run => run src dst h
  | wrappedScanPlan (pointerPointerScanPlan _ next) =>
      pointerPointerScanPlan_Scan
        (match next with
         | Some n => Some (ScanPlan_Scan n)
         | None => None
         end) src dst h
  | wrappedScanPlan (adapterScanPlan adapt next) =>
      match next with
      | Some n =>
          match adapt h dst with
          | Ret dst' => ScanPlan_Scan n src dst' h
          | Panic r => Panic r
          | OutOfFuel => OutOfFuel
          end
      | None => Panic NilDereference
      end
  end.

(** [plan.Encode(value, buf)]. *)
Fixpoint EncodePlan_Encode (plan : EncodePlan) (value : any) (buf : Bytes)
    (h : Heap) {struct plan} : Res (Bytes * option Error) :=
  match plan with
  | encodePlanStringToAnyTextFormat =>
      if hasType TString value then
        match vdata <$> value with
        | Some (DString s) =>
            Ret (appendBytes buf (String.list_byte_of_string s), None)
        | _ => Panic InterfaceConversion
        end
      else Panic InterfaceConversion
  | encodePlanTextValuerToAnyTextFormat =>
      match value with
      | Some v =>
          if implements TextValuer value then
            match TextValuer_TextValue env v h with
            | Ret (_, _, Some err) => Ret (None, Some err)
            | Ret (_, false, None) => Ret (None, None)
            | Ret (s, true, None) =>
                Ret (appendBytes buf (String.list_byte_of_string s), None)
            | Panic r => Panic r
            | OutOfFuel => OutOfFuel
            end
          else Panic InterfaceConversion
      | None => Panic InterfaceConversion
      end
  | codecEncodePlan run => run value buf h
  | wrappedEncodePlan (derefPointerEncodePlan next) =>
      match value with
      | None => Panic ReflectPanic
      | Some ptr =>
          match kindOf (vtype ptr), vdata ptr with
          | (KChan | KFunc | KMap | KPtr | KSlice | KUnsafePointer), DNil =>
              Ret (None, None)
          | KPtr, DPtr a =>
              match load h a with
              | Ret c =>
                  match next, c with
                  | Some n, CVal x => EncodePlan_Encode n (Some x) buf h
                  | Some n, CAny x => EncodePlan_Encode n x buf h
                  | Some _, CBytes _ => Panic badPointer
                  | None, _ => Panic NilDereference
                  end
              | Panic r => Panic r
              | OutOfFuel => OutOfFuel
              end
          | _, _ => Panic ReflectPanic
          end
      end
  | wrappedEncodePlan (adapterEncodePlan adapt next) =>
      match next with
      | Some n =>
          match adapt h value with
          | Ret value' => EncodePlan_Encode n value' buf h
          | Panic r => Panic r
          | OutOfFuel => OutOfFuel
          end
      | None => Panic NilDereference
      end
  end.

(** [Map.Scan]. *)
Definition Scan (fuel : nat) (oid : N) (formatCode : Z) (src : ByteSlice)
    (dst : any) (h : Heap) : M (Heap * option Error) :=
  match dst with
  | None => mret (h, None)
  | Some _ =>
      plan ← PlanScan fuel h oid formatCode dst;
      _ ← logCall (CallPlanScanRun (TypeOf dst));
      liftRes (ScanPlan_Scan plan src dst h)
  end.

(** [Map.Encode].  The test [dv == nil] of the source cannot succeed:
    [dv] is the non-nil [value] seen through [driver.Valuer]. *)
Fixpoint Encode (fuel : nat) (h : Heap) (oid : N) (formatCode : Z)
    (value : any) (buf : Bytes) {struct fuel} : M (Bytes * option Error) :=
  match value with
  | None => mret (None, None)
  | Some dv =>
      match fuel with
      | O => outOfFuel
      | S fuel' =>
          plan ← PlanEncode fuel h oid formatCode value;
          match plan with
          | None =>
              if implements driver_Valuer value then
                _ ← logCall (CallValuerValue (TypeOf value));
                r ← liftRes (Valuer_Value env dv h);
                match r with
                | (_, Some err) => mret (None, Some err)
                | (v, None) => Encode fuel' h oid formatCode v buf
                end
              else mret (None, Some (ErrUnableToEncode value oid))
          | Some p =>
              _ ← logCall (CallPlanEncodeRun (TypeOf value));
              liftRes (EncodePlan_Encode p value buf h)
          end
      end
  end.
End Execution.

(** ** Sequences of calls on one registry *)

(** The calls a client can make on a [Map]; assigning the two exported
    adapter chains is one of them. *)
Inductive Op :=
  | OpRegisterType (t : Type_)
  | OpRegisterDefaultPgType (value : any) (name : string)
  | OpSetTryWrapEncodePlanFuncs (fs : list TryWrapEncodePlanFunc)
  | OpSetTryWrapScanPlanFuncs (fs : list TryWrapScanPlanFunc)
  | OpPlanEncode (fuel : nat) (h : Heap) (oid : N) (format : Z) (value : any)
  | OpPlanScan (fuel : nat) (h : Heap) (oid : N) (formatCode : Z)
               (target : any)
  | OpEncode (env : Methods) (fuel : nat) (h : Heap) (oid : N)
             (formatCode : Z) (value : any) (buf : Bytes)
  | OpScan (env : Methods) (fuel : nat) (oid : N) (formatCode : Z)
           (src : ByteSlice) (dst : any) (h : Heap).

Definition finalMap {A} (r : Res (A * Map * list Call)) : option Map :=
  match r with
  | Ret (_, m, _) => Some m
  | _ => None
  end.

(** The registry after a call that returns. *)
Definition runOp (m : Map) (op : Op) : option Map :=
  match op with
  | OpRegisterType t => Some (RegisterType m t)
  | OpRegisterDefaultPgType value name =>
      Some (RegisterDefaultPgType m value name)
  | OpSetTryWrapEncodePlanFuncs fs =>
      Some {| oidToType := oidToType m; nameToType := nameToType m;
              reflectTypeToName := reflectTypeToName m;
              oidToFormatCode := oidToFormatCode m;
              reflectTypeToType := reflectTypeToType m;
              memoizedScanPlans := memoizedScanPlans m;
              TryWrapEncodePlanFuncs := fs;
              TryWrapScanPlanFuncs := TryWrapScanPlanFuncs m |}
  | OpSetTryWrapScanPlanFuncs fs =>
      Some {| oidToType := oidToType m; nameToType := nameToType m;
              reflectTypeToName := reflectTypeToName m;
              oidToFormatCode := oidToFormatCode m;
              reflectTypeToType := reflectTypeToType m;
              memoizedScanPlans := memoizedScanPlans m;
              TryWrapEncodePlanFuncs := TryWrapEncodePlanFuncs m;
              TryWrapScanPlanFuncs := fs |}
  | OpPlanEncode fuel h oid format value =>
      finalMap (PlanEncode fuel h oid format value m)
  | OpPlanScan fuel h oid formatCode target =>
      finalMap (PlanScan fuel h oid formatCode target m)
  | OpEncode env fuel h oid formatCode value buf =>
      finalMap (Encode env fuel h oid formatCode value buf m)
  | OpScan env fuel oid formatCode src dst h =>
      finalMap (Scan env fuel oid formatCode src dst h m)
  end.

Fixpoint runOps (m : Map) (ops : list Op) : option Map :=
  match ops with
  | [] => Some m
  | op :: ops' =>
      match runOp m op with
      | Some m' => runOps m' ops'
      | None => None
      end
  end.

(** The identifier a call registers a descriptor under, if any. *)
Definition registeredOID (op : Op) : option N :=
  match op with
  | OpRegisterType t => Some (Type_OID t)
  | _ => None
  end.

(** The registries a program can hold: those obtained from a freshly
    allocated one by calls that returned. *)
Definition reachable (m : Map) : Prop :=
  exists we ws ops, runOps (emptyMap we ws) ops = Some m.

(** ** Properties of a registry *)

(** Every entry of an index is stored under its own key. *)
Definition keys_coherent (m : Map) : Prop :=
  (forall oid t, oidToType m !! oid = Some t -> Type_OID t = oid) /\
  (forall name t, nameToType m !! name = Some t -> Type_Name t = name).




(** No memoized scan plan is left and the shape index is discarded. *)
Definition plans_invalidated (m : Map) : Prop :=
  memoizedScanPlans m = ∅ /\ reflectTypeToType m = None.


(** ** Sample codecs, descriptors and values *)

(** A codec that plans nothing and decodes to nil. *)
Definition nullCodec (preferred : Z) : Codec :=
  mkCodec (fun _ => true) preferred
          (fun _ _ _ _ => None) (fun _ _ _ _ => None)
          (fun _ _ _ => (None, None)) (fun _ _ _ => (None, None)).

(** The two descriptors [NewMap] registers under identifier 1003. *)
Definition type_char_array : Type_ :=
  mkType (nullCodec BinaryFormatCode) "_char" QCharArrayOID.
Definition type_name_array : Type_ :=
  mkType (nullCodec BinaryFormatCode) "_name" NameArrayOID.

Definition type_int4 : Type_ :=
  mkType (nullCodec BinaryFormatCode) "int4" Int4OID.
Definition type_int4_text : Type_ :=
  mkType (nullCodec TextFormatCode) "int4" Int4OID.

(** ** Specification vocabulary for the resolver *)

(** [m'] is [m], or [m] with its shape index rebuilt from nil. *)
Definition lazily_indexed (m m' : Map) : Prop :=
  m' = m \/ (reflectTypeToType m = None /\ m' = buildReflectTypeToType m).

(** Every returning run of [c] relates the registry before to the
    registry after by [R]. *)
Definition keeps {A} (R : Map -> Map -> Prop) (c : M A) : Prop :=
  forall m a m' l, c m = Ret (a, m', l) -> R m m'.

(** The registry with the inner memo map of [oid] made when absent. *)
Definition ensureOidMemo (m : Map) (oid : N) : Map :=
  match memoizedScanPlans m !! oid with
  | None => set_memoizedScanPlans m (<[oid := ∅]> (memoizedScanPlans m))
  | Some _ => m
  end.

(** The plan memoized for a triple, if any. *)
Definition memoized (m : Map) (oid : N) (t : option RType) (formatCode : Z)
  : option ScanPlan :=
  match memoizedScanPlans m !! oid with
  | Some oidMemo =>
      match oidMemo !! t with
      | Some typeMemo =>
          if bool_decide (formatCode = 0) then typeMemo.1
          else if bool_decide (formatCode = 1) then typeMemo.2
          else None
      | None => None
      end
  | None => None
  end.

(** [m'] holds the registrations and adapter chains of [m]; only the
    shape index and the plan memo may differ. *)
Definition same_registrations (m m' : Map) : Prop :=
  oidToType m' = oidToType m /\ nameToType m' = nameToType m /\
  reflectTypeToName m' = reflectTypeToName m /\
  oidToFormatCode m' = oidToFormatCode m /\
  TryWrapEncodePlanFuncs m' = TryWrapEncodePlanFuncs m /\
  TryWrapScanPlanFuncs m' = TryWrapScanPlanFuncs m.

(** The calls that register: they discard the memoized plans. *)
Definition is_registration (op : Op) : bool :=
  match op with
  | OpRegisterType _ | OpRegisterDefaultPgType _ _ => true
  | _ => false
  end.

(** A memoized text-format plan for a byte-slice destination, under an
    identifier other than bytea, is the byte-copy plan. *)
Definition memo_bytes_sound (m : Map) : Prop :=
  forall oid p,
    oid <> ByteaOID ->
    memoized m oid (Some (TPtr TByteSlice)) TextFormatCode = Some p ->
    p = scanPlanAnyTextToBytes.

(** A destination of type [*[]byte] pointing to the cell [dstBuf]. *)
Definition ptrToByteSlice (dstBuf : nat) : any :=
  Some (mkValue (TPtr TByteSlice) (DPtr dstBuf)).

(** Values without methods: every method call panics. *)
Definition noMethods : Methods :=
  {| TextValuer_TextValue := fun _ _ => Panic NilDereference;
     Valuer_Value := fun _ _ => Panic NilDereference;
     Scanner_Scan := fun _ _ _ => Panic NilDereference;
     scanPlanAnyToUndecodedBytes_Scan := fun _ _ _ => Panic NilDereference;
     scanPlanTextAnyToTextScanner_Scan := fun _ _ _ => Panic NilDereference |}.

(** Values whose [Value] method returns [v] without error. *)
Definition valuerMethods (v : any) : Methods :=
  {| TextValuer_TextValue := fun _ _ => Panic NilDereference;
     Valuer_Value := fun _ _ => Ret (v, None);
     Scanner_Scan := fun _ _ _ => Panic NilDereference;
     scanPlanAnyToUndecodedBytes_Scan := fun _ _ _ => Panic NilDereference;
     scanPlanTextAnyToTextScanner_Scan := fun _ _ _ => Panic NilDereference |}.

(** A struct value without methods, and one that is a [driver.Valuer]. *)
Definition plainStruct : Value :=
  mkValue (TNamed "Plain" [] [] (TStruct "Plain")) DZero.
Definition valuerStruct : Value :=
  mkValue (TNamed "Wrapped" ["Value"%string] [] (TStruct "Wrapped")) DZero.

(** ** Descriptor resolution as specified and as coded *)

(** The resolution step in the words of the specification: by
    identifier when it is nonzero; otherwise by inference from the
    shape, adopting the identifier of the inferred descriptor. *)
Definition resolve_by_spec (m : Map) (oid : N) (value : any)
  : option Type_ * N * Map :=
  if bool_decide (oid <> 0%N) then (TypeForOID m oid, oid, m)
  else
    let '(dt, m') := TypeForValue m value in
    (dt, match dt with Some d => Type_OID d | None => oid end, m').

(** The resolution step of [planScan]: by identifier when a descriptor
    is registered under it; otherwise by inference from the shape,
    adopting the identifier of the inferred descriptor. *)
Definition resolve_registered_first (m : Map) (oid : N) (target : any)
  : option Type_ * N * Map :=
  match TypeForOID m oid with
  | Some dt => (Some dt, oid, m)
  | None =>
      let '(dt, m') := TypeForValue m target in
      (dt, match dt with Some d => Type_OID d | None => oid end, m')
  end.

(** The call consults the shape inference. *)
Definition infers (c : Call) : bool :=
  match c with
  | CallTypeForValue _ => true
  | _ => false
  end.

(** A resolution step follows the specification: it returns what
    [resolve_by_spec] returns, and infers only for identifier 0. *)
Definition resolves_by_spec (resolve : N -> any -> M (option Type_ * N))
  : Prop :=
  forall m oid value,
    exists l,
      resolve oid value m = Ret (resolve_by_spec m oid value, l) /\
      (oid <> 0%N -> Forall (fun c => infers c = false) l).

(** The call is no inference, and if it is a lookup, a codec planning
    call or a resolution, it is made for the identifier [oid]. *)
Definition targets (oid : N) (c : Call) : Prop :=
  match c with
  | CallTypeForValue _ => False
  | CallTypeForOID o
  | CallCodecPlanEncode o _ _ | CallCodecPlanScan o _ _
  | CallPlanEncode o _ _ | CallplanScan o _ _ => o = oid
  | _ => True
  end.

(** Run on [m0], [c] leaves the registry as it is, makes only calls
    that target [oid], and returns a value that satisfies [Q]. *)
Definition quiet_at {A} (m0 : Map) (oid : N) (c : M A) (Q : A -> Prop)
  : Prop :=
  forall a m' l,
    c m0 = Ret (a, m', l) -> m' = m0 /\ Forall (targets oid) l /\ Q a.

(** A registry with int4 registered and [*int32] mapped to it by
    default, and a destination of that type. *)
Definition int32_ptr : any := Some (Zero (TPtr (TBasic BInt32))).
Definition int4_registry : Map :=
  RegisterDefaultPgType (RegisterType (emptyMap [] []) type_int4)
    int32_ptr "int4".

(** Observing the outcome of a run: whether it returns, its value,
    its call log. *)
Definition returns {A} (r : Res A) : bool :=
  match r with
  | Ret _ => true
  | _ => false
  end.

Definition valueOf {A} (r : Res (A * Map * list Call)) : option A :=
  match r with
  | Ret x => Some x.1.1
  | _ => None
  end.

Definition callsOf {A} (r : Res (A * Map * list Call)) : option (list Call) :=
  match r with
  | Ret x => Some x.2
  | _ => None
  end.

(** ** Invariants of the registries a program can hold *)

(** The descriptor the registrations give a shape: the one registered
    under the type name recorded as the default of that shape. *)
Definition shapeType (m : Map) (t : option RType) : option Type_ :=
  reflectTypeToName m !! t ≫= (fun name => nameToType m !! name).

(** The shape index, when it is not nil, agrees with the registrations. *)
Definition index_fresh (m : Map) : Prop :=
  forall idx, reflectTypeToType m = Some idx ->
    forall t, idx !! t = shapeType m t.

(** The preferred format recorded under an identifier is that of the
    codec of the descriptor registered under it. *)
Definition formats_agree (m : Map) : Prop :=
  forall oid,
    oidToFormatCode m !! oid =
    (fun t => Codec_PreferredFormat (Type_Codec t)) <$> oidToType m !! oid.

(** [m'] differs from [m] in its adapter chains at most. *)
Definition same_data (m m' : Map) : Prop :=
  oidToType m' = oidToType m /\ nameToType m' = nameToType m /\
  reflectTypeToName m' = reflectTypeToName m /\
  oidToFormatCode m' = oidToFormatCode m /\
  reflectTypeToType m' = reflectTypeToType m /\
  memoizedScanPlans m' = memoizedScanPlans m.

(** A memoized plan for a triple to which a fast path of [planScan]
    applies is the plan of that fast path. *)
Definition memo_fast_sound (m : Map) : Prop :=
  forall oid formatCode target p q,
    planScan_fastPath oid formatCode target = Some p ->
    memoized m oid (TypeOf target) formatCode = Some q -> q = p.

(** A destination of type [*string] pointing to the cell [p]. *)
Definition ptrToString (p : nat) : any :=
  Some (mkValue (TPtr TString) (DPtr p)).

(** A value of type [string]. *)
Definition stringValue (s : string) : any :=
  Some (mkValue TString (DString s)).

(** ** Adapter chains and termination *)

(** The adapter rules of a chain decrease [mu]: a rule that accepts a
    value hands on a value of smaller measure; a rule is a plain
    function, it does not run out of fuel. *)
Definition decreasing_encode (mu : any -> nat)
    (fs : list TryWrapEncodePlanFunc) : Prop :=
  Forall (fun f : TryWrapEncodePlanFunc =>
            forall h v,
              match f h v with
              | Ret (Some (_, v')) => (mu v' < mu v)%nat
              | Ret None | Panic _ => True
              | OutOfFuel => False
              end) fs.

Definition decreasing_scan (mu : any -> nat)
    (fs : list TryWrapScanPlanFunc) : Prop :=
  Forall (fun f : TryWrapScanPlanFunc =>
            forall h v,
              match f h v with
              | Ret (Some (_, v')) => (mu v' < mu v)%nat
              | Ret None | Panic _ => True
              | OutOfFuel => False
              end) fs.

(** The number of pointer layers of a type. *)
Fixpoint ptrDepth (t : RType) : nat :=
  match t with
  | TPtr e => S (ptrDepth e)
  | TNamed _ _ _ u => ptrDepth u
  | _ => 0
  end.

Definition ptrDepthOf (v : any) : nat :=
  match v with
  | Some x => ptrDepth (vtype x)
  | None => 0
  end.

(** 1 for a non-nil pointer, 0 for anything else. *)
Definition nonNilPointer (v : any) : nat :=
  match v with
  | Some x => match vdata x with DPtr _ => 1 | _ => 0 end
  | None => 0
  end.

(** A value whose [Value] method returns the value itself. *)
Definition selfValuerMethods : Methods :=
  {| TextValuer_TextValue := fun _ _ => Panic NilDereference;
     Valuer_Value := fun v _ => Ret (Some v, None);
     Scanner_Scan := fun _ _ _ => Panic NilDereference;
     scanPlanAnyToUndecodedBytes_Scan := fun _ _ _ => Panic NilDereference;
     scanPlanTextAnyToTextScanner_Scan := fun _ _ _ => Panic NilDereference |}.

(** Values whose [TextValue] method returns the text [s] with the
    validity flag [valid], without error. *)
Definition textValuerMethods (s : string) (valid : bool) : Methods :=
  {| TextValuer_TextValue := fun _ _ => Ret (s, valid, None);
     Valuer_Value := fun _ _ => Panic NilDereference;
     Scanner_Scan := fun _ _ _ => Panic NilDereference;
     scanPlanAnyToUndecodedBytes_Scan := fun _ _ _ => Panic NilDereference;
     scanPlanTextAnyToTextScanner_Scan := fun _ _ _ => Panic NilDereference |}.

(** ** What the walks over the adapter chains return *)

(** The walk of [planScan] passes over the rule [g]: it declined the
    destination, or the plan found for its adapted destination was the
    failure plan. *)
Definition passed_over_scan (resolve : any -> M ScanPlan) (h : Heap)
    (target : any) (g : TryWrapScanPlanFunc) : Prop :=
  g h target = Ret None \/
  exists w nextDst m1 q m2 l,
    g h target = Ret (Some (w, nextDst)) /\
    resolve nextDst m1 = Ret (q, m2, l) /\ is_scanPlanFail q = true.

(** The walk of [PlanEncode] passes over the rule [g]: it declined the
    value, or no plan was found for its adapted value. *)
Definition passed_over_encode (resolve : any -> M (option EncodePlan))
    (h : Heap) (value : any) (g : TryWrapEncodePlanFunc) : Prop :=
  g h value = Ret None \/
  exists w nextValue m1 m2 l,
    g h value = Ret (Some (w, nextValue)) /\
    resolve nextValue m1 = Ret (None, m2, l).

(** A destination with a [Scan] method: a pointer to the struct type
    [Dest], whose pointer receiver has the method. *)
Definition scannerDest : any :=
  Some (mkValue (TPtr (TNamed "Dest" [] ["Scan"%string] (TStruct "Dest")))
          (DPtr 0)).

(** A descriptor whose codec answers every scan planning with the
    failure plan. *)
Definition failingCodec : Codec :=
  mkCodec (fun _ => true) BinaryFormatCode
          (fun _ _ _ _ => None)
          (fun _ oid formatCode _ => Some (scanPlanFail oid formatCode))
          (fun _ _ _ => (None, None)) (fun _ _ _ => (None, None)).
Definition type_failing : Type_ := mkType failingCodec "int4" Int4OID.

(** A pointer to a variable of type [interface{}]. *)
Definition ptrToAny (a : nat) : Value :=
  mkValue (TPtr TEmptyInterface) (DPtr a).

(** ** The adapter rules of [NewMap]

    The rules convert to wrapper types and build wrapper values that
    are declared in other files of the package, they test for types of
    the standard library, and they ask package [reflect] to convert
    values and to list struct fields.  All of these are parameters. *)

Record External := {
  (* types of the standard library *)
  time_Time : RType;
  time_Duration : RType;
  net_IPNet : RType;
  net_IP : RType;
  (* wrapper types a value is converted to *)
  int8Wrapper : RType;
  int16Wrapper : RType;
  int32Wrapper : RType;
  int64Wrapper : RType;
  intWrapper : RType;
  uint8Wrapper : RType;
  uint16Wrapper : RType;
  uint32Wrapper : RType;
  uint64Wrapper : RType;
  uintWrapper : RType;
  float32Wrapper : RType;
  float64Wrapper : RType;
  stringWrapper : RType;
  timeWrapper : RType;
  durationWrapper : RType;
  netIPNetWrapper : RType;
  netIPWrapper : RType;
  mapStringToPointerStringWrapper : RType;
  mapStringToStringWrapper : RType;
  byte16Wrapper : RType;
  byteSliceWrapper : RType;
  (* wrapper values built around a value:
     [fmtStringerWrapper{value}],
     [structWrapper{s: value, exportedFields: fields}],
     [&ptrStructWrapper{s: target, exportedFields: fields}],
     [anySliceArray{slice: reflect.ValueOf(value)}],
     [&anySliceArray{slice: reflect.ValueOf(target).Elem()}],
     [&anyMultiDimSliceArray{slice: reflect.ValueOf(value)}],
     [&anyMultiDimSliceArray{slice: reflect.ValueOf(target).Elem()}] *)
  fmtStringerWrapper : any -> any;
  structWrapper : any -> list nat -> any;
  ptrStructWrapper : any -> list nat -> any;
  anySliceArray : any -> any;
  anySliceArray_of_ptr : any -> any;
  anyMultiDimSliceArray : any -> any;
  anyMultiDimSliceArray_of_ptr : any -> any;
  (* [isRagged], on a slice value *)
  isRagged : Heap -> Value -> bool;
  (* package reflect: [Value.Convert]; [Type.NumField] and
     [Type.Field(i).IsExported()] of a struct type *)
  Convert : Value -> RType -> Res Value;
  NumField : RType -> nat;
  IsExported : RType -> nat -> bool }.

(** [fmt.Stringer], by its method. *)
Definition fmt_Stringer : string := "String".

(** A conversion [T(v)] between types of identical underlying type: the
    representation is kept. *)
Definition convertTo (t : RType) (v : Value) : Value := mkValue t (vdata v).

(** The cases of the type switches of [TryWrapBuiltinTypeEncodePlan]
    and [TryWrapBuiltinTypeScanPlan], in their order: the type tested
    for (the scan rule tests for the pointer to it) and the wrapper type
    converted to (the scan rule converts to the pointer to it). *)
Definition builtinTypes (ext : External) : list (RType * RType) :=
  [ (TBasic BInt8, int8Wrapper ext);
    (TBasic BInt16, int16Wrapper ext);
    (TBasic BInt32, int32Wrapper ext);
    (TBasic BInt64, int64Wrapper ext);
    (TBasic BInt, intWrapper ext);
    (TBasic BUint8, uint8Wrapper ext);
    (TBasic BUint16, uint16Wrapper ext);
    (TBasic BUint32, uint32Wrapper ext);
    (TBasic BUint64, uint64Wrapper ext);
    (TBasic BUint, uintWrapper ext);
    (TBasic BFloat32, float32Wrapper ext);
    (TBasic BFloat64, float64Wrapper ext);
    (TString, stringWrapper ext);
    (time_Time ext, timeWrapper ext);
    (time_Duration ext, durationWrapper ext);
    (net_IPNet ext, netIPNetWrapper ext);
    (net_IP ext, netIPWrapper ext);
    (TMap TString (TPtr TString), mapStringToPointerStringWrapper ext);
    (TMap TString TString, mapStringToStringWrapper ext);
    (TArray 16 (TBasic BUint8), byte16Wrapper ext);
    (TByteSlice, byteSliceWrapper ext) ].

(** A type switch: the first case whose type passes the test. *)
Fixpoint typeSwitch (test : RType -> bool) (cases : list (RType * RType))
  : option (RType * RType) :=
  match cases with
  | [] => None
  | c :: cases' => if test c.1 then Some c else typeSwitch test cases'
  end.

(** The encode plans [wrapInt8EncodePlan] ... [wrapByteSliceEncodePlan]:
    [plan.next.Encode(W(value.(T)), buf)] for the case [(T, W)]. *)
Definition wrapBuiltinEncodePlan (c : RType * RType)
  : WrappedEncodePlanNextSetter :=
  adapterEncodePlan
    (fun _ value =>
       match value with
       | Some v =>
           if bool_decide (vtype v = c.1) then Ret (Some (convertTo c.2 v))
           else Panic InterfaceConversion
       | None => Panic InterfaceConversion
       end) None.

(** [wrapFmtStringerEncodePlan]. *)
Definition wrapFmtStringerEncodePlan (ext : External)
  : WrappedEncodePlanNextSetter :=
  adapterEncodePlan
    (fun _ value =>
       if implements fmt_Stringer value
       then Ret (fmtStringerWrapper ext value)
       else Panic InterfaceConversion) None.

Definition TryWrapBuiltinTypeEncodePlan (ext : External)
  : TryWrapEncodePlanFunc :=
  fun _ value =>
    match value with
    | Some v =>
        match typeSwitch (fun T => bool_decide (vtype v = T))
                (builtinTypes ext) with
        | Some c => Ret (Some (wrapBuiltinEncodePlan c, Some (convertTo c.2 v)))
        | None =>
            if implements fmt_Stringer value then
              Ret (Some (wrapFmtStringerEncodePlan ext,
                         fmtStringerWrapper ext value))
            else Ret None
        end
    | None => Ret None
    end.

(** The scan plans [wrapInt8ScanPlan] ... [wrapByteSliceScanPlan]:
    [plan.next.Scan(src, ( *W)(dst.( *T)))] for the case [(T, W)]. *)
Definition wrapBuiltinScanPlan (c : RType * RType)
  : WrappedScanPlanNextSetter :=
  adapterScanPlan
    (fun _ dst =>
       match dst with
       | Some v =>
           if bool_decide (vtype v = TPtr c.1)
           then Ret (Some (convertTo (TPtr c.2) v))
           else Panic InterfaceConversion
       | None => Panic InterfaceConversion
       end) None.

Definition TryWrapBuiltinTypeScanPlan (ext : External)
  : TryWrapScanPlanFunc :=
  fun _ target =>
    match target with
    | Some v =>
        match typeSwitch (fun T => bool_decide (vtype v = TPtr T))
                (builtinTypes ext) with
        | Some c =>
            Ret (Some (wrapBuiltinScanPlan c, Some (convertTo (TPtr c.2) v)))
        | None => Ret None
        end
    | None => Ret None
    end.

(** [reflect.ValueOf(v).Kind()]: Invalid for the nil interface. *)
Definition KindOf (v : any) : Kind :=
  match v with
  | Some x => kindOf (vtype x)
  | None => KInvalid
  end.

(** [reflect.ValueOf(v).Elem().Kind()] and the type of that element,
    for [v] of pointer kind: the element of a nil pointer is the zero
    [reflect.Value], of kind Invalid and without a type. *)
Definition ElemType (v : Value) : option RType :=
  match vdata v with
  | DPtr _ => elemOf (vtype v)
  | _ => None
  end.

Definition ElemKind (v : Value) : Kind :=
  match ElemType v with
  | Some e => kindOf e
  | None => KInvalid
  end.

Definition kindToTypes (k : Kind) : option RType :=
  match k with
  | KInt => Some (TBasic BInt)
  | KInt8 => Some (TBasic BInt8)
  | KInt16 => Some (TBasic BInt16)
  | KInt32 => Some (TBasic BInt32)
  | KInt64 => Some (TBasic BInt64)
  | KUint => Some (TBasic BUint)
  | KUint8 => Some (TBasic BUint8)
  | KUint16 => Some (TBasic BUint16)
  | KUint32 => Some (TBasic BUint32)
  | KUint64 => Some (TBasic BUint64)
  | KFloat32 => Some (TBasic BFloat32)
  | KFloat64 => Some (TBasic BFloat64)
  | KString => Some TString
  | _ => None
  end.

(** [reflect.ValueOf(value).Convert(t).Interface()]; the nil interface
    has no type to convert from. *)
Definition convertValue (ext : External) (t : RType) (value : any)
  : Res any :=
  match value with
  | Some v =>
      match Convert ext v t with
      | Ret v' => Ret (Some v')
      | Panic r => Panic r
      | OutOfFuel => OutOfFuel
      end
  | None => Panic NilDereference
  end.

(** [underlyingTypeEncodePlan]. *)
Definition underlyingTypeEncodePlan (ext : External) (nextValueType : RType)
  : WrappedEncodePlanNextSetter :=
  adapterEncodePlan (fun _ value => convertValue ext nextValueType value) None.

Definition TryWrapFindUnderlyingTypeEncodePlan (ext : External)
  : TryWrapEncodePlanFunc :=
  fun _ value =>
    if implements SkipUnderlyingTypePlanner value then Ret None
    else
      match kindToTypes (KindOf value), value with
      | Some nextValueType, Some refValue =>
          if bool_decide (vtype refValue <> nextValueType) then
            match convertValue ext nextValueType value with
            | Ret nextValue =>
                Ret (Some (underlyingTypeEncodePlan ext nextValueType,
                           nextValue))
            | Panic r => Panic r
            | OutOfFuel => OutOfFuel
            end
          else Ret None
      | _, _ => Ret None
      end.

Definition elemKindToPointerTypes (k : Kind) : option RType :=
  match k with
  | KInt => Some (TPtr (TBasic BInt))
  | KInt8 => Some (TPtr (TBasic BInt8))
  | KInt16 => Some (TPtr (TBasic BInt16))
  | KInt32 => Some (TPtr (TBasic BInt32))
  | KInt64 => Some (TPtr (TBasic BInt64))
  | KUint => Some (TPtr (TBasic BUint))
  | KUint8 => Some (TPtr (TBasic BUint8))
  | KUint16 => Some (TPtr (TBasic BUint16))
  | KUint32 => Some (TPtr (TBasic BUint32))
  | KUint64 => Some (TPtr (TBasic BUint64))
  | KFloat32 => Some (TPtr (TBasic BFloat32))
  | KFloat64 => Some (TPtr (TBasic BFloat64))
  | KString => Some (TPtr TString)
  | _ => None
  end.

(** [underlyingTypeScanPlan]; its field [dstType] is not read. *)
Definition underlyingTypeScanPlan (ext : External)
    (dstType nextDstType : RType) : WrappedScanPlanNextSetter :=
  adapterScanPlan (fun _ dst => convertValue ext nextDstType dst) None.

Definition TryFindUnderlyingTypeScanPlan (ext : External)
  : TryWrapScanPlanFunc :=
  fun _ dst =>
    if implements SkipUnderlyingTypePlanner dst then Ret None
    else
      match dst with
      | Some dstValue =>
          if bool_decide (kindOf (vtype dstValue) = KPtr) then
            let nextDstType :=
              match elemKindToPointerTypes (ElemKind dstValue) with
              | Some t => Some t
              | None =>
                  if bool_decide (ElemKind dstValue = KSlice) then
                    match ElemType dstValue ≫= elemOf with
                    | Some e =>
                        if bool_decide (kindOf e = KUint8)
                        then Some (TPtr TByteSlice)
                        else None
                    | None => None
                    end
                  else None
              end in
            match nextDstType with
            | Some nextDstType =>
                if bool_decide (vtype dstValue <> nextDstType) then
                  match convertValue ext nextDstType dst with
                  | Ret nextDst =>
                      Ret (Some (underlyingTypeScanPlan ext (vtype dstValue)
                                   nextDstType,
                                 nextDst))
                  | Panic r => Panic r
                  | OutOfFuel => OutOfFuel
                  end
                else Ret None
            | None => Ret None
            end
          else Ret None
      | None => Ret None
      end.

(** [getExportedFieldValues], on a value of the struct type
    [structType]: the exported fields, each given by its index. *)
Definition getExportedFieldValues (ext : External) (structType : RType)
  : list nat :=
  filter (fun i => IsExported ext structType i = true)
         (seq 0 (NumField ext structType)).

(** [wrapAnyStructEncodePlan]: [reflect.ValueOf(value)] must be a
    struct for [getExportedFieldValues] not to panic. *)
Definition wrapAnyStructEncodePlan (ext : External)
  : WrappedEncodePlanNextSetter :=
  adapterEncodePlan
    (fun _ value =>
       match value with
       | Some v =>
           if bool_decide (kindOf (vtype v) = KStruct) then
             Ret (structWrapper ext value
                    (getExportedFieldValues ext (vtype v)))
           else Panic ReflectPanic
       | None => Panic ReflectPanic
       end) None.

Definition TryWrapStructEncodePlan (ext : External)
  : TryWrapEncodePlanFunc :=
  fun _ value =>
    match value with
    | Some v =>
        if bool_decide (kindOf (vtype v) = KStruct) then
          let exportedFields := getExportedFieldValues ext (vtype v) in
          if bool_decide (length exportedFields = 0%nat) then Ret None
          else Ret (Some (wrapAnyStructEncodePlan ext,
                          structWrapper ext value exportedFields))
        else Ret None
    | None => Panic NilDereference
    end.

(** [wrapAnyPtrStructScanPlan]: [reflect.ValueOf(target).Elem()] must
    be a struct for [getExportedFieldValues] not to panic. *)
Definition wrapAnyPtrStructScanPlan (ext : External)
  : WrappedScanPlanNextSetter :=
  adapterScanPlan
    (fun _ target =>
       match target with
       | Some v =>
           if bool_decide (kindOf (vtype v) = KPtr) then
             match ElemType v with
             | Some e =>
                 if bool_decide (kindOf e = KStruct) then
                   Ret (ptrStructWrapper ext target
                          (getExportedFieldValues ext e))
                 else Panic ReflectPanic
             | None => Panic ReflectPanic
             end
           else Panic ReflectPanic
       | None => Panic ReflectPanic
       end) None.

(** [TryWrapStructScanPlan]: [targetElemValue.Type()] panics on the
    zero [reflect.Value], the element of a nil pointer. *)
Definition TryWrapStructScanPlan (ext : External) : TryWrapScanPlanFunc :=
  fun _ target =>
    if bool_decide (KindOf target <> KPtr) then Ret None
    else
      match target with
      | Some targetValue =>
          match ElemType targetValue with
          | Some targetElemType =>
              if bool_decide (kindOf targetElemType = KStruct) then
                let exportedFields :=
                  getExportedFieldValues ext targetElemType in
                if bool_decide (length exportedFields = 0%nat) then Ret None
                else Ret (Some (wrapAnyPtrStructScanPlan ext,
                                ptrStructWrapper ext target exportedFields))
              else Ret None
          | None => Panic ReflectPanic
          end
      | None => Ret None
      end.

(** [wrapSliceEncodePlan]. *)
Definition wrapSliceEncodePlan (ext : External)
  : WrappedEncodePlanNextSetter :=
  adapterEncodePlan (fun _ value => Ret (anySliceArray ext value)) None.

Definition TryWrapSliceEncodePlan (ext : External) : TryWrapEncodePlanFunc :=
  fun _ value =>
    match value with
    | Some v =>
        if bool_decide (kindOf (vtype v) = KSlice)
        then Ret (Some (wrapSliceEncodePlan ext, anySliceArray ext value))
        else Ret None
    | None => Panic NilDereference
    end.

(** [wrapMultiDimSliceEncodePlan]. *)
Definition wrapMultiDimSliceEncodePlan (ext : External)
  : WrappedEncodePlanNextSetter :=
  adapterEncodePlan
    (fun _ value => Ret (anyMultiDimSliceArray ext value)) None.

Definition TryWrapMultiDimSliceEncodePlan (ext : External)
  : TryWrapEncodePlanFunc :=
  fun h value =>
    match value with
    | Some sliceValue =>
        if bool_decide (kindOf (vtype sliceValue) = KSlice) then
          match elemOf (vtype sliceValue) with
          | Some valueElemType =>
              if bool_decide (kindOf valueElemType = KSlice) then
                if negb (isRagged ext h sliceValue) then
                  Ret (Some (wrapMultiDimSliceEncodePlan ext,
                             anyMultiDimSliceArray ext value))
                else Ret None
              else Ret None
          | None => Panic ReflectPanic
          end
        else Ret None
    | None => Ret None
    end.

(** [reflect.ValueOf(target).Elem()] panics unless [target] is a
    pointer; the wrapper is built around [target]. *)
Definition wrapPtrSliceScanPlan (ext : External)
  : WrappedScanPlanNextSetter :=
  adapterScanPlan
    (fun _ target =>
       if bool_decide (KindOf target = KPtr)
       then Ret (anySliceArray_of_ptr ext target)
       else Panic ReflectPanic) None.

Definition TryWrapPtrSliceScanPlan (ext : External) : TryWrapScanPlanFunc :=
  fun _ target =>
    match target with
    | Some targetValue =>
        if bool_decide (kindOf (vtype targetValue) <> KPtr) then Ret None
        else if bool_decide (ElemKind targetValue = KSlice)
        then Ret (Some (wrapPtrSliceScanPlan ext,
                        anySliceArray_of_ptr ext target))
        else Ret None
    | None => Ret None
    end.

Definition wrapPtrMultiDimSliceScanPlan (ext : External)
  : WrappedScanPlanNextSetter :=
  adapterScanPlan
    (fun _ target =>
       if bool_decide (KindOf target = KPtr)
       then Ret (anyMultiDimSliceArray_of_ptr ext target)
       else Panic ReflectPanic) None.

(** [TryWrapPtrMultiDimSliceScanPlan]; [isRagged] reads the slice the
    destination points to. *)
Definition TryWrapPtrMultiDimSliceScanPlan (ext : External)
  : TryWrapScanPlanFunc :=
  fun h target =>
    match target with
    | Some targetValue =>
        if bool_decide (kindOf (vtype targetValue) <> KPtr) then Ret None
        else
          match vdata targetValue, ElemType targetValue with
          | DPtr a, Some targetElemType =>
              if bool_decide (kindOf targetElemType = KSlice) then
                match elemOf targetElemType with
                | Some elemElemType =>
                    if bool_decide (kindOf elemElemType = KSlice) then
                      match load h a with
                      | Ret (CVal targetElemValue) =>
                          if negb (isRagged ext h targetElemValue) then
                            Ret (Some (wrapPtrMultiDimSliceScanPlan ext,
                                       anyMultiDimSliceArray_of_ptr ext
                                         target))
                          else Ret None
                      | Ret _ => Panic badPointer
                      | Panic r => Panic r
                      | OutOfFuel => OutOfFuel
                      end
                    else Ret None
                | None => Panic ReflectPanic
                end
              else Ret None
          | _, _ => Ret None
          end
    | None => Ret None
    end.

(** The adapter chains [NewMap] installs. *)
Definition NewMap_TryWrapEncodePlanFuncs (ext : External)
  : list TryWrapEncodePlanFunc :=
  [ TryWrapDerefPointerEncodePlan;
    TryWrapBuiltinTypeEncodePlan ext;
    TryWrapFindUnderlyingTypeEncodePlan ext;
    TryWrapStructEncodePlan ext;
    TryWrapSliceEncodePlan ext;
    TryWrapMultiDimSliceEncodePlan ext ].

Definition NewMap_TryWrapScanPlanFuncs (ext : External)
  : list TryWrapScanPlanFunc :=
  [ TryPointerPointerScanPlan;
    TryWrapBuiltinTypeScanPlan ext;
    TryFindUnderlyingTypeScanPlan ext;
    TryWrapStructScanPlan ext;
    TryWrapPtrSliceScanPlan ext;
    TryWrapPtrMultiDimSliceScanPlan ext ].
(** Sample parameters: wrapper types that opt out of the
    underlying-type rule, conversions that keep the representation,
    struct types without fields, no ragged slices. *)
Definition sampleWrapper (name : string) (underlying : RType) : RType :=
  TNamed name ["SkipUnderlyingTypePlan"%string] [] underlying.

Definition sampleExternal : External :=
  {| time_Time := TNamed "time.Time" ["String"%string] [] (TStruct "time.Time");
     time_Duration := TNamed "time.Duration" ["String"%string] []
                        (TBasic BInt64);
     net_IPNet := TNamed "net.IPNet" [] ["String"%string] (TStruct "net.IPNet");
     net_IP := TNamed "net.IP" ["String"%string] [] TByteSlice;
     int8Wrapper := sampleWrapper "int8Wrapper" (TBasic BInt8);
     int16Wrapper := sampleWrapper "int16Wrapper" (TBasic BInt16);
     int32Wrapper := sampleWrapper "int32Wrapper" (TBasic BInt32);
     int64Wrapper := sampleWrapper "int64Wrapper" (TBasic BInt64);
     intWrapper := sampleWrapper "intWrapper" (TBasic BInt);
     uint8Wrapper := sampleWrapper "uint8Wrapper" (TBasic BUint8);
     uint16Wrapper := sampleWrapper "uint16Wrapper" (TBasic BUint16);
     uint32Wrapper := sampleWrapper "uint32Wrapper" (TBasic BUint32);
     uint64Wrapper := sampleWrapper "uint64Wrapper" (TBasic BUint64);
     uintWrapper := sampleWrapper "uintWrapper" (TBasic BUint);
     float32Wrapper := sampleWrapper "float32Wrapper" (TBasic BFloat32);
     float64Wrapper := sampleWrapper "float64Wrapper" (TBasic BFloat64);
     stringWrapper := sampleWrapper "stringWrapper" TString;
     timeWrapper := sampleWrapper "timeWrapper" (TStruct "time.Time");
     durationWrapper := sampleWrapper "durationWrapper" (TBasic BInt64);
     netIPNetWrapper := sampleWrapper "netIPNetWrapper" (TStruct "net.IPNet");
     netIPWrapper := sampleWrapper "netIPWrapper" TByteSlice;
     mapStringToPointerStringWrapper :=
       sampleWrapper "mapStringToPointerStringWrapper"
         (TMap TString (TPtr TString));
     mapStringToStringWrapper :=
       sampleWrapper "mapStringToStringWrapper" (TMap TString TString);
     byte16Wrapper := sampleWrapper "byte16Wrapper" (TArray 16 (TBasic BUint8));
     byteSliceWrapper := sampleWrapper "byteSliceWrapper" TByteSlice;
     fmtStringerWrapper := fun _ =>
       Some (mkValue (TStruct "fmtStringerWrapper") DZero);
     structWrapper := fun _ _ => Some (mkValue (TStruct "structWrapper") DZero);
     ptrStructWrapper := fun _ _ =>
       Some (mkValue (TPtr (TStruct "ptrStructWrapper")) DNil);
     anySliceArray := fun _ => Some (mkValue (TStruct "anySliceArray") DZero);
     anySliceArray_of_ptr := fun _ =>
       Some (mkValue (TPtr (TStruct "anySliceArray")) DNil);
     anyMultiDimSliceArray := fun _ =>
       Some (mkValue (TPtr (TStruct "anyMultiDimSliceArray")) DNil);
     anyMultiDimSliceArray_of_ptr := fun _ =>
       Some (mkValue (TPtr (TStruct "anyMultiDimSliceArray")) DNil);
     isRagged := fun _ _ => false;
     Convert := fun v t => Ret (convertTo t v);
     NumField := fun _ => 0%nat;
     IsExported := fun _ _ => false |}.

(** A struct type without methods, a pointer to a pointer to it, and a
    defined string type without methods. *)
Definition plainType : RType := TNamed "Plain" [] [] (TStruct "Plain").
Definition ptrPtrPlain (a : nat) : any :=
  Some (mkValue (TPtr (TPtr plainType)) (DPtr a)).
Definition myString : RType := TNamed "MyString" [] [] TString.

(** ** Helpers of the codecs *)

(** The errors [scanUnknownType] makes with [fmt.Errorf], by their
    format and arguments. *)
Inductive UnknownTypeError :=
  | ErrUnknownOIDBinaryFormat (oid : N) (t : option RType)
  | ErrUnknownOID (oid : N) (t : option RType).

(** [string(buf)]: the empty string for the nil slice. *)
Definition stringOfBytes (h : Heap) (buf : ByteSlice) : Res string :=
  match buf with
  | None => Ret ""%string
  | Some a =>
      match readBytes h a with
      | Ret bs => Ret (String.string_of_list_byte bs)
      | Panic r => Panic r
      | OutOfFuel => OutOfFuel
      end
  end.

(** The value of a [[]byte] variable assigned the slice [buf]. *)
Definition byteSliceValue (buf : ByteSlice) : Value :=
  mkValue TByteSlice (match buf with Some a => DSlice a | None => DNil end).

(** [scanUnknownType].  [GetAssignToDstType] is declared outside this
    file; it can allocate. *)
Fixpoint scanUnknownType
    (GetAssignToDstType : Heap -> any -> Res (Heap * option any))
    (fuel : nat) (oid : N) (formatCode : Z) (buf : ByteSlice) (dest : any)
    (h : Heap) {struct fuel} : Res (Heap * option UnknownTypeError) :=
  match fuel with
  | O => OutOfFuel
  | S fuel' =>
      if hasType (TPtr TString) dest then
        if bool_decide (formatCode = BinaryFormatCode) then
          Ret (h, Some (ErrUnknownOIDBinaryFormat oid (TypeOf dest)))
        else
          match vdata <$> dest with
          | Some (DPtr p) =>
              match stringOfBytes h buf with
              | Ret s =>
                  match store h p (CVal (mkValue TString (DString s))) with
                  | Ret h' => Ret (h', None)
                  | Panic r => Panic r
                  | OutOfFuel => OutOfFuel
                  end
              | Panic r => Panic r
              | OutOfFuel => OutOfFuel
              end
          | _ => Panic NilDereference
          end
      else if hasType (TPtr TByteSlice) dest then
        match vdata <$> dest with
        | Some (DPtr p) =>
            match store h p (CVal (byteSliceValue buf)) with
            | Ret h' => Ret (h', None)
            | Panic r => Panic r
            | OutOfFuel => OutOfFuel
            end
        | _ => Panic NilDereference
        end
      else
        match GetAssignToDstType h dest with
        | Ret (h', Some nextDst) =>
            scanUnknownType GetAssignToDstType fuel' oid formatCode buf
              nextDst h'
        | Ret (h', None) => Ret (h', Some (ErrUnknownOID oid (TypeOf dest)))
        | Panic r => Panic r
        | OutOfFuel => OutOfFuel
        end
  end.

(** The bytes a [[]byte] variable holds, read through its slice. *)
Definition bytesAt (h : Heap) (p : nat) : option (list Byte.byte) :=
  match h !! p with
  | Some (CVal (mkValue _ (DSlice a))) =>
      match h !! a with
      | Some (CBytes bs) => Some bs
      | _ => None
      end
  | _ => None
  end.

Section CodecHelpers.
Context (env : Methods).

(** [codecScan]. *)
Definition codecScan (codec : Codec) (h : Heap) (oid : N) (format : Z)
    (src : ByteSlice) (dst : any) : Res (Heap * option Error) :=
  match Codec_PlanScan codec h oid format dst with
  | None => Ret (h, Some (ErrOther "PlanScan did not find a plan"))
  | Some scanPlan => ScanPlan_Scan env scanPlan src dst h
  end.

(** [codecDecodeToTextFormat]; [string(buf)] of the nil buffer is the
    empty string. *)
Definition codecDecodeToTextFormat (fuel : nat) (codec : Codec) (h : Heap)
    (oid : N) (format : Z) (src : Bytes) : M (any * option Error) :=
  match src with
  | None => mret (None, None)
  | Some bs =>
      if bool_decide (format = TextFormatCode) then
        mret (stringValue (String.string_of_list_byte bs), None)
      else
        match Codec_DecodeValue codec oid format src with
        | (_, Some err) => mret (None, Some err)
        | (value, None) =>
            r ← Encode env fuel h oid TextFormatCode value None;
            match r with
            | (_, Some err) => mret (None, Some err)
            | (buf, None) =>
                mret (stringValue
                        (String.string_of_list_byte (default [] buf)),
                      None)
            end
        end
  end.
End CodecHelpers.

(** A codec that decodes every value to [value]. *)
Definition constCodec (value : any) : Codec :=
  mkCodec (fun _ => true) BinaryFormatCode
          (fun _ _ _ _ => None) (fun _ _ _ _ => None)
          (fun _ _ _ => (value, None)) (fun _ _ _ => (value, None)).

(** ** [NewMap]

    The identifiers of the common types. *)

Definition BoolOID : N := 16%N.
Definition Int8OID : N := 20%N.
Definition Int2OID : N := 21%N.
Definition OIDOID : N := 26%N.
Definition TIDOID : N := 27%N.
Definition XIDOID : N := 28%N.
Definition CIDOID : N := 29%N.
Definition JSONOID : N := 114%N.
Definition JSONArrayOID : N := 199%N.
Definition PointOID : N := 600%N.
Definition LsegOID : N := 601%N.
Definition PathOID : N := 602%N.
Definition BoxOID : N := 603%N.
Definition PolygonOID : N := 604%N.
Definition LineOID : N := 628%N.
Definition LineArrayOID : N := 629%N.
Definition CIDROID : N := 650%N.
Definition CIDRArrayOID : N := 651%N.
Definition Float4OID : N := 700%N.
Definition Float8OID : N := 701%N.
Definition CircleOID : N := 718%N.
Definition CircleArrayOID : N := 719%N.
Definition UnknownOID : N := 705%N.
Definition MacaddrOID : N := 829%N.
Definition InetOID : N := 869%N.
Definition BoolArrayOID : N := 1000%N.
Definition Int2ArrayOID : N := 1005%N.
Definition Int4ArrayOID : N := 1007%N.
Definition TextArrayOID : N := 1009%N.
Definition TIDArrayOID : N := 1010%N.
Definition ByteaArrayOID : N := 1001%N.
Definition XIDArrayOID : N := 1011%N.
Definition CIDArrayOID : N := 1012%N.
Definition BPCharArrayOID : N := 1014%N.
Definition VarcharArrayOID : N := 1015%N.
Definition Int8ArrayOID : N := 1016%N.
Definition PointArrayOID : N := 1017%N.
Definition LsegArrayOID : N := 1018%N.
Definition PathArrayOID : N := 1019%N.
Definition BoxArrayOID : N := 1020%N.
Definition Float4ArrayOID : N := 1021%N.
Definition Float8ArrayOID : N := 1022%N.
Definition PolygonArrayOID : N := 1027%N.
Definition OIDArrayOID : N := 1028%N.
Definition ACLItemOID : N := 1033%N.
Definition ACLItemArrayOID : N := 1034%N.
Definition MacaddrArrayOID : N := 1040%N.
Definition InetArrayOID : N := 1041%N.
Definition BPCharOID : N := 1042%N.
Definition DateOID : N := 1082%N.
Definition TimeOID : N := 1083%N.
Definition TimestampOID : N := 1114%N.
Definition TimestampArrayOID : N := 1115%N.
Definition DateArrayOID : N := 1182%N.
Definition TimeArrayOID : N := 1183%N.
Definition TimestamptzOID : N := 1184%N.
Definition TimestamptzArrayOID : N := 1185%N.
Definition IntervalOID : N := 1186%N.
Definition IntervalArrayOID : N := 1187%N.
Definition NumericArrayOID : N := 1231%N.
Definition BitOID : N := 1560%N.
Definition BitArrayOID : N := 1561%N.
Definition VarbitOID : N := 1562%N.
Definition VarbitArrayOID : N := 1563%N.
Definition NumericOID : N := 1700%N.
Definition RecordOID : N := 2249%N.
Definition RecordArrayOID : N := 2287%N.
Definition UUIDOID : N := 2950%N.
Definition UUIDArrayOID : N := 2951%N.
Definition JSONBOID : N := 3802%N.
Definition JSONBArrayOID : N := 3807%N.
Definition DaterangeOID : N := 3912%N.
Definition DaterangeArrayOID : N := 3913%N.
Definition Int4rangeOID : N := 3904%N.
Definition Int4rangeArrayOID : N := 3905%N.
Definition NumrangeOID : N := 3906%N.
Definition NumrangeArrayOID : N := 3907%N.
Definition TsrangeOID : N := 3908%N.
Definition TsrangeArrayOID : N := 3909%N.
Definition TstzrangeOID : N := 3910%N.
Definition TstzrangeArrayOID : N := 3911%N.
Definition Int8rangeOID : N := 3926%N.
Definition Int8rangeArrayOID : N := 3927%N.

(** The codecs and the value types of the package, declared in its
    other files. *)
Record Package := {
  TextCodec : Codec;
  BitsCodec : Codec;
  BoolCodec : Codec;
  BoxCodec : Codec;
  ByteaCodec : Codec;
  QCharCodec : Codec;
  Uint32Codec : Codec;
  InetCodec : Codec;
  CircleCodec : Codec;
  DateCodec : Codec;
  Float4Codec : Codec;
  Float8Codec : Codec;
  Int2Codec : Codec;
  Int4Codec : Codec;
  Int8Codec : Codec;
  IntervalCodec : Codec;
  JSONCodec : Codec;
  JSONBCodec : Codec;
  LineCodec : Codec;
  LsegCodec : Codec;
  MacaddrCodec : Codec;
  NumericCodec : Codec;
  PathCodec : Codec;
  PointCodec : Codec;
  PolygonCodec : Codec;
  RecordCodec : Codec;
  TIDCodec : Codec;
  TimeCodec : Codec;
  TimestampCodec : Codec;
  TimestamptzCodec : Codec;
  UUIDCodec : Codec;
  TextFormatOnlyCodec : Codec -> Codec;
  RangeCodec : option Type_ -> Codec;
  ArrayCodec : option Type_ -> Codec;
  pgtype_Bits : RType;
  pgtype_Bool : RType;
  pgtype_Box : RType;
  pgtype_Circle : RType;
  pgtype_Date : RType;
  pgtype_Daterange : RType;
  pgtype_Float4 : RType;
  pgtype_Float8 : RType;
  pgtype_Float8range : RType;
  pgtype_Inet : RType;
  pgtype_Int2 : RType;
  pgtype_Int4 : RType;
  pgtype_Int4range : RType;
  pgtype_Int8 : RType;
  pgtype_Int8range : RType;
  pgtype_Interval : RType;
  pgtype_Line : RType;
  pgtype_Lseg : RType;
  pgtype_Numeric : RType;
  pgtype_Numrange : RType;
  pgtype_Path : RType;
  pgtype_Point : RType;
  pgtype_Polygon : RType;
  pgtype_TID : RType;
  pgtype_Text : RType;
  pgtype_Time : RType;
  pgtype_Timestamp : RType;
  pgtype_Timestamptz : RType;
  pgtype_Tsrange : RType;
  pgtype_Tstzrange : RType;
  pgtype_UUID : RType }.

(** The codec expression of a [RegisterType] call of [NewMap]: a codec
    of the package, [&TextFormatOnlyCodec{c}], or a range or array codec
    whose [ElementType] is [m.oidToType[elementOID]], looked up when the
    call is made. *)
Inductive CodecExpr :=
  | CodecOf (c : Package -> Codec)
  | TextFormatOnly (c : Package -> Codec)
  | RangeOf (elementOID : N)
  | ArrayOf (elementOID : N).

Definition evalCodec (pkg : Package) (m : Map) (e : CodecExpr) : Codec :=
  match e with
  | CodecOf c => c pkg
  | TextFormatOnly c => TextFormatOnlyCodec pkg (c pkg)
  | RangeOf elementOID => RangeCodec pkg (oidToType m !! elementOID)
  | ArrayOf elementOID => ArrayCodec pkg (oidToType m !! elementOID)
  end.

(** The [RegisterType] calls of [NewMap], in their order: type name,
    identifier and codec. *)
Definition NewMap_registrations : list (string * N * CodecExpr) :=
  [
    ("aclitem", ACLItemOID, TextFormatOnly TextCodec);
    ("bit", BitOID, CodecOf BitsCodec);
    ("bool", BoolOID, CodecOf BoolCodec);
    ("box", BoxOID, CodecOf BoxCodec);
    ("bpchar", BPCharOID, CodecOf TextCodec);
    ("bytea", ByteaOID, CodecOf ByteaCodec);
    ("char", QCharOID, CodecOf QCharCodec);
    ("cid", CIDOID, CodecOf Uint32Codec);
    ("cidr", CIDROID, CodecOf InetCodec);
    ("circle", CircleOID, CodecOf CircleCodec);
    ("date", DateOID, CodecOf DateCodec);
    ("float4", Float4OID, CodecOf Float4Codec);
    ("float8", Float8OID, CodecOf Float8Codec);
    ("inet", InetOID, CodecOf InetCodec);
    ("int2", Int2OID, CodecOf Int2Codec);
    ("int4", Int4OID, CodecOf Int4Codec);
    ("int8", Int8OID, CodecOf Int8Codec);
    ("interval", IntervalOID, CodecOf IntervalCodec);
    ("json", JSONOID, CodecOf JSONCodec);
    ("jsonb", JSONBOID, CodecOf JSONBCodec);
    ("line", LineOID, CodecOf LineCodec);
    ("lseg", LsegOID, CodecOf LsegCodec);
    ("macaddr", MacaddrOID, CodecOf MacaddrCodec);
    ("name", NameOID, CodecOf TextCodec);
    ("numeric", NumericOID, CodecOf NumericCodec);
    ("oid", OIDOID, CodecOf Uint32Codec);
    ("path", PathOID, CodecOf PathCodec);
    ("point", PointOID, CodecOf PointCodec);
    ("polygon", PolygonOID, CodecOf PolygonCodec);
    ("record", RecordOID, CodecOf RecordCodec);
    ("text", TextOID, CodecOf TextCodec);
    ("tid", TIDOID, CodecOf TIDCodec);
    ("time", TimeOID, CodecOf TimeCodec);
    ("timestamp", TimestampOID, CodecOf TimestampCodec);
    ("timestamptz", TimestamptzOID, CodecOf TimestamptzCodec);
    ("unknown", UnknownOID, CodecOf TextCodec);
    ("uuid", UUIDOID, CodecOf UUIDCodec);
    ("varbit", VarbitOID, CodecOf BitsCodec);
    ("varchar", VarcharOID, CodecOf TextCodec);
    ("xid", XIDOID, CodecOf Uint32Codec);
    ("daterange", DaterangeOID, RangeOf DateOID);
    ("int4range", Int4rangeOID, RangeOf Int4OID);
    ("int8range", Int8rangeOID, RangeOf Int8OID);
    ("numrange", NumrangeOID, RangeOf NumericOID);
    ("tsrange", TsrangeOID, RangeOf TimestampOID);
    ("tstzrange", TstzrangeOID, RangeOf TimestamptzOID);
    ("_aclitem", ACLItemArrayOID, ArrayOf ACLItemOID);
    ("_bit", BitArrayOID, ArrayOf BitOID);
    ("_bool", BoolArrayOID, ArrayOf BoolOID);
    ("_box", BoxArrayOID, ArrayOf BoxOID);
    ("_bpchar", BPCharArrayOID, ArrayOf BPCharOID);
    ("_bytea", ByteaArrayOID, ArrayOf ByteaOID);
    ("_char", QCharArrayOID, ArrayOf QCharOID);
    ("_cid", CIDArrayOID, ArrayOf CIDOID);
    ("_cidr", CIDRArrayOID, ArrayOf CIDROID);
    ("_circle", CircleArrayOID, ArrayOf CircleOID);
    ("_date", DateArrayOID, ArrayOf DateOID);
    ("_daterange", DaterangeArrayOID, ArrayOf DaterangeOID);
    ("_float4", Float4ArrayOID, ArrayOf Float4OID);
    ("_float8", Float8ArrayOID, ArrayOf Float8OID);
    ("_inet", InetArrayOID, ArrayOf InetOID);
    ("_int2", Int2ArrayOID, ArrayOf Int2OID);
    ("_int4", Int4ArrayOID, ArrayOf Int4OID);
    ("_int4range", Int4rangeArrayOID, ArrayOf Int4rangeOID);
    ("_int8", Int8ArrayOID, ArrayOf Int8OID);
    ("_int8range", Int8rangeArrayOID, ArrayOf Int8rangeOID);
    ("_interval", IntervalArrayOID, ArrayOf IntervalOID);
    ("_json", JSONArrayOID, ArrayOf JSONOID);
    ("_jsonb", JSONBArrayOID, ArrayOf JSONBOID);
    ("_line", LineArrayOID, ArrayOf LineOID);
    ("_lseg", LsegArrayOID, ArrayOf LsegOID);
    ("_macaddr", MacaddrArrayOID, ArrayOf MacaddrOID);
    ("_name", NameArrayOID, ArrayOf NameOID);
    ("_numeric", NumericArrayOID, ArrayOf NumericOID);
    ("_numrange", NumrangeArrayOID, ArrayOf NumrangeOID);
    ("_oid", OIDArrayOID, ArrayOf OIDOID);
    ("_path", PathArrayOID, ArrayOf PathOID);
    ("_point", PointArrayOID, ArrayOf PointOID);
    ("_polygon", PolygonArrayOID, ArrayOf PolygonOID);
    ("_record", RecordArrayOID, ArrayOf RecordOID);
    ("_text", TextArrayOID, ArrayOf TextOID);
    ("_tid", TIDArrayOID, ArrayOf TIDOID);
    ("_time", TimeArrayOID, ArrayOf TimeOID);
    ("_timestamp", TimestampArrayOID, ArrayOf TimestampOID);
    ("_timestamptz", TimestamptzArrayOID, ArrayOf TimestamptzOID);
    ("_tsrange", TsrangeArrayOID, ArrayOf TsrangeOID);
    ("_tstzrange", TstzrangeArrayOID, ArrayOf TstzrangeOID);
    ("_uuid", UUIDArrayOID, ArrayOf UUIDOID);
    ("_varbit", VarbitArrayOID, ArrayOf VarbitOID);
    ("_varchar", VarcharArrayOID, ArrayOf VarcharOID);
    ("_xid", XIDArrayOID, ArrayOf XIDOID) ]%string.

(** The calls of [registerDefaultPgTypeVariants] in [NewMap], in their
    order: the type name, the name of its array type and the type of
    the sample value. *)
Definition NewMap_defaults (ext : External) (pkg : Package)
  : list (string * string * RType) :=
  [
    ("int2", "_int2", TBasic BInt16);
    ("int4", "_int4", TBasic BInt32);
    ("int8", "_int8", TBasic BInt64);
    ("int8", "_int8", TBasic BInt8);
    ("int8", "_int8", TBasic BInt);
    ("int8", "_int8", TBasic BUint8);
    ("int8", "_int8", TBasic BUint16);
    ("int8", "_int8", TBasic BUint32);
    ("int8", "_int8", TBasic BUint64);
    ("int8", "_int8", TBasic BUint);
    ("float4", "_float4", TBasic BFloat32);
    ("float8", "_float8", TBasic BFloat64);
    ("bool", "_bool", TBasic BBool);
    ("timestamptz", "_timestamptz", time_Time ext);
    ("interval", "_interval", time_Duration ext);
    ("text", "_text", TString);
    ("bytea", "_bytea", TByteSlice);
    ("inet", "_inet", net_IP ext);
    ("cidr", "_cidr", net_IPNet ext);
    ("varbit", "_varbit", pgtype_Bits pkg);
    ("bool", "_bool", pgtype_Bool pkg);
    ("box", "_box", pgtype_Box pkg);
    ("circle", "_circle", pgtype_Circle pkg);
    ("date", "_date", pgtype_Date pkg);
    ("daterange", "_daterange", pgtype_Daterange pkg);
    ("float4", "_float4", pgtype_Float4 pkg);
    ("float8", "_float8", pgtype_Float8 pkg);
    ("float8range", "_float8range", pgtype_Float8range pkg);
    ("inet", "_inet", pgtype_Inet pkg);
    ("int2", "_int2", pgtype_Int2 pkg);
    ("int4", "_int4", pgtype_Int4 pkg);
    ("int4range", "_int4range", pgtype_Int4range pkg);
    ("int8", "_int8", pgtype_Int8 pkg);
    ("int8range", "_int8range", pgtype_Int8range pkg);
    ("interval", "_interval", pgtype_Interval pkg);
    ("line", "_line", pgtype_Line pkg);
    ("lseg", "_lseg", pgtype_Lseg pkg);
    ("numeric", "_numeric", pgtype_Numeric pkg);
    ("numrange", "_numrange", pgtype_Numrange pkg);
    ("path", "_path", pgtype_Path pkg);
    ("point", "_point", pgtype_Point pkg);
    ("polygon", "_polygon", pgtype_Polygon pkg);
    ("tid", "_tid", pgtype_TID pkg);
    ("text", "_text", pgtype_Text pkg);
    ("time", "_time", pgtype_Time pkg);
    ("timestamp", "_timestamp", pgtype_Timestamp pkg);
    ("timestamptz", "_timestamptz", pgtype_Timestamptz pkg);
    ("tsrange", "_tsrange", pgtype_Tsrange pkg);
    ("tstzrange", "_tstzrange", pgtype_Tstzrange pkg);
    ("uuid", "_uuid", pgtype_UUID pkg) ]%string.

(** A sample value of type [t]: the registration of a default shape
    reads only the type of the value it is given. *)
Definition sample (t : RType) : any := Some (Zero t).

(** The closure [registerDefaultPgTypeVariants] of [NewMap], on the
    registry [m]; [valueType] is the type of its sample value. *)
Definition registerDefaultPgTypeVariants (m : Map) (name arrayName : string)
    (valueType : RType) : Map :=
  (* T *)
  let m := RegisterDefaultPgType m (sample valueType) name in
  (* *T *)
  let m := RegisterDefaultPgType m (sample (TPtr valueType)) name in
  (* []T *)
  let sliceType := TSlice valueType in
  let m := RegisterDefaultPgType m (sample sliceType) arrayName in
  (* *[]T *)
  let m := RegisterDefaultPgType m (sample (TPtr sliceType)) arrayName in
  (* []*T *)
  let sliceOfPointerType := TSlice (TPtr valueType) in
  let m := RegisterDefaultPgType m (sample sliceOfPointerType) arrayName in
  (* *[]*T *)
  RegisterDefaultPgType m (sample (TPtr sliceOfPointerType)) arrayName.

Definition NewMap (ext : External) (pkg : Package) : Map :=
  let m := emptyMap (NewMap_TryWrapEncodePlanFuncs ext)
             (NewMap_TryWrapScanPlanFuncs ext) in
  let m := foldl (fun m r =>
                    RegisterType m (mkType (evalCodec pkg m r.2) r.1.1 r.1.2))
             m NewMap_registrations in
  foldl (fun m d => registerDefaultPgTypeVariants m d.1.1 d.1.2 d.2)
    m (NewMap_defaults ext pkg).

(** Sample codecs and value types: codecs that plan nothing, struct
    types without methods. *)
Definition samplePackage : Package :=
  {| TextCodec := nullCodec BinaryFormatCode;
     BitsCodec := nullCodec BinaryFormatCode;
     BoolCodec := nullCodec BinaryFormatCode;
     BoxCodec := nullCodec BinaryFormatCode;
     ByteaCodec := nullCodec BinaryFormatCode;
     QCharCodec := nullCodec BinaryFormatCode;
     Uint32Codec := nullCodec BinaryFormatCode;
     InetCodec := nullCodec BinaryFormatCode;
     CircleCodec := nullCodec BinaryFormatCode;
     DateCodec := nullCodec BinaryFormatCode;
     Float4Codec := nullCodec BinaryFormatCode;
     Float8Codec := nullCodec BinaryFormatCode;
     Int2Codec := nullCodec BinaryFormatCode;
     Int4Codec := nullCodec BinaryFormatCode;
     Int8Codec := nullCodec BinaryFormatCode;
     IntervalCodec := nullCodec BinaryFormatCode;
     JSONCodec := nullCodec BinaryFormatCode;
     JSONBCodec := nullCodec BinaryFormatCode;
     LineCodec := nullCodec BinaryFormatCode;
     LsegCodec := nullCodec BinaryFormatCode;
     MacaddrCodec := nullCodec BinaryFormatCode;
     NumericCodec := nullCodec BinaryFormatCode;
     PathCodec := nullCodec BinaryFormatCode;
     PointCodec := nullCodec BinaryFormatCode;
     PolygonCodec := nullCodec BinaryFormatCode;
     RecordCodec := nullCodec BinaryFormatCode;
     TIDCodec := nullCodec BinaryFormatCode;
     TimeCodec := nullCodec BinaryFormatCode;
     TimestampCodec := nullCodec BinaryFormatCode;
     TimestamptzCodec := nullCodec BinaryFormatCode;
     UUIDCodec := nullCodec BinaryFormatCode;
     TextFormatOnlyCodec := fun c => c;
     RangeCodec := fun _ => nullCodec BinaryFormatCode;
     ArrayCodec := fun _ => nullCodec BinaryFormatCode;
     pgtype_Bits := TNamed "Bits" [] [] (TStruct "Bits");
     pgtype_Bool := TNamed "Bool" [] [] (TStruct "Bool");
     pgtype_Box := TNamed "Box" [] [] (TStruct "Box");
     pgtype_Circle := TNamed "Circle" [] [] (TStruct "Circle");
     pgtype_Date := TNamed "Date" [] [] (TStruct "Date");
     pgtype_Daterange := TNamed "Daterange" [] [] (TStruct "Daterange");
     pgtype_Float4 := TNamed "Float4" [] [] (TStruct "Float4");
     pgtype_Float8 := TNamed "Float8" [] [] (TStruct "Float8");
     pgtype_Float8range := TNamed "Float8range" [] [] (TStruct "Float8range");
     pgtype_Inet := TNamed "Inet" [] [] (TStruct "Inet");
     pgtype_Int2 := TNamed "Int2" [] [] (TStruct "Int2");
     pgtype_Int4 := TNamed "Int4" [] [] (TStruct "Int4");
     pgtype_Int4range := TNamed "Int4range" [] [] (TStruct "Int4range");
     pgtype_Int8 := TNamed "Int8" [] [] (TStruct "Int8");
     pgtype_Int8range := TNamed "Int8range" [] [] (TStruct "Int8range");
     pgtype_Interval := TNamed "Interval" [] [] (TStruct "Interval");
     pgtype_Line := TNamed "Line" [] [] (TStruct "Line");
     pgtype_Lseg := TNamed "Lseg" [] [] (TStruct "Lseg");
     pgtype_Numeric := TNamed "Numeric" [] [] (TStruct "Numeric");
     pgtype_Numrange := TNamed "Numrange" [] [] (TStruct "Numrange");
     pgtype_Path := TNamed "Path" [] [] (TStruct "Path");
     pgtype_Point := TNamed "Point" [] [] (TStruct "Point");
     pgtype_Polygon := TNamed "Polygon" [] [] (TStruct "Polygon");
     pgtype_TID := TNamed "TID" [] [] (TStruct "TID");
     pgtype_Text := TNamed "Text" [] [] (TStruct "Text");
     pgtype_Time := TNamed "Time" [] [] (TStruct "Time");
     pgtype_Timestamp := TNamed "Timestamp" [] [] (TStruct "Timestamp");
     pgtype_Timestamptz := TNamed "Timestamptz" [] [] (TStruct "Timestamptz");
     pgtype_Tsrange := TNamed "Tsrange" [] [] (TStruct "Tsrange");
     pgtype_Tstzrange := TNamed "Tstzrange" [] [] (TStruct "Tstzrange");
     pgtype_UUID := TNamed "UUID" [] [] (TStruct "UUID") |}.

(** The value types of the package and the standard library that
    [NewMap] gives a default after it has given one to [[]byte]. *)
Definition typesAfterBytea (ext : External) (pkg : Package) : list RType :=
  [ net_IP ext; net_IPNet ext; pgtype_Bits pkg; pgtype_Bool pkg;
    pgtype_Box pkg; pgtype_Circle pkg; pgtype_Date pkg; pgtype_Daterange pkg;
    pgtype_Float4 pkg; pgtype_Float8 pkg; pgtype_Float8range pkg;
    pgtype_Inet pkg; pgtype_Int2 pkg; pgtype_Int4 pkg; pgtype_Int4range pkg;
    pgtype_Int8 pkg; pgtype_Int8range pkg; pgtype_Interval pkg;
    pgtype_Line pkg; pgtype_Lseg pkg; pgtype_Numeric pkg;
    pgtype_Numrange pkg; pgtype_Path pkg; pgtype_Point pkg;
    pgtype_Polygon pkg; pgtype_TID pkg; pgtype_Text pkg; pgtype_Time pkg;
    pgtype_Timestamp pkg; pgtype_Timestamptz pkg; pgtype_Tsrange pkg;
    pgtype_Tstzrange pkg; pgtype_UUID pkg ].

(** The value types that [NewMap] gives a default after [Float8range]. *)
Definition typesAfterFloat8range (pkg : Package) : list RType :=
  [ pgtype_Inet pkg; pgtype_Int2 pkg; pgtype_Int4 pkg; pgtype_Int4range pkg;
    pgtype_Int8 pkg; pgtype_Int8range pkg; pgtype_Interval pkg;
    pgtype_Line pkg; pgtype_Lseg pkg; pgtype_Numeric pkg;
    pgtype_Numrange pkg; pgtype_Path pkg; pgtype_Point pkg;
    pgtype_Polygon pkg; pgtype_TID pkg; pgtype_Text pkg; pgtype_Time pkg;
    pgtype_Timestamp pkg; pgtype_Timestamptz pkg; pgtype_Tsrange pkg;
    pgtype_Tstzrange pkg; pgtype_UUID pkg ].


(** The default shapes one call of [registerDefaultPgTypeVariants]
    records, in the order it records them, and all those of [NewMap]. *)
Definition defaultVariants (name arrayName : string) (T : RType)
  : list (option RType * string) :=
  [ (Some T, name); (Some (TPtr T), name);
    (Some (TSlice T), arrayName); (Some (TPtr (TSlice T)), arrayName);
    (Some (TSlice (TPtr T)), arrayName);
    (Some (TPtr (TSlice (TPtr T))), arrayName) ].

Definition NewMap_shapes (ext : External) (pkg : Package)
  : list (option RType * string) :=
  flat_map (fun d => defaultVariants d.1.1 d.1.2 d.2) (NewMap_defaults ext pkg).
(** Recording one default shape. *)
Definition insertShape (acc : gmap (option RType) string)
    (kv : option RType * string) : gmap (option RType) string :=
  <[kv.1 := kv.2]> acc.

(** ** Memoization as specified *)

(** The call is a run of [planScan] for the triple. *)
Definition is_planScan_for (oid : N) (t : option RType) (formatCode : Z)
    (c : Call) : bool :=
  match c with
  | CallplanScan o f t' =>
      bool_decide (o = oid) && bool_decide (f = formatCode)
      && bool_decide (t' = t)
  | _ => false
  end.

(** The call is a run of the codec's [PlanScan] for the triple. *)
Definition is_codec_PlanScan_for (oid : N) (t : option RType)
    (formatCode : Z) (c : Call) : bool :=
  match c with
  | CallCodecPlanScan o f t' =>
      bool_decide (o = oid) && bool_decide (f = formatCode)
      && bool_decide (t' = t)
  | _ => false
  end.

(** How many calls of a log satisfy [test]. *)
Definition countCalls (test : Call -> bool) (l : list Call) : nat :=
  length (List.filter test l).

(** A request to [PlanScan]: recursion depth, memory, identifier,
    format code and destination. *)
Definition PlanScanRequest : Type := nat * Heap * N * Z * any.

(** [PlanScan] requests made one after the other on one registry,
    with nothing else in between; the log is that of all of them. *)
Fixpoint PlanScans (requests : list PlanScanRequest) : M unit :=
  match requests with
  | [] => mret tt
  | (fuel, h, oid, formatCode, target) :: rest =>
      _ ← PlanScan fuel h oid formatCode target;
      PlanScans rest
  end.

(** Planning once per triple, in the words of the specification: over
    [PlanScan] requests with no registration in between, [planScan],
    and hence the codec's [PlanScan], runs at most once for any one
    identifier, destination type and format. *)
Definition planned_once_per_triple : Prop :=
  forall m requests u m' l,
    PlanScans requests m = Ret (u, m', l) ->
    forall oid t formatCode,
      (countCalls (is_planScan_for oid t formatCode) l <= 1)%nat /\
      (countCalls (is_codec_PlanScan_for oid t formatCode) l <= 1)%nat.

(** A codec that plans scans into [*int32] and nothing else; its plan
    stores nothing. *)
Definition int32ScanPlan : ScanPlan :=
  codecScanPlan (fun _ _ h => Ret (h, None)).
Definition int32Codec : Codec :=
  mkCodec (fun _ => true) BinaryFormatCode
          (fun _ _ _ _ => None)
          (fun _ _ _ target =>
             if hasType (TPtr (TBasic BInt32)) target
             then Some int32ScanPlan else None)
          (fun _ _ _ => (None, None)) (fun _ _ _ => (None, None)).
Definition type_int4_planning : Type_ := mkType int32Codec "int4" Int4OID.

(** A registry with that descriptor and the pointer-to-pointer rule,
    and destinations of type [**int32] (not nil) and [*int32]. *)
Definition int4_planning_registry : Map :=
  RegisterType (emptyMap [] [TryPointerPointerScanPlan]) type_int4_planning.
Definition int32_ptr_ptr : any :=
  Some (mkValue (TPtr (TPtr (TBasic BInt32))) (DPtr 0)).

(** The registry the [PlanScan] for [**int32] leaves, and the plan it
    returns. *)
Definition int4_after_nested : Map :=
  default int4_planning_registry
    (finalMap (PlanScan 2 [] Int4OID BinaryFormatCode int32_ptr_ptr
                 int4_planning_registry)).
Definition int32_ptr_ptr_plan : ScanPlan :=
  wrappedScanPlan
    (pointerPointerScanPlan (TPtr (TPtr (TBasic BInt32)))
       (Some int32ScanPlan)).

(** * Theorems *)

Lemma foldr_delete_lookup (l : list N)
    (memo : gmap N (gmap (option RType) TypeMemo)) (i : N) :
  foldr (fun k acc => delete k acc) memo l !! i =
  if decide (i ∈ l) then None else memo !! i.
Proof.
  induction l as [|k l IH].
  - rewrite decide_False by apply not_elem_of_nil. done.
  - change (delete k (foldr (fun k acc => delete k acc) memo l) !! i =
            if decide (i ∈ k :: l) then None else memo !! i).
    destruct (decide (k = i)) as [->|Hne].
    + rewrite lookup_delete_eq. rewrite decide_True by left. done.
    + rewrite lookup_delete_ne by done. rewrite IH.
      destruct (decide (i ∈ l)) as [Hin|Hnin].
      * rewrite decide_True by (by right). done.
      * rewrite decide_False; [done |].
        intros [?|?]%elem_of_cons; congruence.
Qed.

Lemma deleteAllKeys_empty memo : deleteAllKeys memo = ∅.
Proof.
  apply map_eq. intros i. unfold deleteAllKeys.
  rewrite foldr_delete_lookup, lookup_empty.
  destruct (decide _) as [|Hnin]; [done |].
  destruct (memo !! i) as [x|] eqn:Hx; [|done].
  exfalso. apply Hnin. apply list_elem_of_fmap.
  exists (i, x). split; [done |]. by apply elem_of_map_to_list.
Qed.

Lemma buildReflectTypeToType_lookup m rt :
  reflectTypeToType (buildReflectTypeToType m) ≫= (fun idx => idx !! rt) =
  reflectTypeToName m !! rt ≫= (fun name => nameToType m !! name).
Proof.
  unfold buildReflectTypeToType. simpl.
  apply (map_fold_weak_ind
           (fun acc names =>
              acc !! rt = names !! rt ≫= (fun name => nameToType m !! name))).
  - by rewrite !lookup_empty.
  - intros k name names acc Hk IH.
    destruct (decide (k = rt)) as [->|Hne].
    + rewrite lookup_insert_eq. simpl.
      destruct (nameToType m !! name) as [dt|] eqn:Hdt.
      * by rewrite lookup_insert_eq.
      * rewrite IH, Hk. done.
    + rewrite (lookup_insert_ne names) by done.
      destruct (nameToType m !! name); [|done].
      by rewrite lookup_insert_ne.
Qed.




Lemma keys_coherent_emptyMap we ws : keys_coherent (emptyMap we ws).
Proof. split; intros k t; simpl; by rewrite lookup_empty. Qed.

Lemma keys_coherent_RegisterType m t :
  keys_coherent m -> keys_coherent (RegisterType m t).
Proof.
  intros [Ho Hn]. split; intros k t'; simpl; rewrite lookup_insert;
    case_decide; naive_solver.
Qed.




(** ** Reasoning about the resolver monad *)

Lemma bind_Ret_inv {A B} (c : M A) (f : A -> M B) m b m2 l :
  (c ≫= f) m = Ret (b, m2, l) ->
  exists a m1 l1 l2,
    c m = Ret (a, m1, l1) /\ f a m1 = Ret (b, m2, l2) /\ l = l1 ++ l2.
Proof.
  unfold mbind, M_bind.
  destruct (c m) as [[[a m1] l1]| |] eqn:Hc; [|discriminate..].
  destruct (f a m1) as [[[b' m2'] l2]| |] eqn:Hf; [|discriminate..].
  intros [= <- <- <-]. by exists a, m1, l1, l2.
Qed.

Lemma liftRes_Ret_inv {A} (r : Res A) m a m' l :
  liftRes r m = Ret (a, m', l) -> r = Ret a /\ m' = m /\ l = [].
Proof. destruct r; simpl; [|done..]. by intros [= <- <- <-]. Qed.

Section Keeps.
Context (R : Map -> Map -> Prop).
Context (R_refl : forall m, R m m).
Context (R_trans : forall m1 m2 m3, R m1 m2 -> R m2 m3 -> R m1 m3).
Context (R_index : forall m v, R m (TypeForValue m v).2).

Lemma keeps_ret {A} (a : A) : keeps R (mret a).
Proof using R_refl. intros m a' m' l [= _ <- _]. apply R_refl. Qed.

Lemma keeps_bind {A B} (c : M A) (f : A -> M B) :
  keeps R c -> (forall a, keeps R (f a)) -> keeps R (c ≫= f).
Proof using R_trans.
  intros Hc Hf m b m2 l (a & m1 & l1 & l2 & H1 & H2 & _)%bind_Ret_inv.
  eapply R_trans; [eapply Hc, H1 | eapply Hf, H2].
Qed.

Lemma keeps_logCall c : keeps R (logCall c).
Proof using R_refl. intros m a m' l [= _ <- _]. apply R_refl. Qed.

Lemma keeps_getMap : keeps R getMap.
Proof using R_refl. intros m a m' l [= _ <- _]. apply R_refl. Qed.

Lemma keeps_liftRes {A} (r : Res A) : keeps R (liftRes r).
Proof using R_refl.
  intros m a m' l (_ & -> & _)%liftRes_Ret_inv. apply R_refl.
Qed.

Lemma keeps_panic {A} r : keeps R (@panic A r).
Proof. intros m a m' l [=]. Qed.

Lemma keeps_outOfFuel {A} : keeps R (@outOfFuel A).
Proof. intros m a m' l [=]. Qed.

Lemma keeps_callTypeForOID oid : keeps R (callTypeForOID oid).
Proof using R_refl. intros m a m' l [= _ <- _]. apply R_refl. Qed.

Lemma keeps_callTypeForValue v : keeps R (callTypeForValue v).
Proof using R_index.
  intros m a m' l. unfold callTypeForValue.
  pose proof (R_index m v) as HR.
  destruct (TypeForValue m v) as [dt m1]. intros [= _ <- _]. exact HR.
Qed.

Local Ltac keeps_leaf :=
  first
    [ apply keeps_ret | apply keeps_logCall | apply keeps_getMap
    | apply keeps_liftRes | apply keeps_outOfFuel
    | apply keeps_callTypeForOID | apply keeps_callTypeForValue ].

Local Tactic Notation "keeps_bind_as" ident(x) :=
  apply keeps_bind; [try keeps_leaf | intros x].

Lemma keeps_PlanEncode_resolve oid value :
  keeps R (PlanEncode_resolve oid value).
Proof using All.
  unfold PlanEncode_resolve. case_bool_decide.
  - keeps_bind_as dataType. destruct dataType; keeps_leaf.
  - keeps_bind_as dataType. keeps_leaf.
Qed.

Lemma keeps_planScan_resolve oid target :
  keeps R (planScan_resolve oid target).
Proof using All.
  unfold planScan_resolve. keeps_bind_as dataType.
  destruct dataType; [keeps_leaf|]. keeps_bind_as dataType.
  destruct dataType; keeps_leaf.
Qed.

Lemma keeps_callCodecPlanEncode dt h oid format value :
  keeps R (callCodecPlanEncode dt h oid format value).
Proof using R_refl R_trans.
  unfold callCodecPlanEncode. keeps_bind_as u. keeps_leaf.
Qed.

Lemma keeps_callCodecPlanScan dt h oid formatCode target :
  keeps R (callCodecPlanScan dt h oid formatCode target).
Proof using R_refl R_trans.
  unfold callCodecPlanScan. keeps_bind_as u. keeps_leaf.
Qed.

Lemma keeps_tryWrapEncodePlans resolve h value fs :
  (forall v, keeps R (resolve v)) ->
  keeps R (tryWrapEncodePlans resolve h value fs).
Proof using R_refl R_trans.
  intros Hres. induction fs as [|f fs IH]; simpl; [keeps_leaf|].
  keeps_bind_as r.
  destruct r as [[wrapperPlan nextValue]|]; [|exact IH].
  keeps_bind_as nextPlan; [apply Hres|].
  destruct nextPlan; [keeps_leaf | exact IH].
Qed.

Lemma keeps_tryWrapScanPlans resolve h target fs :
  (forall v, keeps R (resolve v)) ->
  keeps R (tryWrapScanPlans resolve h target fs).
Proof using R_refl R_trans.
  intros Hres. induction fs as [|f fs IH]; simpl; [keeps_leaf|].
  keeps_bind_as r.
  destruct r as [[wrapperPlan nextDst]|]; [|exact IH].
  keeps_bind_as nextPlan; [apply Hres|].
  destruct (is_scanPlanFail nextPlan); [exact IH | keeps_leaf].
Qed.

Lemma keeps_PlanEncode fuel h oid format value :
  keeps R (PlanEncode fuel h oid format value).
Proof using All.
  revert oid value. induction fuel as [|fuel IH]; intros oid value; simpl.
  - apply keeps_outOfFuel.
  - keeps_bind_as u.
    destruct (_ && _); [keeps_leaf|].
    destruct (_ && _); [keeps_leaf|].
    keeps_bind_as r; [apply keeps_PlanEncode_resolve|].
    keeps_bind_as plan.
    + destruct (r.1); [apply keeps_callCodecPlanEncode | keeps_leaf].
    + destruct plan; [keeps_leaf|].
      keeps_bind_as m0.
      apply keeps_tryWrapEncodePlans. intros v. apply IH.
Qed.

Lemma keeps_planScan fuel h oid formatCode target :
  keeps R (planScan fuel h oid formatCode target).
Proof using All.
  revert oid target. induction fuel as [|fuel IH]; intros oid target; simpl.
  - apply keeps_outOfFuel.
  - keeps_bind_as u.
    destruct (planScan_fastPath _ _ _); [keeps_leaf|].
    keeps_bind_as r; [apply keeps_planScan_resolve|].
    keeps_bind_as plan.
    + destruct (r.1); [apply keeps_callCodecPlanScan | keeps_leaf].
    + destruct plan; [keeps_leaf|].
      keeps_bind_as m0.
      keeps_bind_as wrapped.
      * apply keeps_tryWrapScanPlans. intros v. apply IH.
      * destruct wrapped; keeps_leaf.
Qed.

Lemma keeps_Encode env fuel h oid formatCode value buf :
  keeps R (Encode env fuel h oid formatCode value buf).
Proof using All.
  revert value. induction fuel as [|fuel IH]; intros value; cbn [Encode].
  - destruct value; [apply keeps_outOfFuel | keeps_leaf].
  - destruct value as [dv|]; [|keeps_leaf].
    keeps_bind_as plan; [apply keeps_PlanEncode|].
    destruct plan as [p|].
    + keeps_bind_as u. keeps_leaf.
    + destruct (implements _ _); [|keeps_leaf].
      keeps_bind_as u. keeps_bind_as r.
      destruct r as [v [err|]]; [keeps_leaf | apply IH].
Qed.
End Keeps.

(** ** The resolver touches nothing but the lazily built shape index *)

Lemma lazily_indexed_refl m : lazily_indexed m m.
Proof. by left. Qed.

Lemma lazily_indexed_trans m1 m2 m3 :
  lazily_indexed m1 m2 -> lazily_indexed m2 m3 -> lazily_indexed m1 m3.
Proof.
  intros [->|[H1 ->]] [->|[H2 ->]]; try (by left); try (by right).
Qed.

Lemma lazily_indexed_TypeForValue m v : lazily_indexed m (TypeForValue m v).2.
Proof.
  unfold TypeForValue. simpl.
  destruct (reflectTypeToType m) eqn:E; [by left | by right].
Qed.

Lemma planScan_lazily_indexed fuel h oid formatCode target :
  keeps lazily_indexed (planScan fuel h oid formatCode target).
Proof.
  apply keeps_planScan;
    [ apply lazily_indexed_refl | apply lazily_indexed_trans
    | apply lazily_indexed_TypeForValue ].
Qed.

Lemma PlanEncode_lazily_indexed fuel h oid format value :
  keeps lazily_indexed (PlanEncode fuel h oid format value).
Proof.
  apply keeps_PlanEncode;
    [ apply lazily_indexed_refl | apply lazily_indexed_trans
    | apply lazily_indexed_TypeForValue ].
Qed.

Lemma Encode_lazily_indexed env fuel h oid formatCode value buf :
  keeps lazily_indexed (Encode env fuel h oid formatCode value buf).
Proof.
  apply keeps_Encode;
    [ apply lazily_indexed_refl | apply lazily_indexed_trans
    | apply lazily_indexed_TypeForValue ].
Qed.

(** What a lazy rebuild leaves alone. *)
Lemma lazily_indexed_fields m m' :
  lazily_indexed m m' ->
  oidToType m' = oidToType m /\ nameToType m' = nameToType m /\
  reflectTypeToName m' = reflectTypeToName m /\
  oidToFormatCode m' = oidToFormatCode m /\
  memoizedScanPlans m' = memoizedScanPlans m /\
  TryWrapEncodePlanFuncs m' = TryWrapEncodePlanFuncs m /\
  TryWrapScanPlanFuncs m' = TryWrapScanPlanFuncs m.
Proof. by intros [->|[_ ->]]. Qed.

(** [PlanScan] in one step: a memo hit returns the stored plan and
    leaves the registry as it is; a miss runs [planScan] and stores its
    plan in the slot of the format. *)
Lemma PlanScan_unfold fuel h oid formatCode target m :
  PlanScan fuel h oid formatCode target m =
  let oidMemo := default ∅ (memoizedScanPlans m !! oid) in
  let typeMemo := default (None, None) (oidMemo !! TypeOf target) in
  match TypeMemo_index typeMemo formatCode with
  | Ret (Some p) => Ret (p, ensureOidMemo m oid, [])
  | Ret None =>
      match planScan fuel h oid formatCode target (ensureOidMemo m oid) with
      | Ret (p, m1, l) =>
          Ret (p,
               set_memoizedScanPlans m1
                 (<[oid := <[TypeOf target :=
                               TypeMemo_set typeMemo formatCode p]> oidMemo]>
                    (memoizedScanPlans m1)),
               l)
      | Panic r => Panic r
      | OutOfFuel => OutOfFuel
      end
  | Panic r => Panic r
  | OutOfFuel => OutOfFuel
  end.
Proof.
  unfold PlanScan, ensureOidMemo, mbind, M_bind, getMap, putMap, mret, M_ret.
  destruct (memoizedScanPlans m !! oid) as [oidMemo|] eqn:Hoid; simpl.
  - destruct (TypeMemo_index _ _) as [[p|]| |]; simpl; try done.
    destruct (planScan _ _ _ _ _ _) as [[[p m1] l]| |]; simpl; try done.
    by rewrite app_nil_r.
  - destruct (TypeMemo_index _ _) as [[p|]| |]; simpl; try done.
    destruct (planScan _ _ _ _ _ _) as [[[p m1] l]| |]; simpl; try done.
    by rewrite app_nil_r.
Qed.

(** ** What the calls of a client leave unchanged *)

Lemma same_registrations_refl m : same_registrations m m.
Proof. by repeat split. Qed.

Lemma same_registrations_trans m1 m2 m3 :
  same_registrations m1 m2 -> same_registrations m2 m3 ->
  same_registrations m1 m3.
Proof. unfold same_registrations. intros ? ?. intuition congruence. Qed.

Lemma lazily_indexed_same_registrations m m' :
  lazily_indexed m m' -> same_registrations m m'.
Proof. by intros [->|[_ ->]]. Qed.

Lemma ensureOidMemo_same_registrations m oid :
  same_registrations m (ensureOidMemo m oid).
Proof. unfold ensureOidMemo. by destruct (memoizedScanPlans m !! oid). Qed.

Lemma PlanScan_same_registrations fuel h oid formatCode target :
  keeps same_registrations (PlanScan fuel h oid formatCode target).
Proof.
  intros m p m' l. rewrite PlanScan_unfold. cbv zeta.
  destruct (TypeMemo_index _ _) as [[q|]| |]; try done.
  - intros [= _ <- _]. apply ensureOidMemo_same_registrations.
  - destruct (planScan _ _ _ _ _ _) as [[[q m1] l1]| |] eqn:Hplan; try done.
    intros [= _ <- _].
    apply planScan_lazily_indexed, lazily_indexed_same_registrations in Hplan.
    eapply same_registrations_trans;
      [apply ensureOidMemo_same_registrations |].
    eapply same_registrations_trans; [exact Hplan |]. by repeat split.
Qed.

Lemma Scan_same_registrations env fuel oid formatCode src dst h :
  keeps same_registrations (Scan env fuel oid formatCode src dst h).
Proof.
  intros m r m' l. unfold Scan. destruct dst as [d|].
  - intros (p & m1 & l1 & l2 & H1 & H2 & _)%bind_Ret_inv.
    apply PlanScan_same_registrations in H1.
    apply bind_Ret_inv in H2 as (u & m2 & l3 & l4 & H2 & H3 & _).
    injection H2 as _ <- _.
    apply liftRes_Ret_inv in H3 as (_ & -> & _). exact H1.
  - intros [= _ <- _]. apply same_registrations_refl.
Qed.

(** A call that registers no descriptor keeps both indexes and the
    preferred formats. *)
Lemma runOp_same_registrations m op m' :
  runOp m op = Some m' -> registeredOID op = None ->
  oidToType m' = oidToType m /\ nameToType m' = nameToType m /\
  oidToFormatCode m' = oidToFormatCode m.
Proof.
  destruct op; simpl; try discriminate.
  - by intros [= <-] _.
  - by intros [= <-] _.
  - by intros [= <-] _.
  - destruct (PlanEncode _ _ _ _ _ _) as [[[p m1] l]| |] eqn:E; try done.
    intros [= <-] _.
    apply PlanEncode_lazily_indexed, lazily_indexed_fields in E.
    destruct E as (? & ? & _ & ? & _). auto.
  - destruct (PlanScan _ _ _ _ _ _) as [[[p m1] l]| |] eqn:E; try done.
    intros [= <-] _. apply PlanScan_same_registrations in E.
    destruct E as (? & ? & _ & ? & _). auto.
  - destruct (Encode _ _ _ _ _ _ _ _) as [[[p m1] l]| |] eqn:E; try done.
    intros [= <-] _.
    apply Encode_lazily_indexed, lazily_indexed_fields in E.
    destruct E as (? & ? & _ & ? & _). auto.
  - destruct (Scan _ _ _ _ _ _ _ _) as [[[p m1] l]| |] eqn:E; try done.
    intros [= <-] _. apply Scan_same_registrations in E.
    destruct E as (? & ? & _ & ? & _). auto.
Qed.

(** A call that registers nothing under [oid] keeps what is found
    under [oid]. *)
Lemma runOp_keeps_oid m op m' oid :
  runOp m op = Some m' -> registeredOID op <> Some oid ->
  oidToType m' !! oid = oidToType m !! oid /\
  oidToFormatCode m' !! oid = oidToFormatCode m !! oid.
Proof.
  intros Hrun Hreg.
  destruct (registeredOID op) as [o|] eqn:Ho.
  - destruct op; try discriminate. simpl in Ho, Hrun.
    injection Ho as <-. injection Hrun as <-. simpl.
    rewrite !lookup_insert_ne by congruence. done.
  - destruct (runOp_same_registrations _ _ _ Hrun Ho) as (-> & _ & ->). done.
Qed.

Lemma runOps_keeps_oid ops m m' oid :
  runOps m ops = Some m' ->
  Forall (fun op => registeredOID op <> Some oid) ops ->
  oidToType m' !! oid = oidToType m !! oid /\
  oidToFormatCode m' !! oid = oidToFormatCode m !! oid.
Proof.
  revert m. induction ops as [|op ops IH]; intros m; simpl.
  - by intros [= <-].
  - destruct (runOp m op) as [m1|] eqn:Hop; [|done].
    intros Hrun [Hreg Hrest]%Forall_cons.
    destruct (IH _ Hrun Hrest) as [-> ->].
    eapply runOp_keeps_oid; eauto.
Qed.

(** C4: a descriptor registered under an identifier is what
    [TypeForOID] returns for it, and [FormatCodeForOID] returns the
    preferred format of its codec, through any later calls that register
    nothing under that identifier; for an identifier under which nothing
    was ever registered [FormatCodeForOID] returns the text format. *)
Theorem registered_type_and_format :
  (forall (m : Map) (D : Type_) (later : list Op) (m' : Map),
     runOps (RegisterType m D) later = Some m' ->
     Forall (fun op => registeredOID op <> Some (Type_OID D)) later ->
     TypeForOID m' (Type_OID D) = Some D /\
     FormatCodeForOID m' (Type_OID D) =
       Codec_PreferredFormat (Type_Codec D)) /\
  (forall we ws (ops : list Op) (m' : Map) (oid : N),
     runOps (emptyMap we ws) ops = Some m' ->
     Forall (fun op => registeredOID op <> Some oid) ops ->
     FormatCodeForOID m' oid = TextFormatCode).
Proof.
  split.
  - intros m D later m' Hrun Hlater.
    destruct (runOps_keeps_oid _ _ _ _ Hrun Hlater) as [Ht Hf].
    unfold TypeForOID, FormatCodeForOID. rewrite Ht, Hf. simpl.
    by rewrite !lookup_insert_eq.
  - intros we ws ops m' oid Hrun Hops.
    destruct (runOps_keeps_oid _ _ _ _ Hrun Hops) as [_ Hf].
    unfold FormatCodeForOID. rewrite Hf. simpl. by rewrite lookup_empty.
Qed.

Lemma registered_type_and_format_witness :
  (TypeForOID
     (RegisterType
        (RegisterDefaultPgType (RegisterType (emptyMap [] []) type_int4)
           None "int4")
        type_name_array)
     Int4OID = Some type_int4 /\
   FormatCodeForOID
     (RegisterType
        (RegisterDefaultPgType (RegisterType (emptyMap [] []) type_int4)
           None "int4")
        type_name_array)
     Int4OID = BinaryFormatCode) /\
  FormatCodeForOID (RegisterType (emptyMap [] []) type_int4) TextOID =
    TextFormatCode.
Proof.
  destruct registered_type_and_format as [Hreg Hnever]. split.
  - apply (Hreg (emptyMap [] []) type_int4
             [OpRegisterDefaultPgType None "int4";
              OpRegisterType type_name_array] _ eq_refl).
    repeat constructor; discriminate.
  - apply (Hnever [] [] [OpRegisterType type_int4] _ TextOID eq_refl).
    repeat constructor; discriminate.
Defined.



(** ** Nil inputs *)

(** C5: [Encode] of a nil value returns [(nil, nil)] at once: no bytes,
    no error, the registry untouched and no call made, neither a
    descriptor lookup nor a plan resolution. *)
Theorem Encode_nil env fuel h oid formatCode buf m :
  Encode env fuel h oid formatCode None buf m = Ret ((None, None), m, []).
Proof. destruct fuel; reflexivity. Qed.

(** C10: [Scan] into a nil destination returns nil at once, whatever
    the identifier, format and source: memory and registry untouched, no
    plan resolved or run. *)
Theorem Scan_nil_destination env fuel oid formatCode src h m :
  Scan env fuel oid formatCode src None h m = Ret ((h, None), m, []).
Proof. reflexivity. Qed.

(** ** The memo of [PlanScan] *)

Lemma TypeMemo_index_Ret typeMemo formatCode slot :
  TypeMemo_index typeMemo formatCode = Ret slot ->
  (formatCode = 0 /\ slot = typeMemo.1) \/
  (formatCode = 1 /\ slot = typeMemo.2).
Proof.
  unfold TypeMemo_index. repeat case_bool_decide; naive_solver.
Qed.

Lemma memoized_index m oid t formatCode :
  formatCode = 0 \/ formatCode = 1 ->
  TypeMemo_index
    (default (None, None) (default ∅ (memoizedScanPlans m !! oid) !! t))
    formatCode = Ret (memoized m oid t formatCode).
Proof.
  intros Hf. unfold memoized, TypeMemo_index.
  destruct (memoizedScanPlans m !! oid) as [oidMemo|]; simpl.
  - destruct (oidMemo !! t) as [typeMemo|]; simpl;
      repeat case_bool_decide; try done; lia.
  - rewrite lookup_empty. simpl. repeat case_bool_decide; try done; lia.
Qed.

Lemma memoized_ensureOidMemo m oid o t f :
  memoized (ensureOidMemo m oid) o t f = memoized m o t f.
Proof.
  unfold ensureOidMemo, memoized.
  destruct (memoizedScanPlans m !! oid) eqn:E; [done|]. simpl.
  destruct (decide (oid = o)) as [->|Hne].
  - rewrite lookup_insert_eq, E, lookup_empty. done.
  - by rewrite lookup_insert_ne.
Qed.

(** A memo hit: the stored plan is returned, for any fuel, and nothing
    else happens. *)
Lemma PlanScan_hit fuel h oid formatCode target m p :
  memoized m oid (TypeOf target) formatCode = Some p ->
  PlanScan fuel h oid formatCode target m = Ret (p, m, []).
Proof.
  intros Hmemo. rewrite PlanScan_unfold. cbv zeta.
  assert (formatCode = 0 \/ formatCode = 1) as Hf.
  { unfold memoized in Hmemo.
    destruct (memoizedScanPlans m !! oid); [|done].
    destruct (_ !! _); [|done].
    repeat case_bool_decide; auto; done. }
  rewrite memoized_index, Hmemo by done.
  unfold ensureOidMemo, memoized in *.
  by destruct (memoizedScanPlans m !! oid).
Qed.

(** What a returning [PlanScan] leaves in the memo: its plan in the
    slot of its triple, every other slot as before; on a hit the plan
    is the stored one. *)
Lemma memoized_PlanScan fuel h oid formatCode target m p m' l :
  PlanScan fuel h oid formatCode target m = Ret (p, m', l) ->
  (formatCode = 0 \/ formatCode = 1) /\
  memoized m' oid (TypeOf target) formatCode = Some p /\
  (forall q, memoized m oid (TypeOf target) formatCode = Some q -> p = q) /\
  (memoized m oid (TypeOf target) formatCode = None ->
   exists m1, planScan fuel h oid formatCode target (ensureOidMemo m oid)
              = Ret (p, m1, l)) /\
  (forall o t f,
     (o, t, f) <> (oid, TypeOf target, formatCode) ->
     memoized m' o t f = memoized m o t f).
Proof.
  rewrite PlanScan_unfold. cbv zeta.
  destruct (TypeMemo_index _ _) as [slot| |] eqn:Hidx; [|done..].
  pose proof (TypeMemo_index_Ret _ _ _ Hidx) as Hslot.
  assert (formatCode = 0 \/ formatCode = 1) as Hf
    by (destruct Hslot as [[? _]|[? _]]; auto).
  rewrite memoized_index in Hidx by done. injection Hidx as Hmemo.
  destruct slot as [q|].
  - intros [= <- <- <-]. split; [done|].
    split; [by rewrite memoized_ensureOidMemo|].
    split; [congruence|]. split; [congruence|].
    intros. apply memoized_ensureOidMemo.
  - destruct (planScan _ _ _ _ _ _) as [[[q m1] l1]| |] eqn:Hplan; [|done..].
    intros [= <- <- <-]. split; [done|].
    pose proof (planScan_lazily_indexed _ _ _ _ _ _ _ _ _ Hplan) as Hlazy.
    apply lazily_indexed_fields in Hlazy as (_ & _ & _ & _ & Hm1 & _).
    split; [|split; [congruence | split; [eauto|]]].
    + unfold memoized. simpl. rewrite !lookup_insert_eq.
      unfold TypeMemo_set. destruct Hf as [-> | ->]; done.
    + intros o t f Hne. rewrite <- (memoized_ensureOidMemo m oid).
      unfold memoized at 1. simpl. rewrite Hm1.
      destruct (decide (oid = o)) as [<-|Hno];
        [|by rewrite lookup_insert_ne].
      rewrite lookup_insert_eq.
      destruct (decide (TypeOf target = t)) as [<-|Hnt].
      * rewrite lookup_insert_eq.
        assert (f <> formatCode) as Hnf by congruence.
        unfold memoized, TypeMemo_set, ensureOidMemo.
        destruct (memoizedScanPlans m !! oid) as [oidMemo|] eqn:Hoid; simpl.
        -- rewrite Hoid. destruct (oidMemo !! _) as [tm|]; simpl;
             destruct Hf as [-> | ->]; repeat case_bool_decide; done.
        -- rewrite lookup_insert_eq, !lookup_empty. simpl.
           destruct Hf as [-> | ->]; repeat case_bool_decide; done.
      * rewrite lookup_insert_ne by done.
        unfold memoized, ensureOidMemo.
        destruct (memoizedScanPlans m !! oid) as [oidMemo|] eqn:Hoid; simpl.
        -- by rewrite Hoid.
        -- by rewrite lookup_insert_eq.
Qed.

(** C9: [PlanScan] indexes the two-slot array with the format code it
    is given.  For format code 0 or 1 the access is in bounds, and then
    a panic of [PlanScan] can only come from [planScan]; for any other
    format code it panics with an index out of range, whatever the
    registry, before any planning. *)
Theorem PlanScan_format_code_index fuel h oid formatCode target m :
  (formatCode = TextFormatCode \/ formatCode = BinaryFormatCode ->
   (forall typeMemo, exists slot,
      TypeMemo_index typeMemo formatCode = Ret slot) /\
   (forall r, PlanScan fuel h oid formatCode target m = Panic r ->
      planScan fuel h oid formatCode target (ensureOidMemo m oid)
        = Panic r)) /\
  (formatCode <> TextFormatCode -> formatCode <> BinaryFormatCode ->
   PlanScan fuel h oid formatCode target m
     = Panic (IndexOutOfRange formatCode 2)).
Proof.
  split.
  - intros Hf. split.
    + intros typeMemo. unfold TypeMemo_index.
      destruct Hf as [-> | ->]; simpl; eauto.
    + intros r. rewrite PlanScan_unfold. cbv zeta.
      rewrite memoized_index by exact Hf.
      destruct (memoized _ _ _ _); [done|].
      by destruct (planScan _ _ _ _ _ _) as [[[q m1] l1]| |].
  - intros H0 H1. rewrite PlanScan_unfold. cbv zeta.
    unfold TypeMemo_index, TextFormatCode, BinaryFormatCode in *.
    by rewrite !bool_decide_eq_false_2.
Qed.

Lemma PlanScan_format_code_index_witness :
  (exists slot, TypeMemo_index (None, None) BinaryFormatCode = Ret slot) /\
  PlanScan 1 [] Int4OID 2 None (emptyMap [] [])
    = Panic (IndexOutOfRange 2 2).
Proof.
  destruct (PlanScan_format_code_index 1 [] Int4OID BinaryFormatCode None
              (emptyMap [] [])) as [Hin _].
  destruct (PlanScan_format_code_index 1 [] Int4OID 2 None
              (emptyMap [] [])) as [_ Hout].
  split.
  - apply Hin. by right.
  - apply Hout; discriminate.
Defined.

(** ** Memoized plans survive every call but a registration *)

Lemma memoized_lazily_indexed m m' o t f :
  lazily_indexed m m' -> memoized m' o t f = memoized m o t f.
Proof. by intros [->|[_ ->]]. Qed.

Lemma memoized_runOp m op m' o t f p :
  runOp m op = Some m' -> is_registration op = false ->
  memoized m o t f = Some p -> memoized m' o t f = Some p.
Proof.
  destruct op; simpl; try discriminate.
  - by intros [= <-] _.
  - by intros [= <-] _.
  - destruct (PlanEncode _ _ _ _ _ _) as [[[q m1] l]| |] eqn:E; try done.
    intros [= <-] _ Hm.
    apply PlanEncode_lazily_indexed in E.
    by rewrite (memoized_lazily_indexed _ _ _ _ _ E).
  - destruct (PlanScan _ _ _ _ _ _) as [[[q m1] l]| |] eqn:E; try done.
    intros [= <-] _ Hm.
    apply memoized_PlanScan in E as (_ & Hnew & Hold & _ & Hother).
    destruct (decide ((o, t, f) = (oid, TypeOf target, formatCode)))
      as [[= -> -> ->]|Hne].
    + rewrite Hnew. f_equal. by apply Hold.
    + by rewrite Hother.
  - destruct (Encode _ _ _ _ _ _ _ _) as [[[q m1] l]| |] eqn:E; try done.
    intros [= <-] _ Hm.
    apply Encode_lazily_indexed in E.
    by rewrite (memoized_lazily_indexed _ _ _ _ _ E).
  - unfold Scan. destruct dst as [d|]; [|by intros [= <-] _].
    destruct (_ ≫= _) as [[[q m1] l]| |] eqn:E; try done.
    intros [= <-] _ Hm.
    apply bind_Ret_inv in E as (pl & m2 & l1 & l2 & E1 & E2 & _).
    apply bind_Ret_inv in E2 as (u & m3 & l3 & l4 & E2 & E3 & _).
    injection E2 as _ <- _.
    apply liftRes_Ret_inv in E3 as (_ & -> & _).
    apply memoized_PlanScan in E1 as (_ & Hnew & Hold & _ & Hother).
    destruct (decide ((o, t, f) = (oid, TypeOf (Some d), formatCode)))
      as [Heq|Hne].
    + injection Heq as -> -> ->. simpl in Hnew, Hold.
      rewrite Hnew. f_equal. by apply Hold.
    + by rewrite Hother.
Qed.

Lemma memoized_runOps ops m m' o t f p :
  runOps m ops = Some m' ->
  Forall (fun op => is_registration op = false) ops ->
  memoized m o t f = Some p -> memoized m' o t f = Some p.
Proof.
  revert m. induction ops as [|op ops IH]; intros m; simpl.
  - by intros [= <-].
  - destruct (runOp m op) as [m1|] eqn:Hop; [|done].
    intros Hrun [Hreg Hrest]%Forall_cons Hm.
    eapply IH; [exact Hrun | exact Hrest |].
    eapply memoized_runOp; eauto.
Qed.

(** A returning [planScan] logs its own entry first. *)
Lemma planScan_log_head fuel h oid formatCode target m p m' l :
  planScan fuel h oid formatCode target m = Ret (p, m', l) ->
  exists l', l = CallplanScan oid formatCode (TypeOf target) :: l'.
Proof.
  destruct fuel as [|fuel]; [done|]. cbn [planScan].
  intros (u & m1 & l1 & l2 & H1 & _ & ->)%bind_Ret_inv.
  injection H1 as _ _ <-. eauto.
Qed.

(** C3, as stated, fails: planning is not bounded by one run per
    triple.  With the pointer-to-pointer rule and int4 registered, a
    [PlanScan] for [**int32] resolves [*int32] as a nested step, running
    [planScan] and the codec's [PlanScan] for (23, [*int32], binary);
    that recursion calls [planScan] itself, so nothing is memoized for
    the nested triple, and a following [PlanScan] for [*int32] runs both
    again. *)
Lemma nested_triple_planned_twice :
  PlanScan 2 [] Int4OID BinaryFormatCode int32_ptr_ptr int4_planning_registry
    = Ret (int32_ptr_ptr_plan, int4_after_nested,
           [CallplanScan Int4OID BinaryFormatCode (TypeOf int32_ptr_ptr);
            CallTypeForOID Int4OID;
            CallCodecPlanScan Int4OID BinaryFormatCode (TypeOf int32_ptr_ptr);
            CallplanScan Int4OID BinaryFormatCode (TypeOf int32_ptr);
            CallTypeForOID Int4OID;
            CallCodecPlanScan Int4OID BinaryFormatCode (TypeOf int32_ptr)]) /\
  memoized int4_after_nested Int4OID (TypeOf int32_ptr_ptr) BinaryFormatCode
    = Some int32_ptr_ptr_plan /\
  memoized int4_after_nested Int4OID (TypeOf int32_ptr) BinaryFormatCode
    = None /\
  valueOf (PlanScan 1 [] Int4OID BinaryFormatCode int32_ptr int4_after_nested)
    = Some int32ScanPlan /\
  callsOf (PlanScan 1 [] Int4OID BinaryFormatCode int32_ptr int4_after_nested)
    = Some [CallplanScan Int4OID BinaryFormatCode (TypeOf int32_ptr);
            CallTypeForOID Int4OID;
            CallCodecPlanScan Int4OID BinaryFormatCode (TypeOf int32_ptr)] /\
  ~ planned_once_per_triple.
Proof.
  split; [vm_compute; reflexivity |]. split; [vm_compute; reflexivity |].
  split; [vm_compute; reflexivity |]. split; [vm_compute; reflexivity |].
  split; [vm_compute; reflexivity |].
  intros H.
  assert (callsOf
            (PlanScans
               [(2%nat, [], Int4OID, BinaryFormatCode, int32_ptr_ptr);
                (1%nat, [], Int4OID, BinaryFormatCode, int32_ptr)]
               int4_planning_registry)
          = Some
              [CallplanScan Int4OID BinaryFormatCode (TypeOf int32_ptr_ptr);
               CallTypeForOID Int4OID;
               CallCodecPlanScan Int4OID BinaryFormatCode
                 (TypeOf int32_ptr_ptr);
               CallplanScan Int4OID BinaryFormatCode (TypeOf int32_ptr);
               CallTypeForOID Int4OID;
               CallCodecPlanScan Int4OID BinaryFormatCode (TypeOf int32_ptr);
               CallplanScan Int4OID BinaryFormatCode (TypeOf int32_ptr);
               CallTypeForOID Int4OID;
               CallCodecPlanScan Int4OID BinaryFormatCode (TypeOf int32_ptr)])
    as Hlog by (vm_compute; reflexivity).
  destruct (PlanScans _ int4_planning_registry) as [[[u m'] l]| |] eqn:Hseq;
    [| discriminate Hlog..].
  injection Hlog as ->.
  destruct (H _ _ _ _ _ Hseq Int4OID (TypeOf int32_ptr) BinaryFormatCode)
    as [Hplan Hcodec].
  vm_compute in Hplan. lia.
Qed.

(** C3 (amended): [PlanScan] plans on a miss only.  A returning
    [PlanScan] whose triple has no memoized plan is one run of
    [planScan] for that triple: it returns the plan of that run with its
    call log, which starts with that run.  A [PlanScan] whose triple is
    memoized returns the stored plan, makes no call and leaves the
    registry as it is.  Either way the plan is memoized afterwards, and
    through any later calls that are not registrations every further
    [PlanScan] for the same identifier, destination type and format
    returns that very plan, whatever the fuel, the memory and the
    destination of that type, with no call at all (no [planScan], no
    codec planning) and the registry unchanged. *)
Theorem PlanScan_plans_on_miss_only fuel h oid formatCode target m p m1 l :
  PlanScan fuel h oid formatCode target m = Ret (p, m1, l) ->
  (formatCode = TextFormatCode \/ formatCode = BinaryFormatCode) /\
  (memoized m oid (TypeOf target) formatCode = None ->
   (exists m',
      planScan fuel h oid formatCode target (ensureOidMemo m oid)
        = Ret (p, m', l)) /\
   (exists l', l = CallplanScan oid formatCode (TypeOf target) :: l')) /\
  (forall q,
     memoized m oid (TypeOf target) formatCode = Some q ->
     p = q /\ m1 = m /\ l = []) /\
  memoized m1 oid (TypeOf target) formatCode = Some p /\
  (forall ops m2,
     runOps m1 ops = Some m2 ->
     Forall (fun op => is_registration op = false) ops ->
     forall fuel' h' target',
       TypeOf target' = TypeOf target ->
       PlanScan fuel' h' oid formatCode target' m2 = Ret (p, m2, [])).
Proof.
  intros Hfirst.
  pose proof (memoized_PlanScan _ _ _ _ _ _ _ _ _ Hfirst)
    as (Hf & Hnew & _ & Hmiss & _).
  split; [exact Hf |]. split; [| split; [| split; [exact Hnew |]]].
  - intros Hnone. destruct (Hmiss Hnone) as [m' Hplan].
    split; [by exists m' |]. exact (planScan_log_head _ _ _ _ _ _ _ _ _ Hplan).
  - intros q Hq. rewrite (PlanScan_hit _ _ _ _ _ _ _ Hq) in Hfirst.
    by injection Hfirst as <- <- <-.
  - intros ops m2 Hops Hnoreg fuel' h' target' Htype.
    apply PlanScan_hit. rewrite Htype.
    eapply memoized_runOps; [exact Hops | exact Hnoreg | exact Hnew].
Qed.

Lemma PlanScan_plans_on_miss_only_witness :
  exists l m2,
    PlanScan 2 [] Int4OID BinaryFormatCode int32_ptr_ptr
      int4_planning_registry = Ret (int32_ptr_ptr_plan, int4_after_nested, l) /\
    runOps int4_after_nested
      [OpPlanScan 1 [] Int4OID BinaryFormatCode int32_ptr] = Some m2 /\
    PlanScan 0 [CVal (Zero (TPtr (TBasic BInt32)))] Int4OID BinaryFormatCode
      (Some (mkValue (TPtr (TPtr (TBasic BInt32))) (DPtr 0))) m2
      = Ret (int32_ptr_ptr_plan, m2, []).
Proof.
  assert (exists l,
            PlanScan 2 [] Int4OID BinaryFormatCode int32_ptr_ptr
              int4_planning_registry
            = Ret (int32_ptr_ptr_plan, int4_after_nested, l)) as [l E]
    by (eexists; vm_compute; reflexivity).
  assert (match runOps int4_after_nested
                  [OpPlanScan 1 [] Int4OID BinaryFormatCode int32_ptr]
          with Some _ => true | None => false end = true) as Hret
    by (vm_compute; reflexivity).
  destruct (runOps int4_after_nested _) as [m2|] eqn:E2;
    [| discriminate Hret].
  exists l, m2. split; [exact E |]. split; [reflexivity |].
  destruct (PlanScan_plans_on_miss_only _ _ _ _ _ _ _ _ _ E)
    as (_ & _ & _ & _ & Hlater).
  apply (Hlater _ _ E2); [| reflexivity].
  repeat constructor.
Defined.

(** ** The text-format byte-slice fast path *)

Lemma planScan_fastPath_text_byte_slice oid target :
  oid <> ByteaOID -> TypeOf target = Some (TPtr TByteSlice) ->
  planScan_fastPath oid TextFormatCode target = Some scanPlanAnyTextToBytes.
Proof.
  intros Hoid Htype. unfold planScan_fastPath, hasType. rewrite Htype.
  rewrite (bool_decide_eq_false_2 (Some _ = Some (TPtr UndecodedBytes)))
    by discriminate.
  rewrite (bool_decide_eq_false_2 (TextFormatCode = BinaryFormatCode))
    by discriminate.
  rewrite (bool_decide_eq_true_2 (TextFormatCode = TextFormatCode)) by done.
  rewrite (bool_decide_eq_false_2 (Some _ = Some (TPtr TString)))
    by discriminate.
  rewrite (bool_decide_eq_true_2 (Some (TPtr TByteSlice) = Some _)) by done.
  by rewrite bool_decide_eq_true_2.
Qed.

(** [planScan] returns the byte-copy plan from its fast path: the only
    call logged is its own entry. *)
Lemma planScan_fast_path_byte_copy fuel h oid target m :
  oid <> ByteaOID -> TypeOf target = Some (TPtr TByteSlice) ->
  planScan (S fuel) h oid TextFormatCode target m =
  Ret (scanPlanAnyTextToBytes, m,
       [CallplanScan oid TextFormatCode (TypeOf target)]).
Proof.
  intros Hoid Htype. simpl.
  unfold mbind, M_bind, logCall.
  by rewrite planScan_fastPath_text_byte_slice.
Qed.

Lemma memoized_empty m o t f :
  memoizedScanPlans m = ∅ -> memoized m o t f = None.
Proof. intros H. unfold memoized. by rewrite H, lookup_empty. Qed.

Lemma memo_bytes_sound_PlanScan fuel h oid formatCode target m p m' l :
  PlanScan fuel h oid formatCode target m = Ret (p, m', l) ->
  memo_bytes_sound m -> memo_bytes_sound m'.
Proof.
  intros Hplan Hsound o q Ho Hq.
  apply memoized_PlanScan in Hplan as (_ & Hnew & Hold & Hmiss & Hother).
  destruct (decide ((o, Some (TPtr TByteSlice), TextFormatCode)
                    = (oid, TypeOf target, formatCode))) as [Heq|Hne].
  - injection Heq as -> Htype <-. rewrite <- Htype in *.
    rewrite Hnew in Hq. injection Hq as <-.
    destruct (memoized m oid (Some (TPtr TByteSlice)) TextFormatCode)
      as [q|] eqn:Hm.
    + rewrite (Hold q eq_refl). by apply (Hsound oid).
    + destruct (Hmiss eq_refl) as [m1 Hrun].
      destruct fuel as [|fuel]; [done|].
      rewrite planScan_fast_path_byte_copy in Hrun by done. congruence.
  - rewrite Hother in Hq by done. by apply (Hsound o).
Qed.

Lemma memo_bytes_sound_runOp m op m' :
  runOp m op = Some m' -> memo_bytes_sound m -> memo_bytes_sound m'.
Proof.
  destruct op; simpl.
  - intros [= <-] _ o q _. rewrite memoized_empty; [done|].
    apply deleteAllKeys_empty.
  - intros [= <-] _ o q _. rewrite memoized_empty; [done|].
    apply deleteAllKeys_empty.
  - by intros [= <-].
  - by intros [= <-].
  - destruct (PlanEncode _ _ _ _ _ _) as [[[q m1] l]| |] eqn:E; try done.
    intros [= <-] Hs o p Ho. apply PlanEncode_lazily_indexed in E.
    rewrite (memoized_lazily_indexed _ _ _ _ _ E). by apply Hs.
  - destruct (PlanScan _ _ _ _ _ _) as [[[q m1] l]| |] eqn:E; try done.
    intros [= <-]. by eapply memo_bytes_sound_PlanScan.
  - destruct (Encode _ _ _ _ _ _ _ _) as [[[q m1] l]| |] eqn:E; try done.
    intros [= <-] Hs o p Ho. apply Encode_lazily_indexed in E.
    rewrite (memoized_lazily_indexed _ _ _ _ _ E). by apply Hs.
  - unfold Scan. destruct dst as [d|]; [|by intros [= <-]].
    destruct (_ ≫= _) as [[[q m1] l]| |] eqn:E; try done.
    intros [= <-].
    apply bind_Ret_inv in E as (pl & m2 & l1 & l2 & E1 & E2 & _).
    apply bind_Ret_inv in E2 as (u & m3 & l3 & l4 & E2 & E3 & _).
    injection E2 as _ <- _.
    apply liftRes_Ret_inv in E3 as (_ & -> & _).
    by eapply memo_bytes_sound_PlanScan.
Qed.

Lemma memo_bytes_sound_reachable m : reachable m -> memo_bytes_sound m.
Proof.
  intros (we & ws & ops & Hrun).
  assert (memo_bytes_sound (emptyMap we ws)) as Hinit.
  { intros o q _. by rewrite memoized_empty. }
  revert Hrun Hinit. generalize (emptyMap we ws) as m0.
  induction ops as [|op ops IH]; intros m0; simpl.
  - by intros [= <-].
  - destruct (runOp m0 op) as [m1|] eqn:Hop; [|done].
    intros Hrun Hs. eapply IH; [exact Hrun |].
    by eapply memo_bytes_sound_runOp.
Qed.

(** Running the byte-copy plan into a [*[]byte] that points to an
    allocated cell. *)
Lemma scanPlanAnyTextToBytes_Scan_nil h dstBuf :
  (dstBuf < length h)%nat ->
  scanPlanAnyTextToBytes_Scan None (ptrToByteSlice dstBuf) h =
  Ret (<[dstBuf := CVal (mkValue TByteSlice DNil)]> h, None).
Proof.
  intros Hlt. unfold scanPlanAnyTextToBytes_Scan, store. simpl.
  by rewrite bool_decide_eq_true_2.
Qed.

Lemma scanPlanAnyTextToBytes_Scan_copy h dstBuf a bs :
  (dstBuf < length h)%nat -> h !! a = Some (CBytes bs) ->
  scanPlanAnyTextToBytes_Scan (Some a) (ptrToByteSlice dstBuf) h =
  Ret (<[dstBuf := CVal (mkValue TByteSlice (DSlice (length h)))]>
         (h ++ [CBytes bs]), None).
Proof.
  intros Hlt Ha. unfold scanPlanAnyTextToBytes_Scan.
  change (hasType (TPtr TByteSlice) (ptrToByteSlice dstBuf)) with true.
  change (vdata <$> ptrToByteSlice dstBuf) with (Some (DPtr dstBuf)).
  cbv beta iota. unfold readBytes. rewrite Ha. unfold alloc, store.
  rewrite insert_app_r_alt by lia. rewrite Nat.sub_diag.
  change (<[0%nat := CBytes bs]> [CBytes (replicate (length bs) Byte.x00)])
    with [CBytes bs].
  rewrite bool_decide_eq_true_2; [done|].
  rewrite length_app. simpl. lia.
Qed.

(** C8: for an identifier other than bytea, [PlanScan] in text format
    for a destination of type [*[]byte] returns the byte-copy plan, from
    the memo or from the fast path of [planScan], so without any
    descriptor lookup or codec call.  Run on a destination that points
    to an allocated cell, the plan sets it to the nil slice for a nil
    source, and for a source over the array [bs] allocates a new backing
    array (at the first unused address), fills it with [bs] and sets the
    destination to the slice over it; no error in either case. *)
Theorem PlanScan_text_byte_slice m fuel h oid target :
  reachable m ->
  oid <> ByteaOID ->
  TypeOf target = Some (TPtr TByteSlice) ->
  (exists m' l,
     PlanScan (S fuel) h oid TextFormatCode target m
       = Ret (scanPlanAnyTextToBytes, m', l) /\
     (l = [] \/ l = [CallplanScan oid TextFormatCode (TypeOf target)])) /\
  (forall env dstBuf,
     target = ptrToByteSlice dstBuf ->
     (dstBuf < length h)%nat ->
     ScanPlan_Scan env scanPlanAnyTextToBytes None target h
       = Ret (<[dstBuf := CVal (mkValue TByteSlice DNil)]> h, None) /\
     (forall a bs,
        h !! a = Some (CBytes bs) ->
        ScanPlan_Scan env scanPlanAnyTextToBytes (Some a) target h
          = Ret (<[dstBuf := CVal (mkValue TByteSlice (DSlice (length h)))]>
                   (h ++ [CBytes bs]), None))).
Proof.
  intros Hreach Hoid Htype. split.
  - apply memo_bytes_sound_reachable in Hreach.
    destruct (memoized m oid (TypeOf target) TextFormatCode) as [q|] eqn:Hm.
    + exists m, []. split; [|by left].
      rewrite (PlanScan_hit _ _ _ _ _ _ _ Hm). do 3 f_equal.
      rewrite Htype in Hm. by apply (Hreach oid).
    + rewrite PlanScan_unfold. cbv zeta.
      rewrite memoized_index, Hm by (by left).
      rewrite planScan_fast_path_byte_copy by done. eauto.
  - intros env dstBuf -> Hlt. simpl. split.
    + by apply scanPlanAnyTextToBytes_Scan_nil.
    + intros a bs Ha. by apply scanPlanAnyTextToBytes_Scan_copy.
Qed.

Lemma PlanScan_text_byte_slice_witness :
  (exists m' l,
     PlanScan 1 [CVal (Zero TByteSlice); CBytes [Byte.x68; Byte.x69]]
       TextOID TextFormatCode (ptrToByteSlice 0)
       (RegisterType (emptyMap [] []) type_int4)
       = Ret (scanPlanAnyTextToBytes, m', l) /\
     (l = [] \/
      l = [CallplanScan TextOID TextFormatCode
             (TypeOf (ptrToByteSlice 0))])) /\
  ScanPlan_Scan
    noMethods
    scanPlanAnyTextToBytes (Some 1%nat) (ptrToByteSlice 0)
    [CVal (Zero TByteSlice); CBytes [Byte.x68; Byte.x69]]
  = Ret ([CVal (mkValue TByteSlice (DSlice 2));
          CBytes [Byte.x68; Byte.x69];
          CBytes [Byte.x68; Byte.x69]], None).
Proof.
  assert (reachable (RegisterType (emptyMap [] []) type_int4)) as Hreach
    by (by exists [], [], [OpRegisterType type_int4]).
  assert (TextOID <> ByteaOID) as Hoid by discriminate.
  destruct (PlanScan_text_byte_slice _ 0
              [CVal (Zero TByteSlice); CBytes [Byte.x68; Byte.x69]]
              TextOID (ptrToByteSlice 0) Hreach Hoid eq_refl)
    as [Hplan Hrun].
  split; [exact Hplan |].
  refine (proj2 (Hrun _ 0%nat eq_refl _) 1%nat _ eq_refl).
  simpl. lia.
Defined.

(** ** Pointer-to-pointer destinations *)

Lemma kindOf_ptr_elemOf t : kindOf t = KPtr -> is_Some (elemOf t).
Proof.
  induction t as [b| | | | | | | | |]; simpl; eauto; try discriminate.
  by destruct b.
Qed.

Lemma TryPointerPointerScanPlan_Some h target stub nextTarget :
  TryPointerPointerScanPlan h target = Ret (Some (stub, nextTarget)) ->
  exists dstValue elType pointee,
    target = Some dstValue /\
    kindOf (vtype dstValue) = KPtr /\ elemOf (vtype dstValue) = Some elType /\
    kindOf elType = KPtr /\ elemOf elType = Some pointee /\
    stub = pointerPointerScanPlan (vtype dstValue) None /\
    nextTarget = Some (mkValue elType DNil).
Proof.
  unfold TryPointerPointerScanPlan.
  destruct target as [dstValue|]; [|done].
  case_bool_decide as Hk; [|done].
  destruct (vdata dstValue); try done.
  destruct (elemOf (vtype dstValue)) as [elType|] eqn:He; [|done].
  case_bool_decide as Hke; [|done].
  intros [= <- <-].
  destruct (kindOf_ptr_elemOf _ Hke) as [pointee Hp].
  exists dstValue, elType, pointee. repeat split; try done.
  unfold Zero, zeroData. by rewrite Hke.
Qed.

(** C6: a plan made by [TryPointerPointerScanPlan] and bound to an
    inner plan, run on a destination of the type it was made for that
    points to an allocated pointer variable [el]: a nil source sets
    that variable to the nil pointer and returns no error; a non-nil
    source allocates a zeroed pointee at the first unused address, sets
    the variable to point to it and returns what the inner plan returns
    when scanning the source into that new pointer. *)
Theorem pointer_to_pointer_scan env h0 target stub nextTarget inner
    dst el h :
  TryPointerPointerScanPlan h0 target = Ret (Some (stub, nextTarget)) ->
  TypeOf dst = TypeOf target ->
  vdata <$> dst = Some (DPtr el) ->
  (el < length h)%nat ->
  exists elType pointee,
    (TypeOf dst ≫= elemOf) = Some elType /\
    elemOf elType = Some pointee /\
    nextTarget = Some (mkValue elType DNil) /\
    ScanPlan_Scan env (wrappedScanPlan (SetNext stub inner)) None dst h
      = Ret (<[el := CVal (mkValue elType DNil)]> h, None) /\
    (forall a,
       ScanPlan_Scan env (wrappedScanPlan (SetNext stub inner)) (Some a) dst h
       = ScanPlan_Scan env inner (Some a)
           (Some (mkValue elType (DPtr (length h))))
           (<[el := CVal (mkValue elType (DPtr (length h)))]>
              (h ++ [zeroCell pointee]))).
Proof.
  intros Htry Htype Hdata Hlt.
  apply TryPointerPointerScanPlan_Some in Htry
    as (dstValue & elType & pointee & -> & Hk & He & Hke & Hp & -> & ->).
  destruct dst as [[dstType d]|]; [|done].
  simpl in Htype, Hdata. injection Htype as ->. injection Hdata as ->.
  exists elType, pointee. simpl. rewrite Hk, He.
  repeat split; try done.
  - unfold store. rewrite bool_decide_eq_true_2 by done.
    unfold zeroCell, Zero, zeroData. by rewrite Hke.
  - intros a. rewrite Hke, Hp. unfold store.
    rewrite bool_decide_eq_true_2; [done|].
    rewrite length_app. simpl. lia.
Qed.

Lemma pointer_to_pointer_scan_witness :
  exists elType pointee,
    elType = TPtr (TBasic BInt32) /\ pointee = TBasic BInt32 /\
    ScanPlan_Scan
      noMethods
      (wrappedScanPlan
         (SetNext (pointerPointerScanPlan (TPtr (TPtr (TBasic BInt32))) None)
                  (scanPlanFail Int4OID BinaryFormatCode)))
      None
      (Some (mkValue (TPtr (TPtr (TBasic BInt32))) (DPtr 0)))
      [CVal (mkValue (TPtr (TBasic BInt32)) (DPtr 5))]
    = Ret ([CVal (mkValue elType DNil)], None).
Proof.
  destruct (pointer_to_pointer_scan
              noMethods
              []
              (Some (mkValue (TPtr (TPtr (TBasic BInt32))) (DPtr 0)))
              (pointerPointerScanPlan (TPtr (TPtr (TBasic BInt32))) None)
              (Some (Zero (TPtr (TBasic BInt32))))
              (scanPlanFail Int4OID BinaryFormatCode)
              (Some (mkValue (TPtr (TPtr (TBasic BInt32))) (DPtr 0)))
              0%nat
              [CVal (mkValue (TPtr (TBasic BInt32)) (DPtr 5))]
              eq_refl eq_refl eq_refl (Nat.lt_0_1))
    as (elType & pointee & Hel & Hp & _ & Hnil & _).
  exists elType, pointee.
  injection Hel as <-. injection Hp as <-.
  split; [reflexivity |]. split; [reflexivity |]. exact Hnil.
Defined.

(** ** Encoding a value no plan is found for *)

(** C7: when [PlanEncode] finds no plan for a non-nil value, [Encode]
    asks whether the value is a [driver.Valuer].  If it is, [Value] is
    called once and [Encode] starts over with the value it returned (an
    error of [Value] is returned as it is, with no bytes); if it is
    not, [Encode] returns no bytes and the error "unable to encode". *)
Theorem Encode_without_plan env fuel h oid formatCode dv buf m m1 l1 :
  PlanEncode (S fuel) h oid formatCode (Some dv) m = Ret (None, m1, l1) ->
  (implements driver_Valuer (Some dv) = true ->
   (forall v,
      Valuer_Value env dv h = Ret (v, None) ->
      Encode env (S fuel) h oid formatCode (Some dv) buf m =
      match Encode env fuel h oid formatCode v buf m1 with
      | Ret (r, m2, l2) =>
          Ret (r, m2, l1 ++ CallValuerValue (TypeOf (Some dv)) :: l2)
      | Panic r => Panic r
      | OutOfFuel => OutOfFuel
      end) /\
   (forall v err,
      Valuer_Value env dv h = Ret (v, Some err) ->
      Encode env (S fuel) h oid formatCode (Some dv) buf m =
      Ret ((None, Some err), m1,
           l1 ++ [CallValuerValue (TypeOf (Some dv))]))) /\
  (implements driver_Valuer (Some dv) = false ->
   Encode env (S fuel) h oid formatCode (Some dv) buf m =
   Ret ((None, Some (ErrUnableToEncode (Some dv) oid)), m1, l1)).
Proof.
  intros Hplan.
  assert (forall k : option EncodePlan -> M (Bytes * option Error),
            (PlanEncode (S fuel) h oid formatCode (Some dv) ≫= k) m =
            match k None m1 with
            | Ret (r, m2, l2) => Ret (r, m2, l1 ++ l2)
            | Panic r => Panic r
            | OutOfFuel => OutOfFuel
            end) as Hbind.
  { intros k. unfold mbind at 1, M_bind at 1. by rewrite Hplan. }
  cbn [Encode]. rewrite Hbind. split.
  - intros ->. split.
    + intros v Hv. unfold mbind, M_bind, logCall, liftRes. rewrite Hv.
      by destruct (Encode env fuel h oid formatCode v buf m1)
        as [[[r m2] l2]| |].
    + intros v err Hv. unfold mbind, M_bind, logCall, liftRes. rewrite Hv.
      reflexivity.
  - intros ->. unfold mret, M_ret. by rewrite app_nil_r.
Qed.

Lemma Encode_without_plan_witness :
  Encode (valuerMethods (Some plainStruct)) 2 [] Int4OID BinaryFormatCode
    (Some valuerStruct) None (emptyMap [] []) =
  match
    Encode (valuerMethods (Some plainStruct)) 1 [] Int4OID BinaryFormatCode
      (Some plainStruct) None (emptyMap [] [])
  with
  | Ret (r, m2, l2) =>
      Ret (r, m2,
           [CallPlanEncode Int4OID BinaryFormatCode
              (TypeOf (Some valuerStruct));
            CallTypeForOID Int4OID]
           ++ CallValuerValue (TypeOf (Some valuerStruct)) :: l2)
  | Panic r => Panic r
  | OutOfFuel => OutOfFuel
  end /\
  Encode noMethods 1 [] Int4OID BinaryFormatCode (Some plainStruct) None
    (emptyMap [] []) =
  Ret ((None, Some (ErrUnableToEncode (Some plainStruct) Int4OID)),
       emptyMap [] [],
       [CallPlanEncode Int4OID BinaryFormatCode (TypeOf (Some plainStruct));
        CallTypeForOID Int4OID]).
Proof.
  split.
  - refine (proj1 (proj1 (Encode_without_plan
                            (valuerMethods (Some plainStruct)) 1 []
                            Int4OID BinaryFormatCode valuerStruct None
                            (emptyMap [] []) (emptyMap [] []) _ _)
                         eq_refl) (Some plainStruct) eq_refl).
    vm_compute. reflexivity.
  - refine (proj2 (Encode_without_plan noMethods 0 [] Int4OID
                     BinaryFormatCode plainStruct None
                     (emptyMap [] []) (emptyMap [] []) _ _) eq_refl).
    vm_compute. reflexivity.
Defined.

(** ** Which identifier a resolution works for *)

Lemma PlanEncode_resolve_by_spec : resolves_by_spec PlanEncode_resolve.
Proof.
  intros m oid value. unfold PlanEncode_resolve, resolve_by_spec.
  destruct (decide (oid = 0%N)) as [->|Hne].
  - rewrite bool_decide_eq_true_2 by done.
    rewrite bool_decide_eq_false_2 by (intros H; by apply H).
    unfold mbind, M_bind, callTypeForValue.
    destruct (TypeForValue m value) as [[dt|] m']; simpl;
      eexists; (split; [reflexivity | done]).
  - rewrite bool_decide_eq_false_2 by done.
    rewrite bool_decide_eq_true_2 by done.
    eexists. split; [reflexivity |].
    intros _. simpl. repeat constructor.
Qed.

Lemma planScan_resolve_registered_first m oid target :
  exists l,
    planScan_resolve oid target m
      = Ret (resolve_registered_first m oid target, l) /\
    (is_Some (TypeForOID m oid) -> l = [CallTypeForOID oid]) /\
    (TypeForOID m oid = None ->
     l = [CallTypeForOID oid; CallTypeForValue (TypeOf target)]).
Proof.
  unfold planScan_resolve, resolve_registered_first.
  unfold mbind, M_bind, callTypeForOID, callTypeForValue.
  destruct (TypeForOID m oid) as [dt|] eqn:Hdt.
  - eexists. split; [reflexivity |]. split; [done | done].
  - destruct (TypeForValue m target) as [[dt|] m'];
      eexists; (split; [reflexivity |]); (split; [by intros [? ?] | done]).
Qed.

(** C2, as stated, fails for [planScan]: with the nonzero identifier
    25, under which nothing is registered, and a [*int32] destination,
    it consults the shape inference, finds int4 and goes on with
    identifier 23. *)
Lemma planScan_infers_for_unregistered_oid :
  TextOID <> 0%N /\
  TypeForOID int4_registry TextOID = None /\
  valueOf (planScan_resolve TextOID int32_ptr int4_registry)
    = Some (Some type_int4, Int4OID) /\
  callsOf (planScan_resolve TextOID int32_ptr int4_registry)
    = Some [CallTypeForOID TextOID; CallTypeForValue (TypeOf int32_ptr)] /\
  ~ (resolves_by_spec PlanEncode_resolve /\
     resolves_by_spec planScan_resolve).
Proof.
  assert (valueOf (planScan_resolve TextOID int32_ptr int4_registry)
          = Some (Some type_int4, Int4OID)) as Hcode
    by (vm_compute; reflexivity).
  assert ((resolve_by_spec int4_registry TextOID int32_ptr).1
          = (None, TextOID)) as Hspec
    by (vm_compute; reflexivity).
  split; [discriminate |]. split; [reflexivity |].
  split; [exact Hcode |]. split; [vm_compute; reflexivity |].
  intros [_ H].
  destruct (H int4_registry TextOID int32_ptr) as (l & Heq & _).
  apply (f_equal valueOf) in Heq. cbn [valueOf fst] in Heq.
  rewrite Hcode, Hspec in Heq. discriminate Heq.
Qed.

Section Quiet.
Context (m0 : Map) (oid : N).

Lemma quiet_ret {A} (a : A) (Q : A -> Prop) :
  Q a -> quiet_at m0 oid (mret a) Q.
Proof. intros HQ a' m' l [= <- <- <-]. by repeat split. Qed.

Lemma quiet_bind {A B} (c : M A) (f : A -> M B) Q Q' :
  quiet_at m0 oid c Q ->
  (forall a, Q a -> quiet_at m0 oid (f a) Q') ->
  quiet_at m0 oid (c ≫= f) Q'.
Proof.
  intros Hc Hf b m2 l (a & m1 & l1 & l2 & H1 & H2 & ->)%bind_Ret_inv.
  destruct (Hc _ _ _ H1) as (-> & Hl1 & Ha).
  destruct (Hf _ Ha _ _ _ H2) as (-> & Hl2 & Hb).
  repeat split; [by apply Forall_app | done].
Qed.

Lemma quiet_weaken {A} (c : M A) (Q Q' : A -> Prop) :
  quiet_at m0 oid c Q -> (forall a, Q a -> Q' a) -> quiet_at m0 oid c Q'.
Proof. intros Hc HQ a m' l H. destruct (Hc _ _ _ H) as (? & ? & ?). eauto. Qed.

Lemma quiet_logCall c : targets oid c -> quiet_at m0 oid (logCall c) (fun _ => True).
Proof. intros Hc a m' l [= _ <- <-]. repeat split. by constructor. Qed.

Lemma quiet_getMap : quiet_at m0 oid getMap (fun m => m = m0).
Proof. intros a m' l [= <- <- <-]. by repeat split. Qed.

Lemma quiet_liftRes {A} (r : Res A) : quiet_at m0 oid (liftRes r) (fun _ => True).
Proof.
  intros a m' l (_ & -> & ->)%liftRes_Ret_inv. by repeat split.
Qed.

Lemma quiet_outOfFuel {A} Q : quiet_at m0 oid (@outOfFuel A) Q.
Proof. intros a m' l [=]. Qed.

Lemma quiet_callCodecPlanEncode dt h format value :
  quiet_at m0 oid (callCodecPlanEncode dt h oid format value)
    (fun _ => True).
Proof.
  unfold callCodecPlanEncode.
  eapply quiet_bind; [by apply quiet_logCall |].
  intros _ _. by apply quiet_ret.
Qed.

Lemma quiet_callCodecPlanScan dt h formatCode target :
  quiet_at m0 oid (callCodecPlanScan dt h oid formatCode target)
    (fun _ => True).
Proof.
  unfold callCodecPlanScan.
  eapply quiet_bind; [by apply quiet_logCall |].
  intros _ _. by apply quiet_ret.
Qed.

Lemma quiet_tryWrapEncodePlans resolve h value fs :
  (forall v, quiet_at m0 oid (resolve v) (fun _ => True)) ->
  quiet_at m0 oid (tryWrapEncodePlans resolve h value fs) (fun _ => True).
Proof.
  intros Hres. induction fs as [|f fs IH]; simpl; [by apply quiet_ret|].
  eapply quiet_bind; [apply quiet_liftRes |]. intros r _.
  destruct r as [[wrapperPlan nextValue]|]; [|exact IH].
  eapply quiet_bind; [apply Hres |]. intros nextPlan _.
  destruct nextPlan; [by apply quiet_ret | exact IH].
Qed.

Lemma quiet_tryWrapScanPlans resolve h target fs :
  (forall v, quiet_at m0 oid (resolve v) (fun _ => True)) ->
  quiet_at m0 oid (tryWrapScanPlans resolve h target fs) (fun _ => True).
Proof.
  intros Hres. induction fs as [|f fs IH]; simpl; [by apply quiet_ret|].
  eapply quiet_bind; [apply quiet_liftRes |]. intros r _.
  destruct r as [[wrapperPlan nextDst]|]; [|exact IH].
  eapply quiet_bind; [apply Hres |]. intros nextPlan _.
  destruct (is_scanPlanFail nextPlan); [exact IH | by apply quiet_ret].
Qed.

Lemma quiet_PlanEncode_resolve value :
  oid <> 0%N ->
  quiet_at m0 oid (PlanEncode_resolve oid value) (fun r => r.2 = oid).
Proof.
  intros Hne. unfold PlanEncode_resolve.
  rewrite bool_decide_eq_false_2 by done.
  intros a m' l [= <- <- <-]. repeat split. by repeat constructor.
Qed.

Lemma quiet_planScan_resolve target :
  is_Some (TypeForOID m0 oid) ->
  quiet_at m0 oid (planScan_resolve oid target) (fun r => r.2 = oid).
Proof.
  intros [dt Hdt] a m' l.
  unfold planScan_resolve, mbind, M_bind, callTypeForOID.
  rewrite Hdt. intros [= <- <- <-]. repeat split. by repeat constructor.
Qed.
End Quiet.

(** With a nonzero identifier, [PlanEncode] never infers: the whole
    resolution, sub-resolutions included, works for that identifier. *)
Lemma quiet_PlanEncode fuel h oid format value m0 :
  oid <> 0%N ->
  quiet_at m0 oid (PlanEncode fuel h oid format value) (fun _ => True).
Proof.
  intros Hne. revert value.
  induction fuel as [|fuel IH]; intros value; simpl.
  - apply quiet_outOfFuel.
  - eapply quiet_bind; [by apply quiet_logCall |]. intros _ _.
    destruct (_ && _); [by apply quiet_ret|].
    destruct (_ && _); [by apply quiet_ret|].
    eapply quiet_bind; [by apply quiet_PlanEncode_resolve |].
    intros r ->.
    eapply quiet_bind.
    { destruct (r.1); [apply quiet_callCodecPlanEncode | by apply quiet_ret]. }
    intros plan _. destruct plan; [by apply quiet_ret|].
    eapply quiet_bind; [apply quiet_getMap |]. intros m _.
    apply quiet_tryWrapEncodePlans. exact IH.
Qed.

(** With an identifier a descriptor is registered under, [planScan]
    never infers: the whole resolution works for that identifier. *)
Lemma quiet_planScan fuel h oid formatCode target m0 :
  is_Some (TypeForOID m0 oid) ->
  quiet_at m0 oid (planScan fuel h oid formatCode target) (fun _ => True).
Proof.
  intros Hreg. revert target.
  induction fuel as [|fuel IH]; intros target; simpl.
  - apply quiet_outOfFuel.
  - eapply quiet_bind; [by apply quiet_logCall |]. intros _ _.
    destruct (planScan_fastPath _ _ _); [by apply quiet_ret|].
    eapply quiet_bind; [by apply quiet_planScan_resolve |].
    intros r ->.
    eapply quiet_bind.
    { destruct (r.1); [apply quiet_callCodecPlanScan | by apply quiet_ret]. }
    intros plan _. destruct plan; [by apply quiet_ret|].
    eapply quiet_bind; [apply quiet_getMap |]. intros m _.
    eapply quiet_bind; [apply quiet_tryWrapScanPlans; exact IH |].
    intros wrapped _. destruct wrapped; by apply quiet_ret.
Qed.

(** After its resolution step chose the identifier [o], nonzero,
    [PlanEncode] works for [o] only: the calls after that step target
    [o] and the registry is the one the step left. *)
Lemma PlanEncode_adopts fuel h oid format value m a m' l dt o m1 :
  PlanEncode (S fuel) h oid format value m = Ret (a, m', l) ->
  resolve_by_spec m oid value = (dt, o, m1) ->
  o <> 0%N ->
  (l = [CallPlanEncode oid format (TypeOf value)] /\ m' = m) \/
  (exists lres l',
     PlanEncode_resolve oid value m = Ret ((dt, o), m1, lres) /\
     l = CallPlanEncode oid format (TypeOf value) :: lres ++ l' /\
     Forall (targets o) l' /\ m' = m1).
Proof.
  intros Hrun Hspec Ho. simpl in Hrun.
  apply bind_Ret_inv in Hrun as (u & ma & l1 & l2 & H1 & H2 & ->).
  injection H1 as _ <- <-.
  match type of H2 with
  | context [if ?b then _ else _] => destruct b
  end; [left; by injection H2 as <- <- <-|].
  match type of H2 with
  | context [if ?b then _ else _] => destruct b
  end; [left; by injection H2 as <- <- <-|].
  right.
  apply bind_Ret_inv in H2 as (r & mb & lres & l' & Hres & Hrest & ->).
  destruct (PlanEncode_resolve_by_spec m oid value) as (lr & Hlr & _).
  rewrite Hspec in Hlr. rewrite Hlr in Hres. injection Hres as <- <- <-.
  exists lr, l'. split; [exact Hlr |]. split; [done |].
  cbn [fst snd] in Hrest.
  match type of Hrest with
  | ?c m1 = _ => assert (quiet_at m1 o c (fun _ => True)) as Hquiet
  end.
  { eapply quiet_bind.
    { destruct dt; [apply quiet_callCodecPlanEncode | by apply quiet_ret]. }
    intros plan _. destruct plan; [by apply quiet_ret|].
    eapply quiet_bind; [apply quiet_getMap |]. intros m2 _.
    apply quiet_tryWrapEncodePlans. intros v. by apply quiet_PlanEncode. }
  destruct (Hquiet _ _ _ Hrest) as (-> & Hl' & _). done.
Qed.

(** After its resolution step chose the identifier [o], with a
    descriptor registered under it, [planScan] works for [o] only. *)
Lemma planScan_adopts fuel h oid formatCode target m p m' l dt o m1 :
  planScan (S fuel) h oid formatCode target m = Ret (p, m', l) ->
  resolve_registered_first m oid target = (dt, o, m1) ->
  is_Some (TypeForOID m o) ->
  (l = [CallplanScan oid formatCode (TypeOf target)] /\ m' = m) \/
  (exists lres l',
     planScan_resolve oid target m = Ret ((dt, o), m1, lres) /\
     l = CallplanScan oid formatCode (TypeOf target) :: lres ++ l' /\
     Forall (targets o) l' /\ m' = m1).
Proof.
  intros Hrun Hspec Ho. simpl in Hrun.
  apply bind_Ret_inv in Hrun as (u & ma & l1 & l2 & H1 & H2 & ->).
  injection H1 as _ <- <-.
  destruct (planScan_fastPath oid formatCode target);
    [left; by injection H2 as <- <- <-|].
  right.
  apply bind_Ret_inv in H2 as (r & mb & lres & l' & Hres & Hrest & ->).
  destruct (planScan_resolve_registered_first m oid target)
    as (lr & Hlr & _).
  rewrite Hspec in Hlr. rewrite Hlr in Hres. injection Hres as <- <- <-.
  exists lr, l'. split; [exact Hlr |]. split; [done |].
  assert (is_Some (TypeForOID m1 o)) as Ho1.
  { pose proof (keeps_planScan_resolve lazily_indexed lazily_indexed_refl
                  lazily_indexed_trans lazily_indexed_TypeForValue
                  oid target _ _ _ _ Hlr) as Hlazy.
    apply lazily_indexed_fields in Hlazy as (Hoids & _).
    unfold TypeForOID in *. by rewrite Hoids. }
  cbn [fst snd] in Hrest.
  match type of Hrest with
  | ?c m1 = _ => assert (quiet_at m1 o c (fun _ => True)) as Hquiet
  end.
  { eapply quiet_bind.
    { destruct dt; [apply quiet_callCodecPlanScan | by apply quiet_ret]. }
    intros plan _. destruct plan; [by apply quiet_ret|].
    eapply quiet_bind; [apply quiet_getMap |]. intros m2 _.
    eapply quiet_bind.
    { apply quiet_tryWrapScanPlans. intros v. by apply quiet_planScan. }
    intros wrapped _. destruct wrapped; by apply quiet_ret. }
  destruct (Hquiet _ _ _ Hrest) as (-> & Hl' & _). done.
Qed.

(** C2 (amended): [PlanEncode] resolves the descriptor by identifier
    when the identifier is nonzero and infers it from the shape only
    for identifier 0; [planScan] resolves by identifier when a
    descriptor is registered under it and infers from the shape
    whenever none is, also for a nonzero identifier.  In both, the
    identifier of an inferred descriptor is adopted: once the step has
    settled on an identifier (nonzero for [PlanEncode], registered for
    [planScan]), every later lookup, codec planning call and
    sub-resolution of that resolution is made for it, and none
    infers again. *)
Theorem resolution_adopts_identifier :
  resolves_by_spec PlanEncode_resolve /\
  (forall m oid target,
     exists l,
       planScan_resolve oid target m
         = Ret (resolve_registered_first m oid target, l) /\
       (is_Some (TypeForOID m oid) -> l = [CallTypeForOID oid]) /\
       (TypeForOID m oid = None ->
        l = [CallTypeForOID oid; CallTypeForValue (TypeOf target)])) /\
  (forall fuel h oid format value m a m' l dt o m1,
     PlanEncode (S fuel) h oid format value m = Ret (a, m', l) ->
     resolve_by_spec m oid value = (dt, o, m1) ->
     o <> 0%N ->
     (l = [CallPlanEncode oid format (TypeOf value)] /\ m' = m) \/
     (exists lres l',
        PlanEncode_resolve oid value m = Ret ((dt, o), m1, lres) /\
        l = CallPlanEncode oid format (TypeOf value) :: lres ++ l' /\
        Forall (targets o) l' /\ m' = m1)) /\
  (forall fuel h oid formatCode target m p m' l dt o m1,
     planScan (S fuel) h oid formatCode target m = Ret (p, m', l) ->
     resolve_registered_first m oid target = (dt, o, m1) ->
     is_Some (TypeForOID m o) ->
     (l = [CallplanScan oid formatCode (TypeOf target)] /\ m' = m) \/
     (exists lres l',
        planScan_resolve oid target m = Ret ((dt, o), m1, lres) /\
        l = CallplanScan oid formatCode (TypeOf target) :: lres ++ l' /\
        Forall (targets o) l' /\ m' = m1)).
Proof.
  split; [exact PlanEncode_resolve_by_spec |].
  split; [exact planScan_resolve_registered_first |].
  split.
  - intros. eapply PlanEncode_adopts; eauto.
  - intros. eapply planScan_adopts; eauto.
Qed.

Lemma resolution_adopts_identifier_witness :
  (exists a m' l,
     PlanEncode 1 [] 0%N BinaryFormatCode int32_ptr int4_registry
       = Ret (a, m', l) /\
     ((l = [CallPlanEncode 0%N BinaryFormatCode (TypeOf int32_ptr)] /\
       m' = int4_registry) \/
      (exists lres l',
         PlanEncode_resolve 0%N int32_ptr int4_registry
           = Ret ((Some type_int4, Int4OID),
                  buildReflectTypeToType int4_registry, lres) /\
         l = CallPlanEncode 0%N BinaryFormatCode (TypeOf int32_ptr)
               :: lres ++ l' /\
         Forall (targets Int4OID) l' /\
         m' = buildReflectTypeToType int4_registry))) /\
  (exists p m' l,
     planScan 1 [] TextOID BinaryFormatCode int32_ptr int4_registry
       = Ret (p, m', l) /\
     ((l = [CallplanScan TextOID BinaryFormatCode (TypeOf int32_ptr)] /\
       m' = int4_registry) \/
      (exists lres l',
         planScan_resolve TextOID int32_ptr int4_registry
           = Ret ((Some type_int4, Int4OID),
                  buildReflectTypeToType int4_registry, lres) /\
         l = CallplanScan TextOID BinaryFormatCode (TypeOf int32_ptr)
               :: lres ++ l' /\
         Forall (targets Int4OID) l' /\
         m' = buildReflectTypeToType int4_registry))).
Proof.
  destruct resolution_adopts_identifier as (_ & _ & Hencode & Hscan).
  assert (Int4OID <> 0%N) as Hnz by discriminate.
  assert (is_Some (TypeForOID int4_registry Int4OID)) as Hreg
    by (exists type_int4; reflexivity).
  assert (TypeForValue int4_registry int32_ptr
          = (Some type_int4, buildReflectTypeToType int4_registry))
    as Hinfer.
  { unfold TypeForValue.
    change (reflectTypeToType int4_registry)
      with (@None (gmap (option RType) Type_)).
    cbv beta iota zeta. f_equal. }
  assert (returns (PlanEncode 1 [] 0%N BinaryFormatCode int32_ptr
                     int4_registry) = true) as Hret1
    by (vm_compute; reflexivity).
  assert (returns (planScan 1 [] TextOID BinaryFormatCode int32_ptr
                     int4_registry) = true) as Hret2
    by (vm_compute; reflexivity).
  split.
  - destruct (PlanEncode 1 [] 0%N BinaryFormatCode int32_ptr int4_registry)
      as [[[a m'] l]| |] eqn:E; [|discriminate Hret1..].
    exists a, m', l. split; [reflexivity |].
    refine (Hencode 0%nat [] 0%N BinaryFormatCode int32_ptr int4_registry
              a m' l (Some type_int4) Int4OID
              (buildReflectTypeToType int4_registry) E _ Hnz).
    unfold resolve_by_spec.
    rewrite bool_decide_eq_false_2 by (intros H; by apply H).
    by rewrite Hinfer.
  - destruct (planScan 1 [] TextOID BinaryFormatCode int32_ptr int4_registry)
      as [[[p m'] l]| |] eqn:E; [|discriminate Hret2..].
    exists p, m', l. split; [reflexivity |].
    refine (Hscan 0%nat [] TextOID BinaryFormatCode int32_ptr int4_registry
              p m' l (Some type_int4) Int4OID
              (buildReflectTypeToType int4_registry) E _ Hreg).
    unfold resolve_registered_first.
    change (TypeForOID int4_registry TextOID) with (@None Type_).
    by rewrite Hinfer.
Defined.

(** ** Every registry a program can hold is key-coherent *)

Lemma keys_coherent_runOp m op m' :
  runOp m op = Some m' -> keys_coherent m -> keys_coherent m'.
Proof.
  intros Hrun Hco.
  destruct (registeredOID op) as [o|] eqn:Ho.
  - destruct op; try discriminate. simpl in Hrun. injection Hrun as <-.
    by apply keys_coherent_RegisterType.
  - destruct (runOp_same_registrations _ _ _ Hrun Ho) as (Ht & Hn & _).
    unfold keys_coherent. by rewrite Ht, Hn.
Qed.

Lemma keys_coherent_reachable m : reachable m -> keys_coherent m.
Proof.
  intros (we & ws & ops & Hrun).
  pose proof (keys_coherent_emptyMap we ws) as Hinit.
  revert Hrun Hinit. generalize (emptyMap we ws) as m0.
  induction ops as [|op ops IH]; intros m0; simpl.
  - by intros [= <-].
  - destruct (runOp m0 op) as [m1|] eqn:Hop; [|done].
    intros Hrun Hco. eapply IH; [exact Hrun |].
    by eapply keys_coherent_runOp.
Qed.

(** ** Worked examples *)

(** Scanning the text "hi" into a [**string] through the registry: the
    pointer-to-pointer adapter wraps the string fast path; the run
    allocates the string, sets the pointer and writes the text, and the
    bound plan is memoized. *)
Example Scan_text_into_pointer_to_string :
  let run :=
    Scan noMethods 2 TextOID TextFormatCode (Some 1%nat)
      (Some (mkValue (TPtr (TPtr TString)) (DPtr 0)))
      [CVal (Zero (TPtr TString)); CBytes [Byte.x68; Byte.x69]]
      (emptyMap [] [TryPointerPointerScanPlan]) in
  valueOf run
    = Some ([CVal (mkValue (TPtr TString) (DPtr 2));
             CBytes [Byte.x68; Byte.x69];
             CVal (mkValue TString (DString "hi"))], None) /\
  (finalMap run ≫=
     fun m' => memoized m' TextOID (Some (TPtr (TPtr TString))) TextFormatCode)
    = Some (wrappedScanPlan
              (pointerPointerScanPlan (TPtr (TPtr TString))
                 (Some scanPlanString))).
Proof. split; vm_compute; reflexivity. Qed.

(** A nil source into the same destination sets the pointer to nil. *)
Example Scan_null_into_pointer_to_string :
  valueOf
    (Scan noMethods 2 TextOID TextFormatCode None
       (Some (mkValue (TPtr (TPtr TString)) (DPtr 0)))
       [CVal (mkValue (TPtr TString) (DPtr 1));
        CVal (mkValue TString (DString "old"))]
       (emptyMap [] [TryPointerPointerScanPlan]))
  = Some ([CVal (mkValue (TPtr TString) DNil);
           CVal (mkValue TString (DString "old"))], None).
Proof. vm_compute. reflexivity. Qed.

(** A nil source into a plain [*string] is an error, not a zeroing. *)
Example Scan_null_into_string :
  valueOf
    (Scan noMethods 1 TextOID BinaryFormatCode None
       (Some (mkValue (TPtr TString) (DPtr 0)))
       [CVal (mkValue TString (DString "old"))]
       (emptyMap [] []))
  = Some ([CVal (mkValue TString (DString "old"))],
          Some (ErrCannotScanNull (Some (TPtr TString)))).
Proof. vm_compute. reflexivity. Qed.

(** Encoding a string in text format copies its bytes after [buf]. *)
Example Encode_string_text :
  valueOf
    (Encode noMethods 1 [] TextOID TextFormatCode
       (Some (mkValue TString (DString "hi"))) None (emptyMap [] []))
  = Some (Some [Byte.x68; Byte.x69], None).
Proof. vm_compute. reflexivity. Qed.

(** ** Invariants along the calls of a client *)

Lemma runOps_invariant (P : Map -> Prop) :
  (forall m op m', runOp m op = Some m' -> P m -> P m') ->
  forall ops m m', runOps m ops = Some m' -> P m -> P m'.
Proof.
  intros Hstep ops. induction ops as [|op ops IH]; intros m m'; simpl.
  - by intros [= <-].
  - destruct (runOp m op) as [m1|] eqn:Hop; [|done].
    intros Hrun HP. eapply IH; [exact Hrun |]. by eapply Hstep.
Qed.

Lemma reachable_invariant (P : Map -> Prop) :
  (forall we ws, P (emptyMap we ws)) ->
  (forall m op m', runOp m op = Some m' -> P m -> P m') ->
  forall m, reachable m -> P m.
Proof.
  intros Hinit Hstep m (we & ws & ops & Hrun).
  eapply runOps_invariant; [exact Hstep | exact Hrun | apply Hinit].
Qed.

(** What a call that returns does to the registry: it registers, it
    assigns an adapter chain, it rebuilds the shape index at most, or
    it is a [PlanScan]. *)
Lemma runOp_cases m op m' :
  runOp m op = Some m' ->
  (exists t, m' = RegisterType m t) \/
  (exists value name, m' = RegisterDefaultPgType m value name) \/
  same_data m m' \/
  lazily_indexed m m' \/
  (exists fuel h oid formatCode target p l,
     PlanScan fuel h oid formatCode target m = Ret (p, m', l)).
Proof.
  destruct op; simpl.
  - intros [= <-]. left. eauto.
  - intros [= <-]. right. left. eauto.
  - intros [= <-]. right. right. left. by repeat split.
  - intros [= <-]. right. right. left. by repeat split.
  - destruct (PlanEncode _ _ _ _ _ _) as [[[q m1] l]| |] eqn:E; try done.
    intros [= <-]. right. right. right. left.
    by apply PlanEncode_lazily_indexed in E.
  - destruct (PlanScan _ _ _ _ _ _) as [[[q m1] l]| |] eqn:E; try done.
    intros [= <-]. right. right. right. right. eauto 10.
  - destruct (Encode _ _ _ _ _ _ _ _) as [[[q m1] l]| |] eqn:E; try done.
    intros [= <-]. right. right. right. left.
    by apply Encode_lazily_indexed in E.
  - unfold Scan. destruct dst as [d|].
    + destruct (_ ≫= _) as [[[q m1] l]| |] eqn:E; try done.
      intros [= <-].
      apply bind_Ret_inv in E as (pl & m2 & l1 & l2 & E1 & E2 & _).
      apply bind_Ret_inv in E2 as (u & m3 & l3 & l4 & E2 & E3 & _).
      injection E2 as _ <- _.
      apply liftRes_Ret_inv in E3 as (_ & -> & _).
      right. right. right. right. eauto 10.
    + intros [= <-]. right. right. right. left. apply lazily_indexed_refl.
Qed.

(** What [PlanScan] does to the shape index: nothing, or the lazy
    rebuild. *)
Lemma PlanScan_index fuel h oid formatCode target m p m' l :
  PlanScan fuel h oid formatCode target m = Ret (p, m', l) ->
  same_registrations m m' /\
  (reflectTypeToType m' = reflectTypeToType m \/
   (reflectTypeToType m = None /\
    reflectTypeToType m' = reflectTypeToType (buildReflectTypeToType m))).
Proof.
  intros Hplan. split; [by apply PlanScan_same_registrations in Hplan |].
  revert Hplan. rewrite PlanScan_unfold. cbv zeta.
  assert (reflectTypeToType (ensureOidMemo m oid) = reflectTypeToType m)
    as Hens by (unfold ensureOidMemo; by destruct (memoizedScanPlans m !! oid)).
  assert (reflectTypeToType (buildReflectTypeToType (ensureOidMemo m oid))
          = reflectTypeToType (buildReflectTypeToType m))
    as Hbuild by (unfold ensureOidMemo; by destruct (memoizedScanPlans m !! oid)).
  destruct (TypeMemo_index _ _) as [[q|]| |]; try done.
  - intros [= _ <- _]. by left.
  - destruct (planScan _ _ _ _ _ _) as [[[q m1] l1]| |] eqn:Hrun; try done.
    intros [= _ <- _].
    apply planScan_lazily_indexed in Hrun as [->|[Hnil ->]].
    + left. exact Hens.
    + right. split; [by rewrite <- Hens | exact Hbuild].
Qed.

Lemma shapeType_same m m' :
  nameToType m' = nameToType m ->
  reflectTypeToName m' = reflectTypeToName m ->
  forall t, shapeType m' t = shapeType m t.
Proof. intros Hn Hr t. unfold shapeType. by rewrite Hn, Hr. Qed.

Lemma index_fresh_build m : index_fresh (buildReflectTypeToType m).
Proof.
  intros idx Hidx t.
  pose proof (buildReflectTypeToType_lookup m t) as Hl.
  rewrite Hidx in Hl. exact Hl.
Qed.

Lemma index_fresh_runOp m op m' :
  runOp m op = Some m' -> index_fresh m -> index_fresh m'.
Proof.
  intros Hop Hfresh.
  apply runOp_cases in Hop
    as [[t ->]|[(value & name & ->)|[Hsame|[Hlazy|Hplan]]]].
  - intros idx. discriminate.
  - intros idx. discriminate.
  - destruct Hsame as (_ & Hn & Hr & _ & Hi & _).
    intros idx Hidx t. rewrite Hi in Hidx.
    rewrite (shapeType_same m m' Hn Hr). by apply Hfresh.
  - destruct Hlazy as [->|[_ ->]]; [done | apply index_fresh_build].
  - destruct Hplan as (fuel & h & oid & f & target & p & l & Hplan).
    apply PlanScan_index in Hplan as [(_ & Hn & Hr & _) [Hi|[_ Hi]]];
      intros idx Hidx t; rewrite Hi in Hidx;
      rewrite (shapeType_same m m' Hn Hr).
    + by apply Hfresh.
    + by apply (index_fresh_build m).
Qed.

(** X1: in every registry a program can hold, [TypeForValue] returns
    for a value the descriptor currently registered under the type name
    that is the default of the shape of the value, and nothing when the
    shape has no default or its name is not registered: the lazily built
    shape index is never stale. *)
Theorem TypeForValue_never_stale (m : Map) (v : any) :
  reachable m ->
  (TypeForValue m v).1 = shapeType m (TypeOf v).
Proof.
  intros Hreach.
  assert (index_fresh m) as Hfresh.
  { revert m Hreach. apply reachable_invariant.
    - intros we ws idx. discriminate.
    - apply index_fresh_runOp. }
  unfold TypeForValue.
  destruct (reflectTypeToType m) as [idx|] eqn:Hidx; simpl.
  - rewrite Hidx. by apply Hfresh.
  - apply (index_fresh_build m). reflexivity.
Qed.

Lemma TypeForValue_never_stale_witness :
  (TypeForValue int4_registry int32_ptr).1
  = shapeType int4_registry (TypeOf int32_ptr).
Proof.
  apply TypeForValue_never_stale.
  by exists [], [], [OpRegisterType type_int4;
                     OpRegisterDefaultPgType int32_ptr "int4"].
Defined.

(** X2: no call removes a registration.  Along any calls that return,
    an identifier or a type name under which a descriptor is found
    stays one under which a descriptor is found, and a shape that has a
    default type name keeps one. *)
Theorem registered_keys_persist (ops : list Op) (m m' : Map) :
  runOps m ops = Some m' ->
  (forall oid, is_Some (TypeForOID m oid) -> is_Some (TypeForOID m' oid)) /\
  (forall name,
     is_Some (TypeForName m name) -> is_Some (TypeForName m' name)) /\
  (forall t,
     is_Some (reflectTypeToName m !! t) ->
     is_Some (reflectTypeToName m' !! t)).
Proof.
  intros Hrun.
  refine (runOps_invariant
            (fun m1 =>
               (forall oid, is_Some (TypeForOID m oid) ->
                            is_Some (TypeForOID m1 oid)) /\
               (forall name, is_Some (TypeForName m name) ->
                             is_Some (TypeForName m1 name)) /\
               (forall t, is_Some (reflectTypeToName m !! t) ->
                          is_Some (reflectTypeToName m1 !! t)))
            _ ops m m' Hrun _); [|by auto].
  clear. intros m1 op m2 Hop (Ho & Hn & Hr).
  unfold TypeForOID, TypeForName in *.
  apply runOp_cases in Hop
    as [[t ->]|[(value & name & ->)|[Hsame|[Hlazy|Hplan]]]].
  - simpl. repeat split; [| |exact Hr].
    + intros oid Hoid. rewrite lookup_insert. case_decide; eauto.
    + intros name Hname. rewrite lookup_insert. case_decide; eauto.
  - simpl. repeat split; [exact Ho|exact Hn|].
    intros t Ht. rewrite lookup_insert. case_decide; eauto.
  - destruct Hsame as (-> & -> & -> & _). auto.
  - apply lazily_indexed_fields in Hlazy as (-> & -> & -> & _). auto.
  - destruct Hplan as (fuel & h & oid & f & target & p & l & Hplan).
    apply PlanScan_same_registrations in Hplan as (-> & -> & -> & _). auto.
Qed.

Lemma registered_keys_persist_witness :
  is_Some (TypeForOID
             (RegisterType (RegisterType (emptyMap [] []) type_char_array)
                type_name_array) QCharArrayOID) /\
  is_Some (TypeForName
             (RegisterType (RegisterType (emptyMap [] []) type_char_array)
                type_name_array) "_char").
Proof.
  destruct (registered_keys_persist [OpRegisterType type_name_array]
              (RegisterType (emptyMap [] []) type_char_array) _ eq_refl)
    as (Ho & Hn & _).
  split; [apply Ho | apply Hn]; vm_compute; eauto.
Defined.

Lemma formats_agree_runOp m op m' :
  runOp m op = Some m' -> formats_agree m -> formats_agree m'.
Proof.
  intros Hop Hagree.
  apply runOp_cases in Hop
    as [[t ->]|[(value & name & ->)|[Hsame|[Hlazy|Hplan]]]];
    intros oid; unfold formats_agree in Hagree.
  - simpl. destruct (decide (Type_OID t = oid)) as [->|Hne].
    + by rewrite !lookup_insert_eq.
    + rewrite !lookup_insert_ne by done. apply Hagree.
  - apply Hagree.
  - destruct Hsame as (-> & _ & _ & -> & _). apply Hagree.
  - apply lazily_indexed_fields in Hlazy as (-> & _ & _ & -> & _).
    apply Hagree.
  - destruct Hplan as (fuel & h & o & f & target & p & l & Hplan).
    apply PlanScan_same_registrations in Hplan as (-> & _ & _ & -> & _).
    apply Hagree.
Qed.

(** X3: in every registry a program can hold, [FormatCodeForOID]
    returns the preferred format of the codec of the descriptor that
    [TypeForOID] returns for the identifier, and the text format exactly
    when the identifier has no descriptor or that codec prefers text. *)
Theorem FormatCodeForOID_follows_descriptor (m : Map) (oid : N) :
  reachable m ->
  FormatCodeForOID m oid =
  match TypeForOID m oid with
  | Some t => Codec_PreferredFormat (Type_Codec t)
  | None => TextFormatCode
  end.
Proof.
  intros Hreach.
  assert (formats_agree m) as Hagree.
  { revert m Hreach. apply reachable_invariant.
    - intros we ws o. simpl. by rewrite !lookup_empty.
    - apply formats_agree_runOp. }
  unfold FormatCodeForOID, TypeForOID. rewrite (Hagree oid).
  by destruct (oidToType m !! oid).
Qed.

Lemma FormatCodeForOID_follows_descriptor_witness :
  FormatCodeForOID
    (RegisterType (RegisterType (emptyMap [] []) type_int4) type_int4_text)
    Int4OID =
  match TypeForOID
          (RegisterType (RegisterType (emptyMap [] []) type_int4)
             type_int4_text) Int4OID with
  | Some t => Codec_PreferredFormat (Type_Codec t)
  | None => TextFormatCode
  end.
Proof.
  apply FormatCodeForOID_follows_descriptor.
  by exists [], [], [OpRegisterType type_int4; OpRegisterType type_int4_text].
Defined.

(** X4: a registration, of a descriptor or of a default shape, forces
    every later [PlanScan] to plan anew: it leaves no memoized plan and
    no shape index, and the next [PlanScan] for any triple, also one
    memoized before, returns what a run of [planScan] returns and logs
    that run. *)
Theorem registration_forces_replanning (m m' : Map) (op : Op) :
  is_registration op = true ->
  runOp m op = Some m' ->
  plans_invalidated m' /\
  forall fuel h oid formatCode target p m2 l,
    PlanScan fuel h oid formatCode target m' = Ret (p, m2, l) ->
    (exists m1,
       planScan fuel h oid formatCode target (ensureOidMemo m' oid)
         = Ret (p, m1, l)) /\
    (exists l', l = CallplanScan oid formatCode (TypeOf target) :: l').
Proof.
  intros Hreg Hop.
  assert (plans_invalidated m') as Hinv.
  { destruct op; try discriminate; injection Hop as <-;
      (split; simpl; [apply deleteAllKeys_empty | done]). }
  split; [exact Hinv |].
  intros fuel h oid f target p m2 l Hplan.
  apply memoized_PlanScan in Hplan as (_ & _ & _ & Hmiss & _).
  destruct Hmiss as [m1 Hrun].
  { apply memoized_empty. apply Hinv. }
  split; [by exists m1 |]. by apply planScan_log_head in Hrun.
Qed.

Lemma registration_forces_replanning_witness :
  plans_invalidated
    (RegisterDefaultPgType (RegisterType (emptyMap [] []) type_int4)
       int32_ptr "int4").
Proof.
  apply (registration_forces_replanning
           (RegisterType (emptyMap [] []) type_int4) _
           (OpRegisterDefaultPgType int32_ptr "int4") eq_refl eq_refl).
Defined.

(** ** The fast paths of the two resolvers *)

Lemma implements_TypeOf method t1 t2 :
  TypeOf t1 = TypeOf t2 -> implements method t1 = implements method t2.
Proof.
  destruct t1 as [x1|], t2 as [x2|]; simpl; try done.
  by intros [= ->].
Qed.

(** The fast paths look at the type of the destination only. *)
Lemma planScan_fastPath_TypeOf oid formatCode t1 t2 :
  TypeOf t1 = TypeOf t2 ->
  planScan_fastPath oid formatCode t1 = planScan_fastPath oid formatCode t2.
Proof.
  intros Ht. unfold planScan_fastPath, hasType.
  by rewrite Ht, (implements_TypeOf _ _ _ Ht).
Qed.

(** A fast path of [planScan] returns at once: the only call logged is
    the entry of [planScan], the registry is not touched. *)
Lemma planScan_fast fuel h oid formatCode target m p :
  planScan_fastPath oid formatCode target = Some p ->
  planScan (S fuel) h oid formatCode target m =
  Ret (p, m, [CallplanScan oid formatCode (TypeOf target)]).
Proof.
  intros Hfast. cbn [planScan]. unfold mbind, M_bind, logCall.
  by rewrite Hfast.
Qed.

Lemma memo_fast_sound_PlanScan fuel h oid formatCode target m p m' l :
  PlanScan fuel h oid formatCode target m = Ret (p, m', l) ->
  memo_fast_sound m -> memo_fast_sound m'.
Proof.
  intros Hplan Hsound o f target0 p0 q Hfast Hq.
  apply memoized_PlanScan in Hplan as (_ & Hnew & Hold & Hmiss & Hother).
  destruct (decide ((o, TypeOf target0, f) = (oid, TypeOf target, formatCode)))
    as [Heq|Hne].
  - injection Heq as -> Htype ->. rewrite Htype in Hq.
    rewrite Hnew in Hq. injection Hq as <-.
    rewrite (planScan_fastPath_TypeOf _ _ _ _ Htype) in Hfast.
    destruct (memoized m oid (TypeOf target) formatCode) as [q|] eqn:Hm.
    + rewrite (Hold q eq_refl). by apply (Hsound oid formatCode target).
    + destruct (Hmiss eq_refl) as [m1 Hrun].
      destruct fuel as [|fuel]; [done|].
      rewrite (planScan_fast _ _ _ _ _ _ _ Hfast) in Hrun. congruence.
  - rewrite Hother in Hq by done. by apply (Hsound o f target0).
Qed.

Lemma memo_fast_sound_reachable m : reachable m -> memo_fast_sound m.
Proof.
  revert m. apply reachable_invariant.
  - intros we ws o f t p q _. by rewrite memoized_empty.
  - intros m op m' Hop Hsound.
    apply runOp_cases in Hop
      as [[t ->]|[(value & name & ->)|[Hsame|[Hlazy|Hplan]]]].
    + intros o f t0 p q _. rewrite memoized_empty; [done|].
      apply deleteAllKeys_empty.
    + intros o f t0 p q _. rewrite memoized_empty; [done|].
      apply deleteAllKeys_empty.
    + destruct Hsame as (_ & _ & _ & _ & _ & Hmemo).
      intros o f t0 p q Hfast. unfold memoized. rewrite Hmemo.
      by apply Hsound.
    + intros o f t0 p q Hfast.
      rewrite (memoized_lazily_indexed _ _ _ _ _ Hlazy). by apply Hsound.
    + destruct Hplan as (fuel & h & o & f & target & p & l & Hplan).
      by eapply memo_fast_sound_PlanScan.
Qed.

(** [PlanScan] when a fast path applies. *)
Lemma PlanScan_fast m fuel h oid formatCode target p :
  reachable m ->
  formatCode = TextFormatCode \/ formatCode = BinaryFormatCode ->
  planScan_fastPath oid formatCode target = Some p ->
  exists m' l,
    PlanScan (S fuel) h oid formatCode target m = Ret (p, m', l) /\
    (l = [] \/ l = [CallplanScan oid formatCode (TypeOf target)]).
Proof.
  intros Hreach Hf Hfast. apply memo_fast_sound_reachable in Hreach.
  destruct (memoized m oid (TypeOf target) formatCode) as [q|] eqn:Hm.
  - exists m, []. split; [|by left].
    rewrite (PlanScan_hit _ _ _ _ _ _ _ Hm). do 3 f_equal.
    by apply (Hreach oid formatCode target).
  - rewrite PlanScan_unfold. cbv zeta.
    rewrite memoized_index, Hm by exact Hf.
    rewrite (planScan_fast _ _ _ _ _ _ _ Hfast). eauto.
Qed.

(** X5: the fast paths of [planScan] take precedence over everything
    registered.  In every registry a program can hold, when a fast path
    applies to an identifier, a format and the type of a destination,
    [PlanScan] returns the plan of that fast path, from the memo or
    from [planScan], with no descriptor lookup and no codec call; the
    descriptors, default shapes and adapter chains are left as they
    are. *)
Theorem PlanScan_fast_path_first m fuel h oid formatCode target p :
  reachable m ->
  formatCode = TextFormatCode \/ formatCode = BinaryFormatCode ->
  planScan_fastPath oid formatCode target = Some p ->
  exists m' l,
    PlanScan (S fuel) h oid formatCode target m = Ret (p, m', l) /\
    (l = [] \/ l = [CallplanScan oid formatCode (TypeOf target)]) /\
    same_registrations m m'.
Proof.
  intros Hreach Hf Hfast.
  destruct (PlanScan_fast m fuel h oid formatCode target p Hreach Hf Hfast)
    as (m' & l & Hplan & Hl).
  exists m', l. split; [exact Hplan |]. split; [exact Hl |].
  by apply PlanScan_same_registrations in Hplan.
Qed.

Lemma PlanScan_fast_path_first_witness :
  exists m' l,
    PlanScan 1 [] Int4OID TextFormatCode (ptrToString 0) int4_registry
      = Ret (scanPlanString, m', l) /\
    (l = [] \/
     l = [CallplanScan Int4OID TextFormatCode (TypeOf (ptrToString 0))]) /\
    same_registrations int4_registry m'.
Proof.
  apply PlanScan_fast_path_first.
  - by exists [], [], [OpRegisterType type_int4;
                       OpRegisterDefaultPgType int32_ptr "int4"].
  - by left.
  - reflexivity.
Defined.

(** The fast path for a [*string] destination. *)
Lemma planScan_fastPath_string oid formatCode target :
  TypeOf target = Some (TPtr TString) ->
  formatCode = TextFormatCode \/
  (formatCode = BinaryFormatCode /\ (oid = TextOID \/ oid = VarcharOID)) ->
  planScan_fastPath oid formatCode target = Some scanPlanString.
Proof.
  intros Htype Hf. unfold planScan_fastPath, hasType. rewrite Htype.
  rewrite (bool_decide_eq_false_2 (Some _ = Some (TPtr UndecodedBytes)))
    by discriminate.
  rewrite (bool_decide_eq_true_2 (Some (TPtr TString) = Some _)) by done.
  destruct Hf as [->|[-> Hoid]].
  - rewrite (bool_decide_eq_false_2 (TextFormatCode = BinaryFormatCode))
      by discriminate.
    by rewrite (bool_decide_eq_true_2 (TextFormatCode = TextFormatCode)).
  - rewrite (bool_decide_eq_true_2 (BinaryFormatCode = BinaryFormatCode))
      by done.
    destruct Hoid as [-> | ->]; [done|].
    rewrite (bool_decide_eq_true_2 (VarcharOID = VarcharOID)) by done.
    by rewrite orb_true_r.
Qed.

(** X6: [Scan] into a [*string] that points to an allocated variable, in
    text format under any identifier, or in binary format under the text
    or varchar identifier, whatever is registered: a NULL source is an
    error that names the destination type and leaves the memory as it
    is; a source over the bytes [bs] stores the string of [bs] in the
    variable, with no error. *)
Theorem Scan_into_string env m fuel h oid formatCode p :
  reachable m ->
  formatCode = TextFormatCode \/
  (formatCode = BinaryFormatCode /\ (oid = TextOID \/ oid = VarcharOID)) ->
  (p < length h)%nat ->
  valueOf (Scan env (S fuel) oid formatCode None (ptrToString p) h m)
    = Some (h, Some (ErrCannotScanNull (Some (TPtr TString)))) /\
  forall a bs,
    h !! a = Some (CBytes bs) ->
    valueOf (Scan env (S fuel) oid formatCode (Some a) (ptrToString p) h m)
      = Some (<[p := CVal (mkValue TString
                             (DString (String.string_of_list_byte bs)))]> h,
              None).
Proof.
  intros Hreach Hf Hlt.
  assert (formatCode = TextFormatCode \/ formatCode = BinaryFormatCode)
    as Hf' by (destruct Hf as [?|[? _]]; auto).
  pose proof (planScan_fastPath_string oid formatCode (ptrToString p)
                eq_refl Hf) as Hfast.
  destruct (PlanScan_fast m fuel h oid formatCode _ _ Hreach Hf' Hfast)
    as (m' & l & Hplan & _).
  unfold Scan, ptrToString in *. unfold mbind, M_bind. rewrite Hplan.
  unfold logCall, liftRes. cbn [ScanPlan_Scan]. split.
  - reflexivity.
  - intros a bs Ha. unfold scanPlanString_Scan.
    change (hasType (TPtr TString) (Some (mkValue (TPtr TString) (DPtr p))))
      with true.
    cbn [fmap option_fmap option_map vdata]. unfold readBytes, store.
    rewrite Ha. by rewrite bool_decide_eq_true_2.
Qed.

Lemma Scan_into_string_witness :
  valueOf (Scan noMethods 1 Int4OID TextFormatCode None (ptrToString 0)
             [CVal (Zero TString)] int4_registry)
    = Some ([CVal (Zero TString)],
            Some (ErrCannotScanNull (Some (TPtr TString)))).
Proof.
  refine (proj1 (Scan_into_string noMethods int4_registry 0
                   [CVal (Zero TString)] Int4OID TextFormatCode 0 _ _ _)).
  - by exists [], [], [OpRegisterType type_int4;
                       OpRegisterDefaultPgType int32_ptr "int4"].
  - by left.
  - simpl. lia.
Defined.

Lemma list_byte_of_string_nil s :
  String.list_byte_of_string s = [] <-> s = ""%string.
Proof. destruct s; cbn; split; intros H; try done; discriminate H. Qed.

(** X7: [Encode] of a [string] in text format, under any identifier and
    whatever is registered, appends the bytes of the string to the
    buffer: no descriptor is looked up and no codec is asked.  The
    buffer returned is nil exactly when the buffer given is nil and the
    string is empty, which is also what [Encode] returns for NULL. *)
Theorem Encode_text_string env fuel h oid s buf m :
  Encode env (S fuel) h oid TextFormatCode (stringValue s) buf m
    = Ret ((appendBytes buf (String.list_byte_of_string s), None), m,
           [CallPlanEncode oid TextFormatCode (Some TString);
            CallPlanEncodeRun (Some TString)]) /\
  (appendBytes buf (String.list_byte_of_string s) = None <->
   buf = None /\ s = ""%string).
Proof.
  split.
  - reflexivity.
  - rewrite <- list_byte_of_string_nil. unfold appendBytes.
    destruct buf as [b|], (String.list_byte_of_string s) as [|c l];
      (split; [intros H | intros [H1 H2]]); done.
Qed.

(** ** Resolution terminates when the adapters decrease a measure *)

Lemma bind_not_OutOfFuel {A B} (c : M A) (f : A -> M B) m :
  c m <> OutOfFuel ->
  (forall a m1 l1, c m = Ret (a, m1, l1) -> f a m1 <> OutOfFuel) ->
  (c ≫= f) m <> OutOfFuel.
Proof.
  unfold mbind, M_bind. intros Hc Hf.
  destruct (c m) as [[[a m1] l1]| |]; [|done..].
  specialize (Hf a m1 l1 eq_refl).
  by destruct (f a m1) as [[[b m2] l2]| |].
Qed.

Lemma encode_chain_lazily_indexed m m' :
  lazily_indexed m m' ->
  TryWrapEncodePlanFuncs m' = TryWrapEncodePlanFuncs m.
Proof. by intros [->|[_ ->]]. Qed.

Lemma scan_chain_lazily_indexed m m' :
  lazily_indexed m m' -> TryWrapScanPlanFuncs m' = TryWrapScanPlanFuncs m.
Proof. by intros [->|[_ ->]]. Qed.

Lemma PlanEncode_resolve_Ret oid value m :
  exists r m1 l,
    PlanEncode_resolve oid value m = Ret (r, m1, l) /\ lazily_indexed m m1.
Proof.
  unfold PlanEncode_resolve. case_bool_decide.
  - unfold mbind, M_bind, callTypeForValue.
    pose proof (lazily_indexed_TypeForValue m value) as Hl.
    destruct (TypeForValue m value) as [[dt|] m1]; simpl in *; eauto.
  - unfold mbind, M_bind, callTypeForOID. simpl.
    do 3 eexists. split; [reflexivity | apply lazily_indexed_refl].
Qed.

Lemma planScan_resolve_Ret oid target m :
  exists r m1 l,
    planScan_resolve oid target m = Ret (r, m1, l) /\ lazily_indexed m m1.
Proof.
  unfold planScan_resolve, mbind, M_bind, callTypeForOID.
  destruct (TypeForOID m oid) as [dt|]; cbn beta iota.
  - do 3 eexists. split; [reflexivity | apply lazily_indexed_refl].
  - unfold callTypeForValue.
    pose proof (lazily_indexed_TypeForValue m target) as Hl.
    destruct (TypeForValue m target) as [[dt|] m1]; simpl in *; eauto.
Qed.

Lemma tryWrapEncodePlans_fuel mu resolve h value fs fs0 m :
  (forall v m1, (mu v < mu value)%nat ->
                TryWrapEncodePlanFuncs m1 = fs0 ->
                resolve v m1 <> OutOfFuel) ->
  (forall v, keeps lazily_indexed (resolve v)) ->
  decreasing_encode mu fs ->
  TryWrapEncodePlanFuncs m = fs0 ->
  tryWrapEncodePlans resolve h value fs m <> OutOfFuel.
Proof.
  intros Hres Hkeep Hdec. revert m.
  induction Hdec as [|f fs Hf Hdec IH]; intros m Hm; [done|].
  cbn [tryWrapEncodePlans]. specialize (Hf h value).
  apply bind_not_OutOfFuel.
  - unfold liftRes. by destruct (f h value) as [[[w v']|]| |].
  - intros r m1 l1 (Hr & -> & _)%liftRes_Ret_inv. rewrite Hr in Hf.
    destruct r as [[w v']|]; [|by apply IH].
    apply bind_not_OutOfFuel; [by apply Hres |].
    intros nextPlan m2 l2 Hnext.
    destruct nextPlan as [np|]; [done|].
    apply IH. apply Hkeep in Hnext.
    by rewrite (encode_chain_lazily_indexed _ _ Hnext).
Qed.

Lemma tryWrapScanPlans_fuel mu resolve h target fs fs0 m :
  (forall v m1, (mu v < mu target)%nat ->
                TryWrapScanPlanFuncs m1 = fs0 ->
                resolve v m1 <> OutOfFuel) ->
  (forall v, keeps lazily_indexed (resolve v)) ->
  decreasing_scan mu fs ->
  TryWrapScanPlanFuncs m = fs0 ->
  tryWrapScanPlans resolve h target fs m <> OutOfFuel.
Proof.
  intros Hres Hkeep Hdec. revert m.
  induction Hdec as [|f fs Hf Hdec IH]; intros m Hm; [done|].
  cbn [tryWrapScanPlans]. specialize (Hf h target).
  apply bind_not_OutOfFuel.
  - unfold liftRes. by destruct (f h target) as [[[w v']|]| |].
  - intros r m1 l1 (Hr & -> & _)%liftRes_Ret_inv. rewrite Hr in Hf.
    destruct r as [[w v']|]; [|by apply IH].
    apply bind_not_OutOfFuel; [by apply Hres |].
    intros nextPlan m2 l2 Hnext.
    destruct (is_scanPlanFail nextPlan); [|done].
    apply IH. apply Hkeep in Hnext.
    by rewrite (scan_chain_lazily_indexed _ _ Hnext).
Qed.

(** X9: [PlanEncode] terminates whenever the adapter rules of the
    registry decrease some measure of the value: with more fuel than the
    measure of the value it returns or panics, it never runs out of
    fuel.  The depth of its recursion is bounded by the measure. *)
Theorem PlanEncode_terminates mu fuel h oid format value m :
  decreasing_encode mu (TryWrapEncodePlanFuncs m) ->
  (mu value < fuel)%nat ->
  PlanEncode fuel h oid format value m <> OutOfFuel.
Proof.
  revert oid value m.
  induction fuel as [|fuel IH]; intros oid value m Hdec Hmu; [lia|].
  cbn [PlanEncode]. apply bind_not_OutOfFuel; [done|].
  intros u m0 l0 H0. injection H0 as _ <- _.
  destruct (_ && _); [done|]. destruct (_ && _); [done|].
  destruct (PlanEncode_resolve_Ret oid value m) as (r & m1 & l1 & Hr & Hl1).
  apply bind_not_OutOfFuel; [by rewrite Hr |].
  intros r' m1' l1' Hr'. rewrite Hr in Hr'. injection Hr' as <- <- <-.
  apply bind_not_OutOfFuel.
  - destruct r.1; done.
  - intros plan m2 l2 Hplan.
    assert (m2 = m1) as ->.
    { destruct r.1; [|by injection Hplan].
      apply bind_Ret_inv in Hplan as (u1 & m3 & l3 & l4 & H3 & H4 & _).
      injection H3 as _ <- _. by injection H4. }
    destruct plan as [p|]; [done|].
    apply bind_not_OutOfFuel; [done|].
    intros m3 m4 l4 [= <- <- _].
    eapply tryWrapEncodePlans_fuel with (mu := mu);
      [ | intros v; apply PlanEncode_lazily_indexed
        | by rewrite (encode_chain_lazily_indexed _ _ Hl1) | reflexivity ].
    intros v m5 Hv Hm5. apply IH; [|lia].
    by rewrite Hm5, (encode_chain_lazily_indexed _ _ Hl1).
Qed.

(** X10: [planScan] terminates whenever the adapter rules of the
    registry decrease some measure of the destination: with more fuel
    than the measure of the destination it returns or panics, it never
    runs out of fuel. *)
Theorem planScan_terminates mu fuel h oid formatCode target m :
  decreasing_scan mu (TryWrapScanPlanFuncs m) ->
  (mu target < fuel)%nat ->
  planScan fuel h oid formatCode target m <> OutOfFuel.
Proof.
  revert oid target m.
  induction fuel as [|fuel IH]; intros oid target m Hdec Hmu; [lia|].
  cbn [planScan]. apply bind_not_OutOfFuel; [done|].
  intros u m0 l0 H0. injection H0 as _ <- _.
  destruct (planScan_fastPath _ _ _); [done|].
  destruct (planScan_resolve_Ret oid target m) as (r & m1 & l1 & Hr & Hl1).
  apply bind_not_OutOfFuel; [by rewrite Hr |].
  intros r' m1' l1' Hr'. rewrite Hr in Hr'. injection Hr' as <- <- <-.
  apply bind_not_OutOfFuel.
  - destruct r.1; done.
  - intros plan m2 l2 Hplan.
    assert (m2 = m1) as ->.
    { destruct r.1; [|by injection Hplan].
      apply bind_Ret_inv in Hplan as (u1 & m3 & l3 & l4 & H3 & H4 & _).
      injection H3 as _ <- _. by injection H4. }
    destruct plan as [p|]; [done|].
    apply bind_not_OutOfFuel; [done|].
    intros m3 m4 l4 [= <- <- _].
    apply bind_not_OutOfFuel.
    + eapply tryWrapScanPlans_fuel with (mu := mu);
        [ | intros v; apply planScan_lazily_indexed
          | by rewrite (scan_chain_lazily_indexed _ _ Hl1) | reflexivity ].
      intros v m5 Hv Hm5. apply IH; [|lia].
      by rewrite Hm5, (scan_chain_lazily_indexed _ _ Hl1).
    + intros wrapped m5 l5 _. by destruct wrapped.
Qed.

Lemma ptrDepth_elemOf t e :
  kindOf t = KPtr -> elemOf t = Some e -> ptrDepth t = S (ptrDepth e).
Proof.
  induction t as [b|e' _| | | | | | | |n ms pms u IH]; simpl;
    intros Hk He; try discriminate.
  - by injection He as ->.
  - by apply IH.
Qed.

(** Dereferencing removes a pointer layer. *)
Lemma TryWrapDerefPointerEncodePlan_decreasing :
  decreasing_encode ptrDepthOf [TryWrapDerefPointerEncodePlan].
Proof.
  apply Forall_singleton. intros h v. unfold TryWrapDerefPointerEncodePlan.
  destruct v as [x|]; simpl; [|done].
  case_bool_decide as Hk; [|done].
  destruct (elemOf (vtype x)) as [e|] eqn:He; [|done].
  rewrite (ptrDepth_elemOf _ _ Hk He).
  destruct (kindOf e); simpl; lia.
Qed.

(** The pointer-to-pointer rule hands on a nil pointer. *)
Lemma TryPointerPointerScanPlan_decreasing :
  decreasing_scan nonNilPointer [TryPointerPointerScanPlan].
Proof.
  apply Forall_singleton. intros h v. unfold TryPointerPointerScanPlan.
  destruct v as [[t d]|]; simpl; [|done].
  case_bool_decide; [|done].
  destruct d; try done. destruct (elemOf t) as [e|]; [|done].
  case_bool_decide as Hk; [|done]. simpl.
  unfold zeroData. rewrite Hk. lia.
Qed.

Lemma PlanEncode_terminates_witness :
  PlanEncode 3 [] Int4OID BinaryFormatCode
    (Some (Zero (TPtr (TPtr (TBasic BInt32)))))
    (emptyMap [TryWrapDerefPointerEncodePlan] []) <> OutOfFuel.
Proof.
  apply (PlanEncode_terminates ptrDepthOf).
  - apply TryWrapDerefPointerEncodePlan_decreasing.
  - simpl. lia.
Defined.

Lemma planScan_terminates_witness :
  planScan 2 [] Int4OID BinaryFormatCode
    (Some (mkValue (TPtr (TPtr (TPtr (TBasic BInt32)))) (DPtr 0)))
    (emptyMap [] [TryPointerPointerScanPlan]) <> OutOfFuel.
Proof.
  apply (planScan_terminates nonNilPointer).
  - apply TryPointerPointerScanPlan_decreasing.
  - simpl. lia.
Defined.

(** ** Text-format values that encode themselves *)

Lemma implements_not_string method v :
  implements method v = true -> hasType TString v = false.
Proof.
  destruct v as [[t d]|]; [|done]. unfold implements, hasType. simpl.
  intros Hin%bool_decide_eq_true. apply bool_decide_eq_false.
  intros [= ->]. simpl in Hin. by apply elem_of_nil in Hin.
Qed.

(** X8: [Encode] in text format of a value that has a [TextValue]
    method, under any identifier and whatever is registered, is decided
    by that method alone: its error is returned with a nil buffer; a
    value it reports as not valid encodes as NULL, a nil buffer without
    error, whatever buffer was given; otherwise the text is appended to
    the buffer.  No descriptor is looked up and no codec is asked. *)
Theorem Encode_text_TextValuer env fuel h oid v buf m :
  implements TextValuer (Some v) = true ->
  Encode env (S fuel) h oid TextFormatCode (Some v) buf m =
  match TextValuer_TextValue env v h with
  | Ret (s, valid, err) =>
      Ret (match err with
           | Some e => (None, Some e)
           | None =>
               if valid
               then (appendBytes buf (String.list_byte_of_string s), None)
               else (None, None)
           end, m,
           [CallPlanEncode oid TextFormatCode (Some (vtype v));
            CallPlanEncodeRun (Some (vtype v))])
  | Panic r => Panic r
  | OutOfFuel => OutOfFuel
  end.
Proof.
  intros Himpl. pose proof (implements_not_string _ _ Himpl) as Hstr.
  cbn [Encode PlanEncode]. unfold mbind, M_bind, logCall.
  rewrite Hstr, Himpl.
  change (bool_decide (TextFormatCode = TextFormatCode)) with true.
  cbn [andb]. unfold mret, M_ret. cbn [app]. unfold liftRes.
  cbn [EncodePlan_Encode]. rewrite Himpl.
  destruct (TextValuer_TextValue env v h) as [[[s valid] [e|]]| |];
    try done; by destruct valid.
Qed.

Lemma Encode_text_TextValuer_witness :
  Encode (textValuerMethods "x" false) 1 [] Int4OID TextFormatCode
    (Some (mkValue (TNamed "Text" ["TextValue"%string] [] (TStruct "Text"))
             DZero)) (Some []) int4_registry
  = Ret ((None, None), int4_registry,
         [CallPlanEncode Int4OID TextFormatCode
            (Some (TNamed "Text" ["TextValue"%string] [] (TStruct "Text")));
          CallPlanEncodeRun
            (Some (TNamed "Text" ["TextValue"%string] [] (TStruct "Text")))]).
Proof.
  apply (Encode_text_TextValuer (textValuerMethods "x" false) 0 [] Int4OID
           (mkValue (TNamed "Text" ["TextValue"%string] [] (TStruct "Text"))
              DZero) (Some []) int4_registry).
  reflexivity.
Defined.

(** ** The walks over the adapter chains *)

(** X11: the walk of [planScan] over the scan adapters returns the plan
    of the first rule, in the order of the chain, that accepts the
    destination and whose adapted destination gets a plan other than the
    failure plan, bound to that plan; every rule before it declined or
    led to the failure plan.  It returns no plan only when every rule
    was passed over.  So a plan it returns is never unbound and never
    wraps the failure plan. *)
Theorem tryWrapScanPlans_first_usable resolve h target fs m r m' l :
  tryWrapScanPlans resolve h target fs m = Ret (r, m', l) ->
  match r with
  | Some p =>
      exists fs1 f fs2 w nextDst q m1 l1,
        fs = fs1 ++ f :: fs2 /\
        Forall (passed_over_scan resolve h target) fs1 /\
        f h target = Ret (Some (w, nextDst)) /\
        resolve nextDst m1 = Ret (q, m', l1) /\
        is_scanPlanFail q = false /\
        p = wrappedScanPlan (SetNext w q)
  | None => Forall (passed_over_scan resolve h target) fs
  end.
Proof.
  revert m l. induction fs as [|f fs IH]; intros m l; cbn [tryWrapScanPlans].
  - intros [= <- _ _]. constructor.
  - intros (a & m1 & l1 & l2 & Hf & Hrest & _)%bind_Ret_inv.
    apply liftRes_Ret_inv in Hf as (Hf & -> & _).
    destruct a as [[w nextDst]|].
    + apply bind_Ret_inv in Hrest as (q & m2 & l3 & l4 & Hq & Hrest & _).
      destruct (is_scanPlanFail q) eqn:Hfail.
      * apply IH in Hrest. destruct r as [p|].
        -- destruct Hrest
             as (fs1 & g & fs2 & w' & d' & q' & m3 & l5 & -> & Hpass & Hrest).
           exists (f :: fs1), g, fs2, w', d', q', m3, l5.
           split; [done|]. split; [|exact Hrest].
           constructor; [|exact Hpass]. right. eauto 10.
        -- constructor; [|exact Hrest]. right. eauto 10.
      * injection Hrest as <- <- _.
        exists [], f, fs, w, nextDst, q, m, l3. by repeat split.
    + apply IH in Hrest. destruct r as [p|].
      * destruct Hrest
          as (fs1 & g & fs2 & w' & d' & q' & m3 & l5 & -> & Hpass & Hrest).
        exists (f :: fs1), g, fs2, w', d', q', m3, l5.
        split; [done|]. split; [|exact Hrest].
        constructor; [by left | exact Hpass].
      * constructor; [by left | exact Hrest].
Qed.

Lemma tryWrapScanPlans_first_usable_witness :
  exists fs1 f fs2 w nextDst q m1 l1,
    [TryPointerPointerScanPlan] = fs1 ++ f :: fs2 /\
    Forall (passed_over_scan
              (planScan 1 [] Int4OID TextFormatCode) []
              (Some (mkValue (TPtr (TPtr TString)) (DPtr 0)))) fs1 /\
    f [] (Some (mkValue (TPtr (TPtr TString)) (DPtr 0)))
      = Ret (Some (w, nextDst)) /\
    planScan 1 [] Int4OID TextFormatCode nextDst m1
      = Ret (q, emptyMap [] [TryPointerPointerScanPlan], l1) /\
    is_scanPlanFail q = false /\
    wrappedScanPlan
      (pointerPointerScanPlan (TPtr (TPtr TString)) (Some scanPlanString))
    = wrappedScanPlan (SetNext w q).
Proof.
  apply (tryWrapScanPlans_first_usable
           (planScan 1 [] Int4OID TextFormatCode) []
           (Some (mkValue (TPtr (TPtr TString)) (DPtr 0)))
           [TryPointerPointerScanPlan]
           (emptyMap [] [TryPointerPointerScanPlan])
           (Some (wrappedScanPlan
                    (pointerPointerScanPlan (TPtr (TPtr TString))
                       (Some scanPlanString))))
           (emptyMap [] [TryPointerPointerScanPlan])
           [CallplanScan Int4OID TextFormatCode (Some (TPtr TString))]).
  reflexivity.
Defined.

(** X12: the walk of [PlanEncode] over the encode adapters returns the
    plan of the first rule, in the order of the chain, that accepts the
    value and for whose adapted value a plan is found, bound to that
    plan; it returns no plan only when every rule declined or led to no
    plan.  So a plan it returns is never unbound. *)
Theorem tryWrapEncodePlans_first_usable resolve h value fs m r m' l :
  tryWrapEncodePlans resolve h value fs m = Ret (r, m', l) ->
  match r with
  | Some p =>
      exists fs1 f fs2 w nextValue q m1 l1,
        fs = fs1 ++ f :: fs2 /\
        Forall (passed_over_encode resolve h value) fs1 /\
        f h value = Ret (Some (w, nextValue)) /\
        resolve nextValue m1 = Ret (Some q, m', l1) /\
        p = wrappedEncodePlan (SetNext_encode w q)
  | None => Forall (passed_over_encode resolve h value) fs
  end.
Proof.
  revert m l. induction fs as [|f fs IH]; intros m l;
    cbn [tryWrapEncodePlans].
  - intros [= <- _ _]. constructor.
  - intros (a & m1 & l1 & l2 & Hf & Hrest & _)%bind_Ret_inv.
    apply liftRes_Ret_inv in Hf as (Hf & -> & _).
    destruct a as [[w nextValue]|].
    + apply bind_Ret_inv in Hrest as (q & m2 & l3 & l4 & Hq & Hrest & _).
      destruct q as [q|].
      * injection Hrest as <- <- _.
        exists [], f, fs, w, nextValue, q, m, l3. by repeat split.
      * apply IH in Hrest. destruct r as [p|].
        -- destruct Hrest
             as (fs1 & g & fs2 & w' & d' & q' & m3 & l5 & -> & Hpass & Hrest).
           exists (f :: fs1), g, fs2, w', d', q', m3, l5.
           split; [done|]. split; [|exact Hrest].
           constructor; [|exact Hpass]. right. eauto 10.
        -- constructor; [|exact Hrest]. right. eauto 10.
    + apply IH in Hrest. destruct r as [p|].
      * destruct Hrest
          as (fs1 & g & fs2 & w' & d' & q' & m3 & l5 & -> & Hpass & Hrest).
        exists (f :: fs1), g, fs2, w', d', q', m3, l5.
        split; [done|]. split; [|exact Hrest].
        constructor; [by left | exact Hpass].
      * constructor; [by left | exact Hrest].
Qed.

Lemma tryWrapEncodePlans_first_usable_witness :
  Forall (passed_over_encode
            (PlanEncode 1 [] Int4OID BinaryFormatCode) []
            (Some (Zero (TPtr TString))))
    [TryWrapDerefPointerEncodePlan].
Proof.
  apply (tryWrapEncodePlans_first_usable
           (PlanEncode 1 [] Int4OID BinaryFormatCode) []
           (Some (Zero (TPtr TString)))
           [TryWrapDerefPointerEncodePlan]
           (emptyMap [TryWrapDerefPointerEncodePlan] [])
           None
           (emptyMap [TryWrapDerefPointerEncodePlan] [])
           [CallPlanEncode Int4OID BinaryFormatCode (Some TString);
            CallTypeForOID Int4OID]).
  reflexivity.
Defined.

(** ** Destinations that can always be planned *)

Lemma planScan_fastPath_not_fail oid formatCode target p :
  planScan_fastPath oid formatCode target = Some p ->
  is_scanPlanFail p = false.
Proof.
  unfold planScan_fastPath.
  repeat (destruct (hasType _ _) || destruct (bool_decide _)
          || destruct (implements _ _) || destruct (_ || _)%bool);
    by intros [= <-].
Qed.

(** A plan the walk over the scan adapters returns is an adapter plan. *)
Lemma tryWrapScanPlans_bound resolve h target fs m p m' l :
  tryWrapScanPlans resolve h target fs m = Ret (Some p, m', l) ->
  exists w, p = wrappedScanPlan w.
Proof.
  revert m l. induction fs as [|f fs IH]; intros m l;
    cbn [tryWrapScanPlans]; [done|].
  intros (a & m1 & l1 & l2 & Hf & Hrest & _)%bind_Ret_inv.
  destruct a as [[w nextDst]|]; [|by eapply IH].
  apply bind_Ret_inv in Hrest as (q & m2 & l3 & l4 & Hq & Hrest & _).
  destruct (is_scanPlanFail q); [by eapply IH|].
  injection Hrest as <- _ _. eauto.
Qed.

(** X13: a destination with a [Scan] method ([sql.Scanner]) never gets
    the failure plan from the resolver itself.  If [planScan] returns
    the failure plan for such a destination, it is the plan that the
    codec of the resolved descriptor handed out for that destination. *)
Theorem planScan_sql_Scanner fuel h oid formatCode target m p m' l :
  implements sql_Scanner target = true ->
  planScan fuel h oid formatCode target m = Ret (p, m', l) ->
  is_scanPlanFail p = true ->
  exists dt o m1 lr,
    planScan_resolve oid target m = Ret ((Some dt, o), m1, lr) /\
    Codec_PlanScan (Type_Codec dt) h o formatCode target = Some p.
Proof.
  intros Himpl Hplan Hfail.
  destruct fuel as [|fuel]; [done|]. cbn [planScan] in Hplan.
  apply bind_Ret_inv in Hplan as (u & m0 & l0 & l1 & H0 & Hplan & _).
  injection H0 as _ <- _.
  destruct (planScan_fastPath oid formatCode target) as [fast|] eqn:Hfast.
  { injection Hplan as <- _ _.
    apply planScan_fastPath_not_fail in Hfast. congruence. }
  apply bind_Ret_inv in Hplan as ([dt o] & m1 & lr & l2 & Hres & Hplan & _).
  cbn [fst snd] in Hplan.
  apply bind_Ret_inv in Hplan as (plan & m2 & l3 & l4 & Hcodec & Hplan & _).
  destruct plan as [q|].
  - injection Hplan as <- _ _.
    destruct dt as [d|]; [|done].
    apply bind_Ret_inv in Hcodec as (u1 & m3 & l5 & l6 & _ & Hcodec & _).
    injection Hcodec as Hcodec _ _. eauto 10.
  - apply bind_Ret_inv in Hplan as (m3 & m4 & l5 & l6 & _ & Hplan & _).
    apply bind_Ret_inv in Hplan as (wrapped & m5 & l7 & l8 & Hwalk & Hplan & _).
    destruct wrapped as [w|].
    + injection Hplan as <- _ _.
      apply tryWrapScanPlans_bound in Hwalk as (w0 & ->). done.
    + injection Hplan as <- _ _. unfold planScan_fallback in Hfail.
      rewrite Himpl in Hfail.
      destruct dt; [destruct (hasType _ _)|]; done.
Qed.

Lemma planScan_sql_Scanner_witness :
  exists dt o m1 lr,
    planScan_resolve Int4OID scannerDest
      (RegisterType (emptyMap [] []) type_failing)
      = Ret ((Some dt, o), m1, lr) /\
    Codec_PlanScan (Type_Codec dt) [] o BinaryFormatCode scannerDest
      = Some (scanPlanFail Int4OID BinaryFormatCode).
Proof.
  apply (planScan_sql_Scanner 1 [] Int4OID BinaryFormatCode scannerDest
           (RegisterType (emptyMap [] []) type_failing)
           (scanPlanFail Int4OID BinaryFormatCode)
           (RegisterType (emptyMap [] []) type_failing)
           [CallplanScan Int4OID BinaryFormatCode (TypeOf scannerDest);
            CallTypeForOID Int4OID;
            CallCodecPlanScan Int4OID BinaryFormatCode (TypeOf scannerDest)]);
    reflexivity.
Defined.

(** ** Encoding through a pointer *)

(** [PlanEncode] for a value that gets no plan from a fast path or the
    codec, when the chain starts with the dereferencing rule and a plan
    is found for the element type. *)
Lemma PlanEncode_deref fuel h oid format t d e fs m dt o m1 lr p m2 l2 :
  kindOf t = KPtr -> elemOf t = Some e -> kindOf e <> KInterface ->
  implements TextValuer (Some (mkValue t d)) = false ->
  PlanEncode_resolve oid (Some (mkValue t d)) m = Ret ((dt, o), m1, lr) ->
  (forall c, dt = Some c ->
     Codec_PlanEncode (Type_Codec c) h o format (Some (mkValue t d)) = None) ->
  TryWrapEncodePlanFuncs m = TryWrapDerefPointerEncodePlan :: fs ->
  PlanEncode fuel h o format (Some (Zero e)) m1 = Ret (Some p, m2, l2) ->
  exists l,
    PlanEncode (S fuel) h oid format (Some (mkValue t d)) m
    = Ret (Some (wrappedEncodePlan (derefPointerEncodePlan (Some p))), m2, l).
Proof.
  intros Hk He Hi Htv Hres Hcodec Hchain Hinner.
  assert (hasType TString (Some (mkValue t d)) = false) as Hstr.
  { apply bool_decide_eq_false. intros [= ->]. done. }
  assert (lazily_indexed m m1) as Hlazy.
  { destruct (PlanEncode_resolve_Ret oid (Some (mkValue t d)) m)
      as (r & m1' & l' & Hr & Hl). congruence. }
  cbn [PlanEncode]. unfold mbind, M_bind at 1. unfold logCall at 1.
  rewrite Hstr, Htv, !andb_false_r.
  unfold mbind, M_bind at 1. rewrite Hres. cbn [fst snd].
  assert (match dt with
          | Some c => callCodecPlanEncode c h o format (Some (mkValue t d))
          | None => mret None
          end m1 = Ret (None, m1, match dt with
                                   | Some _ => [CallCodecPlanEncode o format (Some t)]
                                   | None => []
                                   end)) as Hc.
  { destruct dt as [c|]; [|done].
    unfold callCodecPlanEncode, mbind, M_bind, logCall.
    by rewrite (Hcodec c eq_refl). }
  unfold mbind, M_bind at 1. rewrite Hc.
  unfold mbind, M_bind at 1. unfold getMap at 1.
  rewrite (encode_chain_lazily_indexed _ _ Hlazy), Hchain.
  cbn [tryWrapEncodePlans]. unfold mbind, M_bind at 1.
  unfold TryWrapDerefPointerEncodePlan at 1. cbn [TypeOf fmap option_fmap option_map vtype].
  rewrite bool_decide_eq_true_2 by exact Hk. rewrite He.
  assert (match kindOf e with
          | KInterface => None
          | _ => Some (Zero e)
          end = Some (Zero e)) as -> by (by destruct (kindOf e)).
  unfold liftRes at 1. unfold mbind, M_bind at 1. rewrite Hinner.
  cbn [SetNext_encode]. eauto.
Qed.

(** X14: encoding through a pointer.  When the chain of encode adapters
    starts with the dereferencing rule, the pointer value has no text
    method, the codec of the resolved descriptor (if any) declines it
    and a plan [p] is found for the element type, then [Encode] of a nil
    pointer returns NULL (a nil buffer, no error), and [Encode] of a
    pointer to a variable holding [x] returns what [p] returns for
    [x]. *)
Theorem Encode_through_pointer
    env fuel h oid format t e fs m dt o m1 lr p m2 l2 buf :
  kindOf t = KPtr -> elemOf t = Some e -> kindOf e <> KInterface ->
  TryWrapEncodePlanFuncs m = TryWrapDerefPointerEncodePlan :: fs ->
  PlanEncode fuel h o format (Some (Zero e)) m1 = Ret (Some p, m2, l2) ->
  forall d,
    implements TextValuer (Some (mkValue t d)) = false ->
    PlanEncode_resolve oid (Some (mkValue t d)) m = Ret ((dt, o), m1, lr) ->
    (forall c, dt = Some c ->
       Codec_PlanEncode (Type_Codec c) h o format (Some (mkValue t d))
       = None) ->
    (d = DNil ->
     valueOf (Encode env (S fuel) h oid format (Some (mkValue t d)) buf m)
     = Some (None, None)) /\
    (forall a x,
       d = DPtr a -> h !! a = Some (CVal x) ->
       valueOf (Encode env (S fuel) h oid format (Some (mkValue t d)) buf m)
       = match EncodePlan_Encode env p (Some x) buf h with
         | Ret r => Some r
         | _ => None
         end).
Proof.
  intros Hk He Hi Hchain Hinner d Htv Hres Hcodec.
  destruct (PlanEncode_deref fuel h oid format t d e fs m dt o m1 lr p m2 l2
              Hk He Hi Htv Hres Hcodec Hchain Hinner) as [l Hplan].
  cbn [Encode]. unfold mbind, M_bind. rewrite Hplan.
  unfold logCall, liftRes. cbn [EncodePlan_Encode vtype vdata].
  rewrite Hk. split.
  - intros ->. reflexivity.
  - intros a x -> Ha. unfold load. rewrite Ha.
    by destruct (EncodePlan_Encode env p (Some x) buf h).
Qed.

Lemma Encode_through_pointer_witness :
  valueOf (Encode noMethods 2 [CVal (mkValue TString (DString "hi"))]
             TextOID TextFormatCode
             (Some (mkValue (TPtr TString) (DPtr 0))) (Some [])
             (emptyMap [TryWrapDerefPointerEncodePlan] []))
  = match EncodePlan_Encode noMethods encodePlanStringToAnyTextFormat
            (Some (mkValue TString (DString "hi"))) (Some [])
            [CVal (mkValue TString (DString "hi"))] with
    | Ret r => Some r
    | _ => None
    end.
Proof.
  refine (proj2 (Encode_through_pointer noMethods 1
                   [CVal (mkValue TString (DString "hi"))]
                   TextOID TextFormatCode (TPtr TString) TString []
                   (emptyMap [TryWrapDerefPointerEncodePlan] [])
                   None TextOID
                   (emptyMap [TryWrapDerefPointerEncodePlan] [])
                   [CallTypeForOID TextOID]
                   encodePlanStringToAnyTextFormat
                   (emptyMap [TryWrapDerefPointerEncodePlan] [])
                   [CallPlanEncode TextOID TextFormatCode (Some TString)]
                   (Some [])
                   eq_refl eq_refl _ eq_refl eq_refl
                   (DPtr 0) eq_refl eq_refl _) 0%nat _ eq_refl eq_refl).
  - discriminate.
  - discriminate.
Defined.

(** ** Values that return themselves *)

Lemma bind_Ret {A B} (c : M A) (f : A -> M B) m a m1 l1 :
  c m = Ret (a, m1, l1) ->
  (c ≫= f) m =
  match f a m1 with
  | Ret (b, m2, l2) => Ret (b, m2, l1 ++ l2)
  | Panic r => Panic r
  | OutOfFuel => OutOfFuel
  end.
Proof. intros Hc. unfold mbind, M_bind. by rewrite Hc. Qed.

(** No plan: the identifier is not zero and not registered, there is no
    adapter rule and no text fast path. *)
Lemma PlanEncode_no_plan fuel h oid formatCode value m :
  oid <> 0%N -> TypeForOID m oid = None ->
  TryWrapEncodePlanFuncs m = [] ->
  formatCode <> TextFormatCode ->
  PlanEncode (S fuel) h oid formatCode value m =
  Ret (None, m, [CallPlanEncode oid formatCode (TypeOf value);
                 CallTypeForOID oid]).
Proof.
  intros Hoid Hnone Hchain Hf. cbn [PlanEncode].
  rewrite (bool_decide_eq_false_2 (formatCode = TextFormatCode)) by done.
  cbn [andb]. unfold PlanEncode_resolve.
  rewrite (bool_decide_eq_false_2 (oid = 0%N)) by done.
  unfold mbind, M_bind, logCall, callTypeForOID, getMap.
  rewrite Hnone. simpl. by rewrite Hchain.
Qed.

(** X15: the recursion of [Encode] through [driver.Valuer] is not
    bounded.  For a value that gets no plan (identifier not zero and not
    registered, no adapter rules, no text fast path) and whose [Value]
    method returns the value itself, [Encode] does not return: every
    amount of fuel is used up. *)
Theorem Encode_self_valuer_diverges env h oid formatCode dv buf m :
  oid <> 0%N -> TypeForOID m oid = None ->
  TryWrapEncodePlanFuncs m = [] ->
  formatCode <> TextFormatCode ->
  implements driver_Valuer (Some dv) = true ->
  Valuer_Value env dv h = Ret (Some dv, None) ->
  forall fuel,
    Encode env fuel h oid formatCode (Some dv) buf m = OutOfFuel.
Proof.
  intros Hoid Hnone Hchain Hf Himpl Hself fuel.
  induction fuel as [|fuel IH]; [done|].
  cbn [Encode].
  rewrite (bind_Ret _ _ _ _ _ _
             (PlanEncode_no_plan fuel h oid formatCode (Some dv) m
                Hoid Hnone Hchain Hf)).
  rewrite Himpl.
  rewrite (bind_Ret _ _ m tt m [CallValuerValue (TypeOf (Some dv))] eq_refl).
  rewrite (bind_Ret _ _ m (Some dv, None) m []);
    [|unfold liftRes; by rewrite Hself].
  by rewrite IH.
Qed.

Lemma Encode_self_valuer_diverges_witness :
  Encode selfValuerMethods 5 [] Int4OID BinaryFormatCode (Some valuerStruct)
    None (emptyMap [] []) = OutOfFuel.
Proof.
  apply (Encode_self_valuer_diverges selfValuerMethods [] Int4OID
           BinaryFormatCode valuerStruct None (emptyMap [] []));
    try reflexivity; discriminate.
Defined.

(** ** The nil interface in the encode adapters *)

(** One level of [PlanEncode] and of [planScan]. *)
Lemma PlanEncode_unfold fuel h oid format value :
  PlanEncode (S fuel) h oid format value =
  (_ ← logCall (CallPlanEncode oid format (TypeOf value));
   if bool_decide (format = TextFormatCode) && hasType TString value
   then mret (Some encodePlanStringToAnyTextFormat)
   else if bool_decide (format = TextFormatCode)
           && implements TextValuer value
   then mret (Some encodePlanTextValuerToAnyTextFormat)
   else
     r ← PlanEncode_resolve oid value;
     plan ← match r.1 with
            | Some d => callCodecPlanEncode d h r.2 format value
            | None => mret None
            end;
     match plan with
     | Some p => mret (Some p)
     | None =>
         m ← getMap;
         tryWrapEncodePlans (PlanEncode fuel h r.2 format) h value
           (TryWrapEncodePlanFuncs m)
     end).
Proof. reflexivity. Qed.

Lemma planScan_unfold fuel h oid formatCode target :
  planScan (S fuel) h oid formatCode target =
  (_ ← logCall (CallplanScan oid formatCode (TypeOf target));
   match planScan_fastPath oid formatCode target with
   | Some plan => mret plan
   | None =>
       r ← planScan_resolve oid target;
       plan ← match r.1 with
              | Some d => callCodecPlanScan d h r.2 formatCode target
              | None => mret None
              end;
       match plan with
       | Some p => mret p
       | None =>
           m ← getMap;
           wrapped ← tryWrapScanPlans (planScan fuel h r.2 formatCode)
                       h target (TryWrapScanPlanFuncs m);
           match wrapped with
           | Some p => mret p
           | None => mret (planScan_fallback r.1 r.2 formatCode target)
           end
       end
   end).
Proof. reflexivity. Qed.

(** [PlanEncode] for nil under a registered-or-not identifier other
    than zero, when the codec (if any) declines nil and the chain
    starts with the dereferencing rule. *)
Lemma PlanEncode_nil_deref fuel h oid format fs m :
  oid <> 0%N ->
  (forall dt, TypeForOID m oid = Some dt ->
     Codec_PlanEncode (Type_Codec dt) h oid format None = None) ->
  TryWrapEncodePlanFuncs m = TryWrapDerefPointerEncodePlan :: fs ->
  PlanEncode (S fuel) h oid format None m = Panic NilDereference.
Proof.
  intros Hoid Hcodec Hchain. cbn [PlanEncode].
  change (hasType TString None) with false.
  change (implements TextValuer None) with false.
  rewrite !andb_false_r. unfold PlanEncode_resolve.
  rewrite (bool_decide_eq_false_2 (oid = 0%N)) by done.
  unfold callCodecPlanEncode, callTypeForOID, getMap, logCall,
    mbind, M_bind, mret, M_ret.
  destruct (TypeForOID m oid) as [dt|] eqn:Hdt; cbn [fst snd].
  - rewrite (Hcodec dt eq_refl). cbv beta iota. by rewrite Hchain.
  - by rewrite Hchain.
Qed.

(** X16: [PlanEncode] panics on the nil interface value.  Under an
    identifier other than zero whose codec, if one is registered, plans
    nothing for nil, and with a chain of encode adapters that starts
    with the dereferencing rule (as the chain of [NewMap] does), the
    walk reaches [TryWrapDerefPointerEncodePlan], which asks the nil
    [reflect.Type] for its kind. *)
Theorem PlanEncode_nil_panics fuel h oid format fs m :
  oid <> 0%N ->
  (forall dt, TypeForOID m oid = Some dt ->
     Codec_PlanEncode (Type_Codec dt) h oid format None = None) ->
  TryWrapEncodePlanFuncs m = TryWrapDerefPointerEncodePlan :: fs ->
  TryWrapDerefPointerEncodePlan h None = Panic NilDereference /\
  PlanEncode (S fuel) h oid format None m = Panic NilDereference.
Proof.
  intros Hoid Hcodec Hchain. split; [reflexivity |].
  by eapply PlanEncode_nil_deref.
Qed.

Lemma PlanEncode_nil_panics_witness :
  PlanEncode 1 [] Int4OID BinaryFormatCode None
    (RegisterType (emptyMap [TryWrapDerefPointerEncodePlan] []) type_int4)
  = Panic NilDereference.
Proof.
  refine (proj2 (PlanEncode_nil_panics 0 [] Int4OID BinaryFormatCode []
                   (RegisterType
                      (emptyMap [TryWrapDerefPointerEncodePlan] [])
                      type_int4) _ _ eq_refl)).
  - discriminate.
  - intros dt [= <-]. reflexivity.
Defined.

(** X17: [Encode] panics on a pointer to a variable of interface type,
    such as a [*interface{}], nil or not.  Under an identifier other
    than zero whose codec, if one is registered, plans nothing for the
    pointer and for nil, and with a chain of encode adapters that starts
    with the dereferencing rule, the rule hands on the zero value of the
    interface type, the nil interface, and the resolution of that
    panics. *)
Theorem Encode_pointer_to_interface_panics
    env fuel h oid format t e d buf fs m :
  kindOf t = KPtr -> elemOf t = Some e -> kindOf e = KInterface ->
  implements TextValuer (Some (mkValue t d)) = false ->
  oid <> 0%N ->
  (forall dt, TypeForOID m oid = Some dt ->
     Codec_PlanEncode (Type_Codec dt) h oid format (Some (mkValue t d))
     = None /\
     Codec_PlanEncode (Type_Codec dt) h oid format None = None) ->
  TryWrapEncodePlanFuncs m = TryWrapDerefPointerEncodePlan :: fs ->
  Encode env (S (S fuel)) h oid format (Some (mkValue t d)) buf m
  = Panic NilDereference.
Proof.
  intros Hk He Hi Htv Hoid Hcodec Hchain.
  assert (hasType TString (Some (mkValue t d)) = false) as Hstr.
  { apply bool_decide_eq_false. intros [= ->]. done. }
  assert (PlanEncode (S (S fuel)) h oid format (Some (mkValue t d)) m
          = Panic NilDereference) as Hplan.
  { rewrite PlanEncode_unfold. rewrite Hstr, Htv, !andb_false_r.
    unfold PlanEncode_resolve.
    rewrite (bool_decide_eq_false_2 (oid = 0%N)) by done.
    assert (tryWrapEncodePlans (PlanEncode (S fuel) h oid format) h
              (Some (mkValue t d)) (TryWrapDerefPointerEncodePlan :: fs) m
            = Panic NilDereference) as Hwalk.
    { cbn [tryWrapEncodePlans]. unfold TryWrapDerefPointerEncodePlan at 1.
      cbn [TypeOf fmap option_fmap option_map vtype].
      rewrite bool_decide_eq_true_2 by exact Hk. rewrite He, Hi.
      unfold mbind, M_bind, liftRes.
      fold (PlanEncode (S fuel) h oid format None m).
      by rewrite (PlanEncode_nil_deref fuel h oid format fs m Hoid
                    (fun dt Hdt => proj2 (Hcodec dt Hdt)) Hchain). }
    unfold callCodecPlanEncode, callTypeForOID, getMap, logCall,
      mbind, M_bind, mret, M_ret.
    destruct (TypeForOID m oid) as [dt|] eqn:Hdt; cbn [fst snd].
    - rewrite (proj1 (Hcodec dt eq_refl)). cbv beta iota.
      by rewrite Hchain, Hwalk.
    - by rewrite Hchain, Hwalk. }
  cbn [Encode]. unfold mbind, M_bind. by rewrite Hplan.
Qed.

Lemma Encode_pointer_to_interface_panics_witness :
  Encode noMethods 2 [CAny (stringValue "hi")] Int4OID BinaryFormatCode
    (Some (ptrToAny 0)) None
    (RegisterType (emptyMap [TryWrapDerefPointerEncodePlan] []) type_int4)
  = Panic NilDereference.
Proof.
  apply (Encode_pointer_to_interface_panics noMethods 0
           [CAny (stringValue "hi")] Int4OID BinaryFormatCode
           (TPtr TEmptyInterface) TEmptyInterface (DPtr 0) None []
           (RegisterType (emptyMap [TryWrapDerefPointerEncodePlan] [])
              type_int4));
    try reflexivity; try discriminate.
  intros dt [= <-]. split; reflexivity.
Defined.

(** ** Nil pointers in the scan adapters of [NewMap] *)

(** The walk over the chain of [NewMap] for a nil pointer whose type is
    not among the builtin pointer types: the first three rules decline,
    the struct rule panics, whatever the resolver. *)
Lemma tryWrapScanPlans_nil_pointer ext resolve h t m :
  kindOf t = KPtr ->
  typeSwitch (fun T => bool_decide (t = TPtr T)) (builtinTypes ext) = None ->
  tryWrapScanPlans resolve h (Some (mkValue t DNil))
    (NewMap_TryWrapScanPlanFuncs ext) m
  = Panic ReflectPanic.
Proof.
  intros Hk Hsw. unfold NewMap_TryWrapScanPlanFuncs.
  cbn [tryWrapScanPlans].
  assert (TryPointerPointerScanPlan h (Some (mkValue t DNil)) = Ret None)
    as ->.
  { unfold TryPointerPointerScanPlan. simpl. by case_bool_decide. }
  assert (TryWrapBuiltinTypeScanPlan ext h (Some (mkValue t DNil)) = Ret None)
    as ->.
  { unfold TryWrapBuiltinTypeScanPlan. cbn [vtype]. by rewrite Hsw. }
  assert (TryFindUnderlyingTypeScanPlan ext h (Some (mkValue t DNil))
          = Ret None) as ->.
  { unfold TryFindUnderlyingTypeScanPlan.
    destruct (implements _ _); [done|]. cbn [vtype].
    rewrite bool_decide_eq_true_2 by exact Hk. reflexivity. }
  assert (TryWrapStructScanPlan ext h (Some (mkValue t DNil))
          = Panic ReflectPanic) as ->.
  { unfold TryWrapStructScanPlan, KindOf. cbn [vtype].
    rewrite bool_decide_eq_false_2 by (intros Hne; by apply Hne).
    reflexivity. }
  reflexivity.
Qed.

(** [planScan] at a registered identifier whose codec declines the
    destination, with no fast path: the plan is the one of the walk
    over the adapters, or the terminal plan. *)
Lemma planScan_registered fuel h oid formatCode target m dt :
  planScan_fastPath oid formatCode target = None ->
  TypeForOID m oid = Some dt ->
  Codec_PlanScan (Type_Codec dt) h oid formatCode target = None ->
  planScan (S fuel) h oid formatCode target m =
  match tryWrapScanPlans (planScan fuel h oid formatCode) h target
          (TryWrapScanPlanFuncs m) m with
  | Ret (wrapped, m', l) =>
      Ret (match wrapped with
           | Some p => p
           | None => planScan_fallback (Some dt) oid formatCode target
           end, m',
           CallplanScan oid formatCode (TypeOf target)
             :: CallTypeForOID oid
             :: CallCodecPlanScan oid formatCode (TypeOf target) :: l)
  | Panic r => Panic r
  | OutOfFuel => OutOfFuel
  end.
Proof.
  intros Hfast Hdt Hcodec. rewrite planScan_unfold.
  unfold planScan_resolve, callCodecPlanScan, callTypeForOID, getMap, logCall,
    mbind, M_bind, mret, M_ret.
  rewrite Hfast, Hdt. cbn [fst snd]. rewrite Hcodec.
  destruct (tryWrapScanPlans _ _ _ _ _) as [[[[p|] m'] l]| |]; try done.
  - simpl. by rewrite app_nil_r.
  - simpl. by rewrite app_nil_r.
Qed.

(** X18: planning a scan into a nil pointer panics with the adapters
    of [NewMap].  For a nil pointer destination whose type is not among
    the builtin pointer types, under a registered identifier whose codec
    plans nothing for it and with no fast path, [planScan] panics: the
    first three adapter rules decline and [TryWrapStructScanPlan] asks
    the element of the nil pointer for its type. *)
Theorem planScan_nil_pointer_panics ext fuel h oid formatCode t m dt :
  kindOf t = KPtr ->
  typeSwitch (fun T => bool_decide (t = TPtr T)) (builtinTypes ext) = None ->
  planScan_fastPath oid formatCode (Some (mkValue t DNil)) = None ->
  TypeForOID m oid = Some dt ->
  Codec_PlanScan (Type_Codec dt) h oid formatCode (Some (mkValue t DNil))
  = None ->
  TryWrapScanPlanFuncs m = NewMap_TryWrapScanPlanFuncs ext ->
  TryWrapStructScanPlan ext h (Some (mkValue t DNil)) = Panic ReflectPanic /\
  planScan (S fuel) h oid formatCode (Some (mkValue t DNil)) m
  = Panic ReflectPanic.
Proof.
  intros Hk Hsw Hfast Hdt Hcodec Hchain. split.
  - unfold TryWrapStructScanPlan, KindOf. cbn [vtype].
    rewrite bool_decide_eq_false_2 by (intros Hne; by apply Hne).
    reflexivity.
  - rewrite (planScan_registered _ _ _ _ _ _ _ Hfast Hdt Hcodec), Hchain.
    by rewrite tryWrapScanPlans_nil_pointer.
Qed.

Lemma planScan_nil_pointer_panics_witness :
  planScan 1 [] Int4OID BinaryFormatCode (Some (Zero (TPtr plainType)))
    (RegisterType (emptyMap [] (NewMap_TryWrapScanPlanFuncs sampleExternal))
       type_int4)
  = Panic ReflectPanic.
Proof.
  refine (proj2 (planScan_nil_pointer_panics sampleExternal 0 [] Int4OID
                   BinaryFormatCode (TPtr plainType)
                   (RegisterType
                      (emptyMap [] (NewMap_TryWrapScanPlanFuncs sampleExternal))
                      type_int4)
                   type_int4 eq_refl eq_refl eq_refl eq_refl eq_refl eq_refl)).
Defined.

(** X19: planning a scan into a pointer to a pointer panics with the
    adapters of [NewMap] unless the inner pointer is planned without
    them.  For a non-nil destination of type [**T], where [*T] is not
    among the builtin pointer types, under a registered identifier whose
    codec plans nothing for the destination and for a nil [*T], and with
    no fast path for either: the pointer-to-pointer rule hands on a nil
    [*T], and the resolution of that panics in the struct rule. *)
Theorem planScan_pointer_to_pointer_panics
    ext fuel h oid formatCode t e a m dt :
  kindOf t = KPtr -> elemOf t = Some e -> kindOf e = KPtr ->
  typeSwitch (fun T => bool_decide (e = TPtr T)) (builtinTypes ext) = None ->
  planScan_fastPath oid formatCode (Some (mkValue t (DPtr a))) = None ->
  planScan_fastPath oid formatCode (Some (Zero e)) = None ->
  TypeForOID m oid = Some dt ->
  Codec_PlanScan (Type_Codec dt) h oid formatCode (Some (mkValue t (DPtr a)))
  = None ->
  Codec_PlanScan (Type_Codec dt) h oid formatCode (Some (Zero e)) = None ->
  TryWrapScanPlanFuncs m = NewMap_TryWrapScanPlanFuncs ext ->
  planScan (S (S fuel)) h oid formatCode (Some (mkValue t (DPtr a))) m
  = Panic ReflectPanic.
Proof.
  intros Hk He Hke Hsw Hfast Hfast' Hdt Hcodec Hcodec' Hchain.
  rewrite (planScan_registered _ _ _ _ _ _ _ Hfast Hdt Hcodec), Hchain.
  unfold NewMap_TryWrapScanPlanFuncs at 1. cbn [tryWrapScanPlans].
  assert (TryPointerPointerScanPlan h (Some (mkValue t (DPtr a)))
          = Ret (Some (pointerPointerScanPlan t None, Some (Zero e)))) as ->.
  { unfold TryPointerPointerScanPlan. cbn [vtype vdata].
    rewrite bool_decide_eq_true_2 by exact Hk. rewrite He.
    by rewrite bool_decide_eq_true_2 by exact Hke. }
  unfold liftRes. unfold mbind at 1, M_bind at 1. unfold mbind at 1, M_bind at 1.
  assert (Zero e = mkValue e DNil) as HZ
    by (unfold Zero, zeroData; by rewrite Hke).
  rewrite HZ in *.
  rewrite (planScan_registered _ _ _ _ _ _ _ Hfast' Hdt Hcodec'), Hchain.
  by rewrite tryWrapScanPlans_nil_pointer.
Qed.

Lemma planScan_pointer_to_pointer_panics_witness :
  planScan 2 [CVal (Zero (TPtr plainType))] Int4OID BinaryFormatCode
    (ptrPtrPlain 0)
    (RegisterType (emptyMap [] (NewMap_TryWrapScanPlanFuncs sampleExternal))
       type_int4)
  = Panic ReflectPanic.
Proof.
  apply (planScan_pointer_to_pointer_panics sampleExternal 0
           [CVal (Zero (TPtr plainType))] Int4OID BinaryFormatCode
           (TPtr (TPtr plainType)) (TPtr plainType) 0
           (RegisterType
              (emptyMap [] (NewMap_TryWrapScanPlanFuncs sampleExternal))
              type_int4)
           type_int4); reflexivity.
Defined.

(** ** The underlying-type rules *)

Lemma kindToTypes_kind k t : kindToTypes k = Some t -> kindToTypes (kindOf t) = Some t.
Proof. destruct k; simpl; intros [= <-]; reflexivity. Qed.

Lemma kindToTypes_methodSet k t : kindToTypes k = Some t -> methodSet t = [].
Proof. destruct k; simpl; intros [= <-]; reflexivity. Qed.

Lemma implements_no_methods method v :
  methodSet (vtype v) = [] -> implements method (Some v) = false.
Proof.
  intros Hms. unfold implements. rewrite Hms.
  apply bool_decide_eq_false. apply not_elem_of_nil.
Qed.

Lemma convertValue_Ret ext t value next :
  convertValue ext t value = Ret next ->
  exists v v', value = Some v /\ next = Some v' /\ Convert ext v t = Ret v'.
Proof.
  unfold convertValue. destruct value as [v|]; [|done].
  destruct (Convert ext v t) as [v'| |] eqn:Hc; [|done..].
  intros [= <-]. eauto.
Qed.

(** X20: the underlying-type rules apply at most once.  Given that
    [reflect]'s [Convert] returns a value of the type asked for, the
    value that [TryWrapFindUnderlyingTypeEncodePlan] hands on, and the
    destination that [TryFindUnderlyingTypeScanPlan] hands on, are
    declined by the same rule: they have the builtin type of their
    kind. *)
Theorem underlying_type_rules_apply_once ext h :
  (forall v t v', Convert ext v t = Ret v' -> vtype v' = t) ->
  (forall value w next,
     TryWrapFindUnderlyingTypeEncodePlan ext h value = Ret (Some (w, next)) ->
     TryWrapFindUnderlyingTypeEncodePlan ext h next = Ret None) /\
  (forall dst w next,
     TryFindUnderlyingTypeScanPlan ext h dst = Ret (Some (w, next)) ->
     TryFindUnderlyingTypeScanPlan ext h next = Ret None).
Proof.
  intros Htype. split.
  - intros value w next. unfold TryWrapFindUnderlyingTypeEncodePlan at 1.
    destruct (implements _ value); [done|].
    destruct (kindToTypes (KindOf value)) as [t|] eqn:Hk; [|done].
    destruct value as [v|]; [|done].
    case_bool_decide; [|done].
    destruct (convertValue ext t (Some v)) as [nv| |] eqn:Hc; [|done..].
    intros [= _ <-].
    apply convertValue_Ret in Hc as (v0 & v' & [= <-] & -> & Hc).
    apply Htype in Hc. unfold TryWrapFindUnderlyingTypeEncodePlan.
    rewrite implements_no_methods
      by (rewrite Hc; by eapply kindToTypes_methodSet).
    unfold KindOf. rewrite Hc, (kindToTypes_kind _ _ Hk).
    by rewrite bool_decide_eq_false_2 by (intros Hne; by apply Hne).
  - intros dst w next. unfold TryFindUnderlyingTypeScanPlan at 1.
    destruct (implements _ dst); [done|].
    destruct dst as [v|]; [|done].
    case_bool_decide as Hkv; [|done].
    set (nextDstType :=
           match elemKindToPointerTypes (ElemKind v) with
           | Some t => Some t
           | None => _
           end).
    destruct nextDstType as [t|] eqn:Hnext; [|done].
    case_bool_decide; [|done].
    destruct (convertValue ext t (Some v)) as [nv| |] eqn:Hc; [|done..].
    intros [= _ <-].
    apply convertValue_Ret in Hc as (v0 & v' & [= <-] & -> & Hc).
    apply Htype in Hc.
    assert ((exists b, t = TPtr (TBasic b) /\
                       elemKindToPointerTypes (Basic_kind b) = Some t) \/
            t = TPtr TByteSlice) as Ht.
    { subst nextDstType.
      destruct (elemKindToPointerTypes (ElemKind v)) as [t'|] eqn:Hp.
      - injection Hnext as ->. left.
        destruct (ElemKind v); simpl in Hp; try discriminate;
          injection Hp as <-; eexists; split; reflexivity.
      - right. case_bool_decide; [|done].
        destruct (ElemType v ≫= elemOf) as [e|]; [|done].
        case_bool_decide; [|done]. by injection Hnext. }
    unfold TryFindUnderlyingTypeScanPlan.
    assert (methodSet (vtype v') = []) as Hms.
    { rewrite Hc. destruct Ht as [(b & -> & _)| ->]; reflexivity. }
    rewrite (implements_no_methods _ _ Hms).
    assert (kindOf (vtype v') = KPtr) as Hk'
      by (rewrite Hc; destruct Ht as [(b & -> & _)| ->]; reflexivity).
    rewrite bool_decide_eq_true_2 by exact Hk'.
    unfold ElemKind, ElemType. rewrite Hc.
    destruct (vdata v'); try reflexivity.
    destruct Ht as [(b & -> & Hb)| ->]; cbn [elemOf kindOf].
    + rewrite Hb.
      by rewrite bool_decide_eq_false_2 by (intros Hne; by apply Hne).
    + reflexivity.
Qed.

Lemma underlying_type_rules_apply_once_witness :
  TryWrapFindUnderlyingTypeEncodePlan sampleExternal []
    (Some (mkValue TString (DString "hi"))) = Ret None.
Proof.
  destruct (underlying_type_rules_apply_once sampleExternal [])
    as [Henc _].
  - intros v t v' [= <-]. reflexivity.
  - apply (Henc (Some (mkValue myString (DString "hi")))
             (underlyingTypeEncodePlan sampleExternal TString)).
    reflexivity.
Defined.

(** ** Encoding a value of a defined type *)

(** [PlanEncode] at an identifier other than zero whose codec, if one
    is registered, declines the value, with no text fast path: the plan
    is the one of the walk over the adapters. *)
Lemma PlanEncode_by_oid fuel h oid format value m :
  hasType TString value = false ->
  implements TextValuer value = false ->
  oid <> 0%N ->
  (forall dt, TypeForOID m oid = Some dt ->
     Codec_PlanEncode (Type_Codec dt) h oid format value = None) ->
  exists l0,
    PlanEncode (S fuel) h oid format value m =
    match tryWrapEncodePlans (PlanEncode fuel h oid format) h value
            (TryWrapEncodePlanFuncs m) m with
    | Ret (plan, m', l) => Ret (plan, m', l0 ++ l)
    | Panic r => Panic r
    | OutOfFuel => OutOfFuel
    end.
Proof.
  intros Hstr Htv Hoid Hcodec. rewrite PlanEncode_unfold.
  rewrite Hstr, Htv, !andb_false_r. unfold PlanEncode_resolve.
  rewrite (bool_decide_eq_false_2 (oid = 0%N)) by done.
  unfold callCodecPlanEncode, callTypeForOID, getMap, logCall,
    mbind, M_bind, mret, M_ret.
  destruct (TypeForOID m oid) as [dt|] eqn:Hdt; cbn [fst snd].
  - rewrite (Hcodec dt eq_refl). cbv beta iota.
    exists [CallPlanEncode oid format (TypeOf value); CallTypeForOID oid;
            CallCodecPlanEncode oid format (TypeOf value)].
    by destruct (tryWrapEncodePlans _ _ _ _ _) as [[[p m'] l]| |].
  - exists [CallPlanEncode oid format (TypeOf value); CallTypeForOID oid].
    by destruct (tryWrapEncodePlans _ _ _ _ _) as [[[p m'] l]| |].
Qed.

(** X21: a value of a defined string type encodes in text format as
    its underlying string, with the adapters of [NewMap].  For a type
    of kind string other than [string] itself, without the methods
    [TextValue], [SkipUnderlyingTypePlan] and [String] and not among the
    builtin types, under an identifier other than zero whose codec, if
    one is registered, plans nothing for the value, and given that
    [reflect] converts the value to the [string] of the same contents:
    [Encode] appends the bytes of the string to the buffer. *)
Theorem Encode_defined_string_text env ext fuel h oid t s buf m :
  kindOf t = KString -> t <> TString ->
  implements TextValuer (Some (mkValue t (DString s))) = false ->
  implements SkipUnderlyingTypePlanner (Some (mkValue t (DString s)))
  = false ->
  implements fmt_Stringer (Some (mkValue t (DString s))) = false ->
  typeSwitch (fun T => bool_decide (t = T)) (builtinTypes ext) = None ->
  Convert ext (mkValue t (DString s)) TString
  = Ret (mkValue TString (DString s)) ->
  oid <> 0%N ->
  (forall dt, TypeForOID m oid = Some dt ->
     Codec_PlanEncode (Type_Codec dt) h oid TextFormatCode
       (Some (mkValue t (DString s))) = None) ->
  TryWrapEncodePlanFuncs m = NewMap_TryWrapEncodePlanFuncs ext ->
  valueOf (Encode env (S (S fuel)) h oid TextFormatCode
             (Some (mkValue t (DString s))) buf m)
  = Some (appendBytes buf (String.list_byte_of_string s), None).
Proof.
  intros Hk Hne Htv Hskip Hstringer Hsw Hconv Hoid Hcodec Hchain.
  assert (hasType TString (Some (mkValue t (DString s))) = false) as Hstr.
  { apply bool_decide_eq_false. intros [= ->]. done. }
  destruct (PlanEncode_by_oid (S fuel) h oid TextFormatCode
              (Some (mkValue t (DString s))) m Hstr Htv Hoid Hcodec)
    as [l0 Hplan].
  assert (tryWrapEncodePlans (PlanEncode (S fuel) h oid TextFormatCode) h
            (Some (mkValue t (DString s))) (TryWrapEncodePlanFuncs m) m
          = Ret (Some (wrappedEncodePlan
                         (adapterEncodePlan
                            (fun _ value => convertValue ext TString value)
                            (Some encodePlanStringToAnyTextFormat))),
                 m, [CallPlanEncode oid TextFormatCode (Some TString)]))
    as Hwalk.
  { rewrite Hchain. unfold NewMap_TryWrapEncodePlanFuncs.
    cbn [tryWrapEncodePlans].
    assert (TryWrapDerefPointerEncodePlan h (Some (mkValue t (DString s)))
            = Ret None) as ->.
    { unfold TryWrapDerefPointerEncodePlan. cbn [TypeOf fmap option_fmap option_map vtype].
      rewrite bool_decide_eq_false_2; [done | by rewrite Hk]. }
    assert (TryWrapBuiltinTypeEncodePlan ext h (Some (mkValue t (DString s)))
            = Ret None) as ->.
    { unfold TryWrapBuiltinTypeEncodePlan. cbn [vtype].
      by rewrite Hsw, Hstringer. }
    assert (TryWrapFindUnderlyingTypeEncodePlan ext h
              (Some (mkValue t (DString s)))
            = Ret (Some (underlyingTypeEncodePlan ext TString,
                         Some (mkValue TString (DString s))))) as ->.
    { unfold TryWrapFindUnderlyingTypeEncodePlan, KindOf. cbn [vtype].
      rewrite Hskip, Hk. cbn [kindToTypes].
      rewrite bool_decide_eq_true_2 by exact Hne.
      unfold convertValue. by rewrite Hconv. }
    reflexivity. }
  rewrite Hwalk in Hplan.
  cbn [Encode]. unfold mbind, M_bind. rewrite Hplan.
  unfold logCall, liftRes. cbn [EncodePlan_Encode].
  unfold convertValue. rewrite Hconv. reflexivity.
Qed.

Lemma Encode_defined_string_text_witness :
  valueOf (Encode noMethods 2 [] TextOID TextFormatCode
             (Some (mkValue myString (DString "hi"))) (Some [])
             (emptyMap (NewMap_TryWrapEncodePlanFuncs sampleExternal) []))
  = Some (appendBytes (Some []) (String.list_byte_of_string "hi"), None).
Proof.
  apply (Encode_defined_string_text noMethods sampleExternal 0 [] TextOID
           myString "hi" (Some [])
           (emptyMap (NewMap_TryWrapEncodePlanFuncs sampleExternal) []));
    try reflexivity; try discriminate.
Defined.

(** ** The helpers of the codecs *)

(** X22: [scanUnknownType] into a [*[]byte] stores the source slice
    itself, in either format: no array is allocated and the bytes are
    not copied, so the destination reads whatever the backing array of
    the source holds later.  The byte-copy plan of [planScan] stores a
    slice over a fresh array instead, which keeps the bytes scanned. *)
Theorem scanUnknownType_aliases_source
    get fuel oid formatCode a bs bs' p h :
  (p < length h)%nat -> h !! a = Some (CBytes bs) -> p <> a ->
  exists h1 h2,
    scanUnknownType get (S fuel) oid formatCode (Some a) (ptrToByteSlice p) h
    = Ret (h1, None) /\
    length h1 = length h /\
    bytesAt (<[a := CBytes bs']> h1) p = Some bs' /\
    scanPlanAnyTextToBytes_Scan (Some a) (ptrToByteSlice p) h
    = Ret (h2, None) /\
    bytesAt (<[a := CBytes bs']> h2) p = Some bs.
Proof.
  intros Hp Ha Hne.
  exists (<[p := CVal (byteSliceValue (Some a))]> h),
         (<[p := CVal (mkValue TByteSlice (DSlice (length h)))]>
            (h ++ [CBytes bs])).
  assert (a < length h)%nat as Hlen by (by eapply lookup_lt_Some).
  split; [|split; [|split; [|split]]].
  - cbn [scanUnknownType]. unfold store. simpl.
    by rewrite bool_decide_eq_true_2.
  - by rewrite length_insert.
  - unfold bytesAt. rewrite list_lookup_insert_ne by done.
    rewrite list_lookup_insert_eq by done. simpl.
    rewrite list_lookup_insert_eq; [done|]. by rewrite length_insert.
  - by apply scanPlanAnyTextToBytes_Scan_copy.
  - unfold bytesAt. rewrite list_lookup_insert_ne by done.
    rewrite list_lookup_insert_eq by (rewrite length_app; simpl; lia).
    rewrite list_lookup_insert_ne by lia.
    rewrite list_lookup_insert_ne by lia.
    rewrite lookup_app_r by lia. by rewrite Nat.sub_diag.
Qed.

Lemma scanUnknownType_aliases_source_witness :
  exists h1 h2,
    scanUnknownType (fun h _ => Ret (h, None)) 1 Int4OID BinaryFormatCode
      (Some 1%nat) (ptrToByteSlice 0)
      [CVal (Zero TByteSlice); CBytes [Byte.x68; Byte.x69]]
    = Ret (h1, None) /\
    length h1 = 2%nat /\
    bytesAt (<[1%nat := CBytes [Byte.x6f; Byte.x6b]]> h1) 0
    = Some [Byte.x6f; Byte.x6b] /\
    scanPlanAnyTextToBytes_Scan (Some 1%nat) (ptrToByteSlice 0)
      [CVal (Zero TByteSlice); CBytes [Byte.x68; Byte.x69]]
    = Ret (h2, None) /\
    bytesAt (<[1%nat := CBytes [Byte.x6f; Byte.x6b]]> h2) 0
    = Some [Byte.x68; Byte.x69].
Proof.
  apply (scanUnknownType_aliases_source (fun h _ => Ret (h, None)) 0 Int4OID
           BinaryFormatCode 1 [Byte.x68; Byte.x69] [Byte.x6f; Byte.x6b] 0
           [CVal (Zero TByteSlice); CBytes [Byte.x68; Byte.x69]]).
  - simpl. lia.
  - reflexivity.
  - lia.
Defined.

(** [Encode] of a [string] in text format. *)
Lemma Encode_text_value env fuel h oid s buf m :
  Encode env (S fuel) h oid TextFormatCode (stringValue s) buf m
  = Ret ((appendBytes buf (String.list_byte_of_string s), None), m,
         [CallPlanEncode oid TextFormatCode (Some TString);
          CallPlanEncodeRun (Some TString)]).
Proof. reflexivity. Qed.

(** X23: [codecDecodeToTextFormat].  A NULL source gives nil without
    error, and a source in text format gives its bytes as a string; in
    both cases the codec is not asked and nothing is logged.  In another
    format the value the codec decodes is encoded in text format: a
    decoded [string] comes back as it is, and a decoded nil value comes
    back as the empty string, not as nil. *)
Theorem codecDecodeToTextFormat_cases env fuel codec h oid format m :
  codecDecodeToTextFormat env fuel codec h oid format None m
  = Ret ((None, None), m, []) /\
  (forall bs,
     codecDecodeToTextFormat env fuel codec h oid TextFormatCode (Some bs) m
     = Ret ((stringValue (String.string_of_list_byte bs), None), m, [])) /\
  (forall bs s,
     format <> TextFormatCode ->
     Codec_DecodeValue codec oid format (Some bs) = (stringValue s, None) ->
     valueOf (codecDecodeToTextFormat env (S fuel) codec h oid format
                (Some bs) m)
     = Some (stringValue s, None)) /\
  (forall bs,
     format <> TextFormatCode ->
     Codec_DecodeValue codec oid format (Some bs) = (None, None) ->
     valueOf (codecDecodeToTextFormat env fuel codec h oid format (Some bs) m)
     = Some (stringValue "", None)).
Proof.
  split; [reflexivity|]. split; [reflexivity|]. split.
  - intros bs s Hf Hdec. unfold codecDecodeToTextFormat.
    rewrite bool_decide_eq_false_2 by done. rewrite Hdec.
    erewrite bind_Ret by apply Encode_text_value.
    cbn [valueOf fst snd mret M_ret].
    destruct (String.list_byte_of_string s) as [|c l] eqn:Hs.
    + apply list_byte_of_string_nil in Hs as ->. reflexivity.
    + simpl. rewrite <- Hs.
      by rewrite String.string_of_list_byte_of_string.
  - intros bs Hf Hdec. unfold codecDecodeToTextFormat.
    rewrite bool_decide_eq_false_2 by done. rewrite Hdec.
    by destruct fuel.
Qed.

Lemma codecDecodeToTextFormat_cases_witness :
  valueOf (codecDecodeToTextFormat noMethods 1
             (constCodec (stringValue "42")) [] Int4OID BinaryFormatCode
             (Some [Byte.x00]) int4_registry)
  = Some (stringValue "42", None).
Proof.
  destruct (codecDecodeToTextFormat_cases noMethods 0
              (constCodec (stringValue "42")) [] Int4OID BinaryFormatCode
              int4_registry) as (_ & _ & Hstr & _).
  apply (Hstr [Byte.x00] "42"%string); [discriminate | reflexivity].
Defined.

(** ** Scanning into a variable of type [interface{}] *)

Lemma planScan_fastPath_ptrToAny oid formatCode a :
  planScan_fastPath oid formatCode (Some (ptrToAny a)) = None.
Proof.
  unfold planScan_fastPath.
  change (hasType (TPtr UndecodedBytes) (Some (ptrToAny a))) with false.
  change (hasType (TPtr TString) (Some (ptrToAny a))) with false.
  change (hasType (TPtr TByteSlice) (Some (ptrToAny a))) with false.
  change (implements TextScanner (Some (ptrToAny a))) with false.
  cbv beta iota. by repeat case_bool_decide.
Qed.

(** X24: scanning into a [*interface{}] with the adapters of [NewMap].
    Under a registered identifier whose codec plans nothing for the
    destination, and when [*interface{}] is not among the builtin
    pointer types, every adapter rule declines a non-nil [*interface{}]
    and [planScan] returns the plan that decodes with the codec of the
    descriptor.  Run on a destination that points to an allocated
    variable, that plan stores the decoded value in the variable; when
    the codec reports an error, the error is returned and the memory is
    left as it is. *)
Theorem planScan_into_empty_interface ext env fuel h oid formatCode a m dt :
  TypeForOID m oid = Some dt ->
  Codec_PlanScan (Type_Codec dt) h oid formatCode (Some (ptrToAny a))
  = None ->
  TryWrapScanPlanFuncs m = NewMap_TryWrapScanPlanFuncs ext ->
  typeSwitch (fun T => bool_decide (TPtr TEmptyInterface = TPtr T))
    (builtinTypes ext) = None ->
  valueOf (planScan (S fuel) h oid formatCode (Some (ptrToAny a)) m)
  = Some (pointerEmptyInterfaceScanPlan (Type_Codec dt) oid formatCode) /\
  forall src bs h',
    bytesOf h' src = Ret bs -> (a < length h')%nat ->
    ScanPlan_Scan env
      (pointerEmptyInterfaceScanPlan (Type_Codec dt) oid formatCode)
      src (Some (ptrToAny a)) h'
    = match Codec_DecodeValue (Type_Codec dt) oid formatCode bs with
      | (_, Some err) => Ret (h', Some err)
      | (value, None) => Ret (<[a := CAny value]> h', None)
      end.
Proof.
  intros Hdt Hcodec Hchain Hsw. split.
  - rewrite (planScan_registered _ _ _ _ _ _ _
               (planScan_fastPath_ptrToAny oid formatCode a) Hdt Hcodec).
    rewrite Hchain. unfold NewMap_TryWrapScanPlanFuncs.
    cbn [tryWrapScanPlans].
    assert (TryWrapBuiltinTypeScanPlan ext h (Some (ptrToAny a)) = Ret None)
      as ->.
    { unfold TryWrapBuiltinTypeScanPlan. cbn [ptrToAny vtype].
      by rewrite Hsw. }
    reflexivity.
  - intros src bs h' Hbs Hlt. cbn [ScanPlan_Scan]. rewrite Hbs.
    destruct (Codec_DecodeValue _ _ _ _) as [value [err|]]; [done|].
    change (hasType (TPtr TEmptyInterface) (Some (ptrToAny a))) with true.
    cbn. unfold store. by rewrite bool_decide_eq_true_2.
Qed.

Lemma planScan_into_empty_interface_witness :
  valueOf (planScan 1 [CAny None] Int4OID BinaryFormatCode (Some (ptrToAny 0))
             (RegisterType
                (emptyMap [] (NewMap_TryWrapScanPlanFuncs sampleExternal))
                type_int4))
  = Some (pointerEmptyInterfaceScanPlan (Type_Codec type_int4) Int4OID
            BinaryFormatCode).
Proof.
  refine (proj1 (planScan_into_empty_interface sampleExternal noMethods 0
                   [CAny None] Int4OID BinaryFormatCode 0
                   (RegisterType
                      (emptyMap [] (NewMap_TryWrapScanPlanFuncs sampleExternal))
                      type_int4)
                   type_int4 eq_refl eq_refl eq_refl eq_refl)).
Defined.

(** ** The registry of [NewMap] *)

Local Ltac computed_list l :=
  let l' := eval vm_compute in l in
  replace l with l' by (vm_compute; reflexivity).

(** X25: the two indexes of the registry of [NewMap].  Every
    descriptor found under an identifier has that identifier and is
    found under its name; every descriptor found under a name has that
    name and, except for [_char], is found under its identifier.  The
    array types [_char] and [_name] are registered under the one
    identifier 1003: the name [_char] leads to a descriptor with
    identifier 1003, and identifier 1003 leads to [_name]. *)
Theorem NewMap_indexes ext pkg :
  (forall oid d,
     TypeForOID (NewMap ext pkg) oid = Some d ->
     Type_OID d = oid /\
     TypeForName (NewMap ext pkg) (Type_Name d) = Some d) /\
  (forall name d,
     TypeForName (NewMap ext pkg) name = Some d ->
     Type_Name d = name /\
     (name <> "_char"%string ->
      TypeForOID (NewMap ext pkg) (Type_OID d) = Some d)) /\
  (exists d d',
     TypeForName (NewMap ext pkg) "_char" = Some d /\
     Type_OID d = QCharArrayOID /\
     TypeForOID (NewMap ext pkg) QCharArrayOID = Some d' /\
     Type_Name d' = "_name"%string).
Proof.
  split; [|split].
  - refine (proj1 (map_Forall_lookup
             (fun oid d =>
                Type_OID d = oid /\
                TypeForName (NewMap ext pkg) (Type_Name d) = Some d)
             (oidToType (NewMap ext pkg))) _).
    apply map_Forall_to_list.
    computed_list (map_to_list (oidToType (NewMap ext pkg))).
    repeat (apply Forall_cons; split;
            [split; [reflexivity | vm_compute; reflexivity] |]).
    apply Forall_nil_2.
  - refine (proj1 (map_Forall_lookup
             (fun name d =>
                Type_Name d = name /\
                (name <> "_char"%string ->
                 TypeForOID (NewMap ext pkg) (Type_OID d) = Some d))
             (nameToType (NewMap ext pkg))) _).
    apply map_Forall_to_list.
    computed_list (map_to_list (nameToType (NewMap ext pkg))).
    repeat (apply Forall_cons; split;
            [split; [reflexivity |
                     intros Hne;
                     first [ vm_compute; reflexivity
                           | exfalso; apply Hne; reflexivity ]] |]).
    apply Forall_nil_2.
  - exists (mkType (ArrayCodec pkg (Some (mkType (QCharCodec pkg) "char"
                                            QCharOID)))
              "_char" QCharArrayOID),
           (mkType (ArrayCodec pkg (Some (mkType (TextCodec pkg) "name"
                                            NameOID)))
              "_name" NameArrayOID).
    split; [vm_compute; reflexivity |]. split; [reflexivity |].
    split; [vm_compute; reflexivity | reflexivity].
Qed.


(** X26: the element types of [NewMap].  Every range and array
    descriptor of [NewMap] is built around the descriptor that the
    finished registry holds under the identifier of its element type:
    the lookups [m.oidToType[...]] that [NewMap] makes for [ElementType]
    never find nothing and never find a descriptor that is replaced
    later. *)
Theorem NewMap_element_types ext pkg :
  Forall (fun r : string * N * CodecExpr =>
            match r.2 with
            | RangeOf elementOID | ArrayOf elementOID =>
                is_Some (TypeForOID (NewMap ext pkg) elementOID) /\
                TypeForName (NewMap ext pkg) r.1.1
                = Some (mkType (evalCodec pkg (NewMap ext pkg) r.2)
                          r.1.1 r.1.2)
            | _ => True
            end) NewMap_registrations.
Proof.
  unfold NewMap_registrations.
  repeat (apply Forall_cons; split;
          [cbn [fst snd];
           lazymatch goal with
           | |- True => exact I
           | |- _ /\ _ =>
               split; [vm_compute; eauto | vm_compute; reflexivity]
           end |]).
  apply Forall_nil_2.
Qed.

(** ** The default shapes of [NewMap] *)

Lemma foldl_RegisterType_shapes pkg rs m :
  reflectTypeToName
    (foldl (fun m r =>
              RegisterType m (mkType (evalCodec pkg m r.2) r.1.1 r.1.2))
       m rs)
  = reflectTypeToName m.
Proof.
  revert m. induction rs as [|r rs IH]; intros m; [done|].
  cbn [foldl]. by rewrite IH.
Qed.

Lemma foldl_registerDefaultPgTypeVariants_shapes
    (ds : list (string * string * RType)) m :
  reflectTypeToName
    (foldl (fun m d => registerDefaultPgTypeVariants m d.1.1 d.1.2 d.2) m ds)
  = foldl insertShape (reflectTypeToName m)
      (flat_map (fun d => defaultVariants d.1.1 d.1.2 d.2) ds).
Proof.
  revert m. induction ds as [|d ds IH]; intros m; [done|].
  cbn [foldl flat_map]. rewrite IH, foldl_app. reflexivity.
Qed.

Lemma reflectTypeToName_NewMap ext pkg :
  reflectTypeToName (NewMap ext pkg)
  = foldl insertShape ∅ (NewMap_shapes ext pkg).
Proof.
  unfold NewMap. cbv zeta.
  rewrite foldl_registerDefaultPgTypeVariants_shapes.
  by rewrite foldl_RegisterType_shapes.
Qed.

Lemma reflectTypeToType_NewMap ext pkg :
  reflectTypeToType (NewMap ext pkg) = None.
Proof. vm_compute. reflexivity. Qed.

(** On a registry whose shape index is nil, [TypeForValue] builds it
    from the registrations. *)
Lemma TypeForValue_fresh m v :
  reflectTypeToType m = None ->
  (TypeForValue m v).1 = shapeType m (TypeOf v).
Proof.
  intros Hnil. unfold TypeForValue. rewrite Hnil. cbn [fst].
  apply (buildReflectTypeToType_lookup m (TypeOf v)).
Qed.

(** The shape recorded last wins. *)
Lemma lookup_foldl_insertShape_at l i k name acc :
  l !! i = Some (k, name) ->
  Forall (fun kv : option RType * string => kv.1 <> k) (drop (S i) l) ->
  foldl insertShape acc l !! k = Some name.
Proof.
  intros Hi Hlater.
  rewrite <- (take_drop_middle l i (k, name) Hi).
  rewrite foldl_app. cbn [foldl].
  generalize (foldl insertShape acc (take i l)). intros acc'.
  assert (insertShape acc' (k, name) !! k = Some name) as Hins
    by (unfold insertShape; apply lookup_insert_eq).
  revert Hins. generalize (insertShape acc' (k, name)).
  induction Hlater as [|kv rest Hkv Hrest IH]; intros acc'' Hacc; [done|].
  cbn [foldl]. apply IH. unfold insertShape.
  by rewrite lookup_insert_ne.
Qed.


Local Ltac decompose_Forall H :=
  repeat (apply Forall_cons in H as [? H]); clear H.

(** X27: what [NewMap] infers for byte slices.  [NewMap] first records
    [[]uint8] and [*[]uint8] as shapes of [_int8], as variants of
    [uint8], and later records [[]byte], the same type, and [*[]byte] as
    shapes of [bytea].  The later default wins: provided no value type
    of the package or the standard library that is given a default
    afterwards is [uint8], [[]byte] or [*[]byte], [TypeForValue] on the
    registry of [NewMap] returns the [bytea] descriptor for a [[]byte] and for a
    [*[]byte]. *)
Theorem NewMap_infers_bytea ext pkg v :
  Forall (fun T => T <> TBasic BUint8 /\ T <> TByteSlice /\
                   T <> TPtr TByteSlice)
    (typesAfterBytea ext pkg) ->
  TypeOf v = Some TByteSlice \/ TypeOf v = Some (TPtr TByteSlice) ->
  (TypeForValue (NewMap ext pkg) v).1
  = Some (mkType (ByteaCodec pkg) "bytea" ByteaOID).
Proof.
  intros Hext Hv. unfold typesAfterBytea in Hext.
  repeat (apply Forall_cons in Hext as [(? & ? & ?) Hext]). clear Hext.
  rewrite (TypeForValue_fresh _ _ (reflectTypeToType_NewMap ext pkg)).
  unfold shapeType. rewrite reflectTypeToName_NewMap.
  assert (foldl insertShape ∅ (NewMap_shapes ext pkg) !! TypeOf v
          = Some "bytea"%string) as ->.
  { unfold TByteSlice in *. destruct Hv as [-> | ->].
    - apply (lookup_foldl_insertShape_at _ 96); [reflexivity |].
      cbn [drop NewMap_shapes NewMap_defaults flat_map defaultVariants app
           fst snd].
      unfold TByteSlice.
      repeat (apply Forall_cons; split; [cbn [fst]; congruence |]).
      apply Forall_nil_2.
    - apply (lookup_foldl_insertShape_at _ 97); [reflexivity |].
      cbn [drop NewMap_shapes NewMap_defaults flat_map defaultVariants app
           fst snd].
      unfold TByteSlice.
      repeat (apply Forall_cons; split; [cbn [fst]; congruence |]).
      apply Forall_nil_2. }
  vm_compute. reflexivity.
Qed.

Lemma NewMap_infers_bytea_witness :
  (TypeForValue (NewMap sampleExternal samplePackage) (sample TByteSlice)).1
  = Some (mkType (ByteaCodec samplePackage) "bytea" ByteaOID).
Proof.
  apply NewMap_infers_bytea.
  - unfold typesAfterBytea.
    repeat (apply Forall_cons; split; [repeat split; discriminate |]).
    apply Forall_nil_2.
  - left. reflexivity.
Defined.



(** X29: [NewMap] gives [Float8range] a default type name that is not
    registered.  Provided [Float8range] is a struct type other than the
    value types given a default after it, [TypeForValue] on the registry
    of [NewMap] finds no descriptor for a [Float8range] value. *)
Theorem NewMap_Float8range_not_inferred ext pkg v :
  kindOf (pgtype_Float8range pkg) = KStruct ->
  Forall (fun T => T <> pgtype_Float8range pkg) (typesAfterFloat8range pkg) ->
  TypeOf v = Some (pgtype_Float8range pkg) ->
  (TypeForValue (NewMap ext pkg) v).1 = None.
Proof.
  intros Hk Hext Hv. unfold typesAfterFloat8range in Hext.
  decompose_Forall Hext.
  rewrite (TypeForValue_fresh _ _ (reflectTypeToType_NewMap ext pkg)).
  unfold shapeType. rewrite reflectTypeToName_NewMap, Hv.
  assert (foldl insertShape ∅ (NewMap_shapes ext pkg)
            !! Some (pgtype_Float8range pkg)
          = Some "float8range"%string) as ->.
  { apply (lookup_foldl_insertShape_at _ 162); [reflexivity |].
    cbn [drop NewMap_shapes NewMap_defaults flat_map defaultVariants app
         fst snd].
    repeat (apply Forall_cons; split;
            [cbn [fst]; intros E; injection E as E;
             first [ congruence
                   | apply (f_equal kindOf) in E; rewrite Hk in E;
                     discriminate E ] |]).
    apply Forall_nil_2. }
  vm_compute. reflexivity.
Qed.

Lemma NewMap_Float8range_not_inferred_witness :
  (TypeForValue (NewMap sampleExternal samplePackage)
     (sample (pgtype_Float8range samplePackage))).1 = None.
Proof.
  apply NewMap_Float8range_not_inferred.
  - reflexivity.
  - unfold typesAfterFloat8range.
    repeat (apply Forall_cons; split; [discriminate |]).
    apply Forall_nil_2.
  - reflexivity.
Defined.
